(** * Vision worker: table / bar-chart extraction pipeline

    A shallow embedding of [services/vision_worker/app]: the table detector
    and extractor ([extractors/table.py]), the bar-chart detector and
    extractor ([extractors/chart_bar.py]), the OCR adapter
    ([extractors/ocr.py]), the layout stub ([extractors/layout.py]) and the
    request handler ([main.py]).

    Conventions.
    - Python [int] is [Z]; a Python [float] is the rational [Q] it denotes
      (comparisons, [max]/[min] and truncation [int(.)] are the exact ones).
      Measured quantities (clock readings, confidences, OCR boxes, numpy's
      statistics) are combined exactly; where the code derives a pixel
      count or an index from an int and a float literal ([int(w * 0.35)],
      [np.linspace]) every operation rounds to binary64 as in [F64].
    - A [dict] of diagnostic flags is a [gmap string value].
    - [time.perf_counter()] is a sequence of readings: the [k]-th call
      returns [clock k]; every function that reads the clock threads the
      number of readings made so far.
    - OpenCV, PIL, numpy's statistics, the OCR engine, the file system and
      the network are capabilities of the environment ([Cv2], [Env]); a call
      that can raise returns [Exc]. *)

From Stdlib Require Import ZArith QArith Qround Qminmax Qabs Lia Lqa Bool Ascii String Sorted Permutation.
From Stdlib.Strings Require Import Byte.
From stdpp Require Import base option list gmap strings.

Local Open Scope Z_scope.

(** ** Exceptions *)

Inductive Exc (A : Type) : Type :=
| Ok (a : A)
| Raise (e : string).
Arguments Ok {A} a.
Arguments Raise {A} e.

#[global] Instance Exc_ret : MRet Exc := fun _ a => Ok a.
#[global] Instance Exc_bind : MBind Exc := fun _ _ f m =>
  match m with Ok a => f a | Raise e => Raise e end.

(** ** Binary64 arithmetic

    A finite double is the rational [m * 2^e] with [|m| < 2^53]; an
    operation returns its exact result rounded to the nearest double, ties
    to even. The exponent range is not bounded: the sizes the worker
    multiplies are far from overflow and underflow. *)

Module F64.

Definition pow2 (e : Z) : Q :=
  if 0 <=? e then inject_Z (2 ^ e) else 1 # Z.to_pos (2 ^ (- e)).

(** [floor(log2 q)] for [q > 0]. *)
Definition ilog2 (q : Q) : Z :=
  let k := Z.log2 (Qnum q) - Z.log2 (Z.pos (Qden q)) in
  match (q ?= pow2 k)%Q with Lt => k - 1 | _ => k end.

(** The nearest integer, ties to even. *)
Definition rne (q : Q) : Z :=
  let f := Qfloor q in
  match (q - inject_Z f ?= 1 # 2)%Q with
  | Lt => f
  | Gt => f + 1
  | Eq => if Z.even f then f else f + 1
  end.

(** The nearest double. *)
Definition round (q : Q) : Q :=
  if Qeq_bool q 0 then 0%Q
  else let e := ilog2 (Qabs q) - 52 in
       Qred (inject_Z (rne (q * pow2 (- e))) * pow2 e).

(** [float(n)] on an int, a decimal literal, and [+], [*], [/] on floats. *)
Definition of_int (n : Z) : Q := round (inject_Z n).
Definition lit (q : Q) : Q := round q.
Definition add (a b : Q) : Q := round (a + b).
Definition mul (a b : Q) : Q := round (a * b).
Definition div (a b : Q) : Q := round (a / b).

End F64.

(** ** Python built-ins used by the worker *)

Module Py.

(** JSON scalars stored in flag dictionaries. *)
Inductive value : Type :=
| VNone
| VBool (b : bool)
| VInt (z : Z)
| VStr (s : string).

Definition Qlt_bool (a b : Q) : bool := negb (Qle_bool b a).

(** [int(x)] on a float: truncation toward zero. *)
Definition int_ (q : Q) : Z := Z.quot (Qnum q) (Z.pos (Qden q)).

(** [float(n)] on an int. *)
Definition float_ (z : Z) : Q := inject_Z z.

(** [int(n * c)] for an int [n] and a float literal [c]: the int is
    converted and the product rounded before the truncation, so
    [int(180 * 0.35)] is [62]. *)
Definition int_mul (n : Z) (c : Q) : Z :=
  int_ (F64.mul (F64.of_int n) (F64.lit c)).

(** [max(a, b)] and [min(a, b)]: the first argument wins ties. *)
Definition maxq (a b : Q) : Q := if Qlt_bool a b then b else a.
Definition minq (a b : Q) : Q := if Qlt_bool b a then b else a.

(** [range(n)]. *)
Definition range (n : Z) : list Z := map Z.of_nat (seq 0 (Z.to_nat n)).

(** [len(l)]. *)
Definition len {A} (l : list A) : Z := Z.of_nat (length l).

(** [sorted(l, key=k)]: stable, ascending; [ltb] is [<] on the keys. An
    element goes in front of the later elements with an equal key. *)
Fixpoint insert_by {A K} (ltb : K -> K -> bool) (k : A -> K) (x : A)
  (l : list A) : list A :=
  match l with
  | [] => [x]
  | y :: l' => if ltb (k y) (k x) then y :: insert_by ltb k x l'
               else x :: y :: l'
  end.

Definition sorted {A K} (ltb : K -> K -> bool) (k : A -> K) (l : list A)
  : list A :=
  foldr (fun x acc => insert_by ltb k x acc) [] l.

(** [<] on pairs of ints, as Python compares tuples. *)
Definition pair_ltb (a b : Z * Z) : bool :=
  (fst a <? fst b) || ((fst a =? fst b) && (snd a <? snd b)).

(** [sorted(set(l))] on ints: ascending, duplicates removed. *)
Fixpoint insert_set (x : Z) (l : list Z) : list Z :=
  match l with
  | [] => [x]
  | y :: l' => if x <? y then x :: y :: l'
               else if x =? y then y :: l'
               else y :: insert_set x l'
  end.

Definition sorted_set (l : list Z) : list Z :=
  foldr insert_set [] l.

(** [max(l, key=k)]: the first maximal element; raises on [[]]. *)
Fixpoint max_by_from {A K} (ltb : K -> K -> bool) (k : A -> K) (best : A)
  (l : list A) : A :=
  match l with
  | [] => best
  | x :: l' => max_by_from ltb k (if ltb (k best) (k x) then x else best) l'
  end.

Definition max_by {A K} (ltb : K -> K -> bool) (k : A -> K) (l : list A)
  : Exc A :=
  match l with
  | [] => Raise "max() arg is an empty sequence"
  | x :: l' => Ok (max_by_from ltb k x l')
  end.

(** [max(l)] and [min(l)] on ints; raise on [[]]. *)
Definition max_list (l : list Z) : Exc Z :=
  match l with
  | [] => Raise "max() arg is an empty sequence"
  | x :: l' => Ok (foldl Z.max x l')
  end.

Definition min_list (l : list Z) : Exc Z :=
  match l with
  | [] => Raise "min() arg is an empty sequence"
  | x :: l' => Ok (foldl Z.min x l')
  end.

(** [sum(l)] on floats. *)
Definition sumq (l : list Q) : Q := foldl Qplus 0%Q l.

(** [s.strip()], on ASCII white space. *)
Definition is_space (c : ascii) : bool :=
  let n := nat_of_ascii c in
  orb (Nat.eqb n 32) (andb (Nat.leb 9 n) (Nat.leb n 13)).

Fixpoint lstrip (s : string) : string :=
  match s with
  | EmptyString => EmptyString
  | String c s' => if is_space c then lstrip s' else s
  end.

Fixpoint rstrip (s : string) : string :=
  match s with
  | EmptyString => EmptyString
  | String c s' =>
      match rstrip s' with
      | EmptyString => if is_space c then EmptyString else String c EmptyString
      | r => String c r
      end
  end.

Definition strip (s : string) : string := rstrip (lstrip s).

(** Truthiness of a string: [if s:]. *)
Definition truthy (s : string) : bool :=
  match s with EmptyString => false | _ => true end.

(** [sep.join(l)]. *)
Fixpoint join (sep : string) (l : list string) : string :=
  match l with
  | [] => EmptyString
  | [s] => s
  | s :: l' => s +:+ sep +:+ join sep l'
  end.

(** Truthiness of a flag value, as [if flags.get(k):] tests it. *)
Definition truthy_value (v : option value) : bool :=
  match v with
  | None | Some VNone => false
  | Some (VBool b) => b
  | Some (VInt z) => negb (z =? 0)
  | Some (VStr s) => truthy s
  end.

(** [l[i]]: negative indices count from the end; raises out of range. *)
Definition getitem {A} (l : list A) (i : Z) : Exc A :=
  let j := if i <? 0 then len l + i else i in
  if j <? 0 then Raise "list index out of range"
  else match l !! Z.to_nat j with
       | Some x => Ok x
       | None => Raise "list index out of range"
       end.

(** [s.endswith(c)] for a one-character [c]. *)
Fixpoint endswith_char (c : ascii) (s : string) : bool :=
  match s with
  | EmptyString => false
  | String a EmptyString => Ascii.eqb a c
  | String _ s' => endswith_char c s'
  end.

(** [s.replace(c, "")] for a one-character [c]. *)
Fixpoint remove_char (c : ascii) (s : string) : string :=
  match s with
  | EmptyString => EmptyString
  | String a s' => if Ascii.eqb a c then remove_char c s'
                   else String a (remove_char c s')
  end.

(** [np.argmin(l)]: index of the first minimum; raises on [[]]. *)
Fixpoint argmin_from {K} (ltb : K -> K -> bool) (best_i : Z) (best : K)
  (i : Z) (l : list K) : Z :=
  match l with
  | [] => best_i
  | v :: l' => if ltb v best then argmin_from ltb i v (i + 1) l'
               else argmin_from ltb best_i best (i + 1) l'
  end.

Definition argmin {K} (ltb : K -> K -> bool) (l : list K) : Exc Z :=
  match l with
  | [] => Raise "attempt to get argmin of an empty sequence"
  | v :: l' => Ok (argmin_from ltb 0 v 1 l')
  end.

Definition Qabs_ (q : Q) : Q := if Qlt_bool q 0 then (- q)%Q else q.

(** [s.startswith(p)]. *)
Fixpoint startswith (p s : string) : bool :=
  match p, s with
  | EmptyString, _ => true
  | String a p', String b s' => if Ascii.eqb a b then startswith p' s' else false
  | String _ _, EmptyString => false
  end.

End Py.

Abbreviation Flags := (gmap string Py.value).

(** [d.update(other)]: keys of [other] overwrite. *)
Definition update (d other : Flags) : Flags := other ∪ d.

(** ** Images, arrays and the environment *)

(** A PIL image: [size] is [(width, height)]. *)
Record Image : Type := {
  size : Z * Z;
  mode : string;
  getpixel : Z -> Z -> Z
}.

(** [image.crop((l, t, r, b))]. *)
Definition crop (image : Image) (box : Z * Z * Z * Z) : Image :=
  let '(l, t, r, b) := box in
  {| size := (r - l, b - t);
     mode := mode image;
     getpixel := fun x y =>
       let sx := x + l in
       let sy := y + t in
       if (0 <=? sx) && (sx <? fst (size image)) &&
          (0 <=? sy) && (sy <? snd (size image))
       then getpixel image sx sy else 0 |}.

(** A two-dimensional [uint8] numpy array: [shape] is [(rows, cols)] and
    [at_ a y x] is [a[y, x]]. *)
Record ndarray : Type := {
  shape : Z * Z;
  at_ : Z -> Z -> Z
}.

(** [np.count_nonzero(a)]. *)
Definition np_count_nonzero (a : ndarray) : Z :=
  let '(h, w) := shape a in
  Py.len (flat_map (fun y => List.filter (fun x => negb (at_ a y x =? 0)) (Py.range w))
                   (Py.range h)).

(** [np.sum(a > 0, axis=1)]: one count per row. *)
Definition np_sum_gt0_axis1 (a : ndarray) : list Z :=
  let '(h, w) := shape a in
  map (fun y => Py.len (List.filter (fun x => 0 <? at_ a y x) (Py.range w))) (Py.range h).

(** [np.sum(a > 0, axis=0)]: one count per column. *)
Definition np_sum_gt0_axis0 (a : ndarray) : list Z :=
  let '(h, w) := shape a in
  map (fun x => Py.len (List.filter (fun y => 0 <? at_ a y x) (Py.range h))) (Py.range w).

(** [np.where(proj >= threshold)[0]]: the indices, ascending. *)
Definition np_where_ge (proj : list Z) (threshold : Z) : list Z :=
  List.filter (fun i => threshold <=? nth (Z.to_nat i) proj 0) (Py.range (Py.len proj)).

(** [np.mean(l)]. *)
Definition np_mean (l : list Q) : Q := (Py.sumq l / Py.float_ (Py.len l))%Q.

(** [np.median(l)]: middle element of the sorted list, or the mean of the
    two middle ones. *)
Definition np_median (l : list Q) : Q :=
  let s := Py.sorted Py.Qlt_bool (fun q => q) l in
  let n := length s in
  if Nat.even n
  then ((nth (n / 2 - 1)%nat s 0 + nth (n / 2)%nat s 0) / 2)%Q
  else nth (n / 2)%nat s 0%Q.

(** A contour: its boundary points. *)
Definition contour : Type := list (Z * Z).

(** The OpenCV module object returned by [import cv2]. *)
Record Cv2 : Type := {
  GaussianBlur : ndarray -> Z * Z -> Z -> Exc ndarray;
  threshold : ndarray -> Z -> Z -> Z -> Exc (Q * ndarray);
  getStructuringElement : Z -> Z * Z -> Exc ndarray;
  erode : ndarray -> ndarray -> Z -> Exc ndarray;
  dilate : ndarray -> ndarray -> Z -> Exc ndarray;
  morphologyEx : ndarray -> Z -> ndarray -> Z -> Exc ndarray;
  bitwise_or : ndarray -> ndarray -> Exc ndarray;
  bitwise_and : ndarray -> ndarray -> Exc ndarray;
  subtract : ndarray -> ndarray -> Exc ndarray;
  findContours : ndarray -> Z -> Z -> Exc (list contour * ndarray);
  boundingRect : contour -> Exc (Z * Z * Z * Z);
  drawContours : ndarray -> list contour -> Z -> Z -> Z -> Exc ndarray
}.

Module cv2_const.
Definition MORPH_RECT : Z := 0.
Definition MORPH_OPEN : Z := 2.
Definition THRESH_BINARY_INV : Z := 1.
Definition THRESH_OTSU : Z := 8.
Definition RETR_EXTERNAL : Z := 0.
Definition CHAIN_APPROX_SIMPLE : Z := 2.
End cv2_const.

(** One word of [pytesseract.image_to_data(..., output_type=DICT, lang=l)]:
    the entries of the parallel lists at one index. [conf] is [None] when the
    entry is missing or is not a number. *)
Record TessWord : Type := {
  tw_text : string;
  tw_left : Z;
  tw_top : Z;
  tw_width : Z;
  tw_height : Z;
  tw_conf : option Q
}.

(** The [pytesseract] module object. *)
Record Pytesseract : Type := {
  image_to_string : Image -> string -> Exc string;
  image_to_data : Image -> option string -> Exc (list TessWord)
}.

(** Everything outside the worker's own code. *)
Record Env : Type := {
  (** [time.perf_counter()], by call index *)
  clock : nat -> Q;
  (** [import cv2]: the module, or [str(e)] *)
  import_cv2 : Exc Cv2;
  (** [import pytesseract] *)
  import_pytesseract : Exc Pytesseract;
  (** [shutil.which("tesseract") is not None] *)
  which_tesseract : bool;
  (** [image.convert(mode)] *)
  convert : Image -> string -> Exc Image;
  (** [np.array(image)] *)
  np_array : Image -> Exc ndarray;
  (** [np.zeros_like(a)] *)
  np_zeros_like : ndarray -> Exc ndarray;
  (** [np.std(l)] *)
  np_std : list Q -> Q;
  (** [np.polyfit(ys, vs, 1)] *)
  np_polyfit : list Q -> list Q -> Exc (Q * Q);
  (** [_NUM_RE.search(t)]: [m.group(0)], or [None] *)
  num_re_search : string -> option string;
  (** [float(s)] on a string: the number, or [ValueError] *)
  float_of_str : string -> Exc Q;
  (** [os.getenv(name)]: the setting, or [None] *)
  getenv : string -> option string;
  (** [requests.get(uri, timeout=t)] followed by [raise_for_status()]
      and [.content] *)
  requests_get : string -> Q -> Exc (list byte);
  (** [open(path, "rb").read()] *)
  read_file : string -> Exc (list byte);
  (** [Image.open(BytesIO(b))] followed by [img.load()] *)
  Image_open : list byte -> Exc Image;
  (** [hashlib.sha256(b).hexdigest()] *)
  sha256_hexdigest : list byte -> string
}.

(** ** Helpers shared by [table.py] and [chart_bar.py] *)

Definition _now (env : Env) (n : nat) : Q * nat := (clock env n, S n).

Definition _deadline_exceeded (env : Env) (deadline : option Q) (n : nat)
  : bool * nat :=
  match deadline with
  | None => (false, n)
  | Some d => let '(t, n') := _now env n in (Py.Qlt_bool d t, n')
  end.

Definition _clamp01 (v : Q) : Q :=
  if Py.Qlt_bool v 0 then 0%Q
  else if Py.Qlt_bool 1 v then 1%Q
  else v.

Definition _safe_import_cv2 (env : Env) : option Cv2 * option string :=
  match import_cv2 env with
  | Ok cv2 => (Some cv2, None)
  | Raise e => (None, Some e)
  end.

Definition _pil_to_gray_np (env : Env) (image : Image) : Exc ndarray :=
  image ← (if String.eqb (mode image) "L" then Ok image else convert env image "L");
  np_array env image.

Definition _threshold_binary (cv2 : Cv2) (gray : ndarray) : Exc ndarray :=
  blur ← GaussianBlur cv2 gray (3, 3) 0;
  '(_, bw) ← threshold cv2 blur 0 255
               (cv2_const.THRESH_BINARY_INV + cv2_const.THRESH_OTSU);
  Ok bw.

(** ** [models.py] *)

Module Models.

(** The literal type [AssetType]: "chart", "table", "map", "diagram",
    "image_text", "unknown". *)
Inductive AssetType : Type :=
| AssetChart | AssetTable | AssetMap | AssetDiagram | AssetImageText
| AssetUnknown.

Record BBox : Type := { x : Q; y : Q; w : Q; h : Q }.

Record OcrBlock : Type := {
  text : string;
  bbox : BBox;
  block_confidence : option Q
}.

End Models.

(** ** [extractors/table.py] *)

Module Table.
Import Py Models.

Record TableDetectResult : Type := {
  detected : bool;
  grid_detected : bool;
  method : string;
  line_pixel_ratio : Q;
  intersections_count : Z;
  x_lines : list Z;
  y_lines : list Z
}.

Definition _extract_lines (cv2 : Cv2) (bw : ndarray) (axis : string)
  (min_kernel : Z) : Exc ndarray :=
  let '(h, w) := shape bw in
  kernel ← (if String.eqb axis "h"
            then let k := Z.max min_kernel (w / 30) in
                 getStructuringElement cv2 cv2_const.MORPH_RECT (k, 1)
            else let k := Z.max min_kernel (h / 30) in
                 getStructuringElement cv2 cv2_const.MORPH_RECT (1, k));
  eroded ← erode cv2 bw kernel 1;
  dilated ← dilate cv2 eroded kernel 1;
  Ok dilated.

(** The loop of [_segments_to_centers]: [centers], [start] and [prev] are
    the loop variables, [rest] is what is left of [indices[1:]]; the
    result includes the final [centers.append]. *)
Fixpoint segments_loop (centers : list Z) (start prev : Z) (rest : list Z)
  : list Z :=
  match rest with
  | [] => centers ++ [(start + prev) / 2]
  | i :: rest' =>
      if i =? prev + 1 then segments_loop centers start i rest'
      else segments_loop (centers ++ [(start + prev) / 2]) i i rest'
  end.

Definition _segments_to_centers (indices : list Z) : list Z :=
  match indices with
  | [] => []
  | i0 :: rest => segments_loop [] i0 i0 rest
  end.

(** [active] of [_line_positions_from_mask]: the projection indices at or
    above the threshold. *)
Definition active_of (mask : ndarray) (axis : string) : list Z :=
  let '(h, w) := shape mask in
  let '(proj, threshold) :=
    if String.eqb axis "h"
    then (np_sum_gt0_axis1 mask, Z.max 10 (int_mul w 0.35))
    else (np_sum_gt0_axis0 mask, Z.max 10 (int_mul h 0.35)) in
  np_where_ge proj threshold.

Definition _line_positions_from_mask (mask : ndarray) (axis : string)
  : list Z :=
  let active := active_of mask axis in
  _segments_to_centers active.

(** The all-empty result of the early returns and of the handlers. *)
Definition no_table : TableDetectResult :=
  {| detected := false; grid_detected := false; method := "grid_lines_v1";
     line_pixel_ratio := 0; intersections_count := 0;
     x_lines := []; y_lines := [] |}.

(** [line_ratio] as [detect_table] computes it from [combined]. *)
Definition line_ratio_of (bw combined : ndarray) : Q :=
  let '(h, w) := shape bw in
  let total_pixels := float_ (Z.max 1 (h * w)) in
  let line_pixels := float_ (np_count_nonzero combined) in
  (line_pixels / total_pixels)%Q.

(** The arrays a run of [detect_table] computes: [bw], [horizontal],
    [vertical], [combined] and [intersections]. *)
Record Masks : Type := {
  bw : ndarray;
  horizontal : ndarray;
  vertical : ndarray;
  combined : ndarray;
  intersections : ndarray
}.

(** The measurements and the decision of [detect_table], from
    [h, w = bw.shape[:2]] to the result it returns. *)
Definition measure (m : Masks) : TableDetectResult :=
  let line_ratio := line_ratio_of (bw m) (combined m) in
  let intersections_count := np_count_nonzero (intersections m) in
  let x_lines := _line_positions_from_mask (vertical m) "v" in
  let y_lines := _line_positions_from_mask (horizontal m) "h" in
  let min_lines_ok := (3 <=? len x_lines) && (3 <=? len y_lines) in
  let ratio_ok := Qle_bool 0.008 line_ratio in
  let intersections_ok := 200 <=? intersections_count in
  let detected := min_lines_ok && (ratio_ok || intersections_ok) in
  let grid_detected := min_lines_ok in
  {| detected := detected;
     grid_detected := grid_detected;
     method := "grid_lines_v1";
     line_pixel_ratio := _clamp01 (line_ratio * 10.0);
     intersections_count := intersections_count;
     x_lines := x_lines;
     y_lines := y_lines |}.

(** [gray] and [bw]: the first two statements of the [try] block. *)
Definition binarize (env : Env) (cv2 : Cv2) (image : Image) : Exc ndarray :=
  gray ← _pil_to_gray_np env image;
  _threshold_binary cv2 gray.

(** The line masks and their union and intersection. *)
Definition line_masks (cv2 : Cv2) (bw : ndarray) : Exc Masks :=
  horizontal ← _extract_lines cv2 bw "h" 10;
  vertical ← _extract_lines cv2 bw "v" 10;
  combined ← bitwise_or cv2 horizontal vertical;
  intersections ← bitwise_and cv2 horizontal vertical;
  Ok {| bw := bw; horizontal := horizontal; vertical := vertical;
        combined := combined; intersections := intersections |}.

Definition detect_table (env : Env) (image : Image) (deadline : option Q)
  (n : nat) : TableDetectResult * Flags * nat :=
  let flags : Flags :=
    <["grid_detected" := VBool false]> {["table_detected" := VBool false]} in
  let '(late, n) := _deadline_exceeded env deadline n in
  if late then (no_table, <["time_budget_exceeded" := VBool true]> flags, n)
  else
  match _safe_import_cv2 env with
  | (None, cv2_err) =>
      (no_table,
       <["opencv_error" := from_option VStr VNone cv2_err]>
         (<["opencv_missing" := VBool true]> flags), n)
  | (Some cv2, _) =>
      let on_error (e : string) (flags : Flags) :=
        <["extraction_error_detail" := VStr e]>
          (<["extraction_error" := VBool true]> flags) in
      match binarize env cv2 image with
      | Raise e => (no_table, on_error e flags, n)
      | Ok bw =>
          let '(late, n) := _deadline_exceeded env deadline n in
          if late
          then (* raise TimeoutError, handled by the first handler *)
            (no_table, <["time_budget_exceeded" := VBool true]> flags, n)
          else
          match (m ← line_masks cv2 bw; Ok (measure m)) with
          | Raise e => (no_table, on_error e flags, n)
          | Ok res =>
              (res,
               <["grid_detected" := VBool (grid_detected res)]>
                 (<["table_detected" := VBool (detected res)]> flags), n)
          end
      end
  end.

Definition _default_cell_ocr (env : Env) (image : Image) : string * Flags :=
  match import_pytesseract env with
  | Raise e =>
      ("", <["pytesseract_error" := VStr e]>
             {["pytesseract_missing" := VBool true]})
  | Ok pytesseract =>
      if negb (which_tesseract env)
      then ("", {["tesseract_binary_missing" := VBool true]})
      else
        match image_to_string pytesseract image "--psm 6" with
        | Ok txt => (strip txt, ∅)
        | Raise e =>
            ("", <["cell_ocr_error" := VStr e]>
                   {["cell_ocr_failed" := VBool true]})
        end
  end.

Definition _crop_cell (image : Image) (left top right bottom : Z) : Image :=
  let '(w, h) := size image in
  let l := Z.max 0 (Z.min w left) in
  let t := Z.max 0 (Z.min h top) in
  let r := Z.max 0 (Z.min w right) in
  let b := Z.max 0 (Z.min h bottom) in
  if (r <=? l + 1) || (b <=? t + 1)
  then crop image (0, 0, 1, 1)
  else crop image (l, t, r, b).

(** [np.linspace(0, stop, num).astype(int).tolist()]. *)
Definition linspace_int (stop num : Z) : list Z :=
  map (fun i => int_ (float_ i * (float_ stop / float_ (num - 1)))) (range num).

Definition _cap_lines (lines : list Z) (cap : Z) : list Z :=
  let xs := sorted_set lines in
  if len xs <=? cap then xs
  else
    let idxs := linspace_int (len xs - 1) cap in
    map (fun i => nth (Z.to_nat i) xs 0) idxs.

(** Row grouping loop of [_cluster_blocks_to_grid]. *)
Fixpoint rows_loop (y_tol : Z) (items : list (Z * Z * string))
  (rows : list (list (Z * string))) (cur : list (Z * string))
  (cur_y : option Z) : list (list (Z * string)) * list (Z * string) :=
  match items with
  | [] => (rows, cur)
  | (x, y, text) :: items' =>
      match cur_y with
      | None => rows_loop y_tol items' rows [(x, text)] (Some y)
      | Some cy =>
          if Z.abs (y - cy) <=? y_tol
          then rows_loop y_tol items' rows (cur ++ [(x, text)])
                 (Some (int_ (F64.div (F64.of_int (cy + y)) 2)))
          else rows_loop y_tol items' (rows ++ [sorted Z.ltb fst cur])
                 [(x, text)] (Some y)
      end
  end.

(** Column-centre loop: [centers] is never empty. *)
Fixpoint centers_loop (x_gap : Z) (xs : list Z) (centers : list Z) : list Z :=
  match xs with
  | [] => centers
  | x :: xs' =>
      let last_c := List.last centers 0 in
      if x_gap <? Z.abs (x - last_c)
      then centers_loop x_gap xs' (centers ++ [x])
      else centers_loop x_gap xs'
             (removelast centers ++ [int_ (F64.div (F64.of_int (last_c + x)) 2)])
  end.

(** [cell_words[j].append(text)]. *)
Definition append_at (cell_words : list (list string)) (j : Z) (text : string)
  : list (list string) :=
  alter (fun ws => ws ++ [text]) (Z.to_nat j) cell_words.

Fixpoint words_loop (centers : list Z) (r : list (Z * string))
  (cell_words : list (list string)) : Exc (list (list string)) :=
  match r with
  | [] => Ok cell_words
  | (x, text) :: r' =>
      j ← argmin Z.ltb (map (fun c => Z.abs (x - c)) centers);
      words_loop centers r' (append_at cell_words j text)
  end.

Fixpoint grid_rows (centers : list Z) (rows : list (list (Z * string)))
  : Exc (list (list string)) :=
  match rows with
  | [] => Ok []
  | r :: rows' =>
      cell_words ← words_loop centers r (replicate (length centers) []);
      rest ← grid_rows centers rows';
      Ok (map (fun ws => strip (join " " ws)) cell_words :: rest)
  end.

Definition _cluster_blocks_to_grid (blocks : list OcrBlock) (img_w img_h : Z)
  : Exc (list (list string) * Z * Z) :=
  if (len blocks =? 0) || (img_w <=? 0) || (img_h <=? 0) then Ok ([], 0, 0)
  else
    let items :=
      flat_map (fun b =>
        if negb (truthy (text b)) then []
        else
          let bx :=
            int_ (F64.mul (F64.add (x (bbox b)) (F64.div (w (bbox b)) 2.0))
                    (F64.of_int img_w)) in
          let by_ :=
            int_ (F64.mul (F64.add (y (bbox b)) (F64.div (h (bbox b)) 2.0))
                    (F64.of_int img_h)) in
          [(bx, by_, strip (text b))]) blocks in
    if len items =? 0 then Ok ([], 0, 0)
    else
      let items := sorted pair_ltb (fun t => (snd (fst t), fst (fst t))) items in
      let y_tol := Z.max 8 (int_mul img_h 0.02) in
      let '(rows, cur) := rows_loop y_tol items [] [] None in
      let rows := if len cur =? 0 then rows else rows ++ [sorted Z.ltb fst cur] in
      let xs := sorted Z.ltb (fun v => v) (flat_map (map fst) rows) in
      match xs with
      | [] => Ok ([], 0, 0)
      | x0 :: xs' =>
          let x_gap := Z.max 12 (int_mul img_w 0.04) in
          let centers := centers_loop x_gap xs' [x0] in
          let col_count := len centers in
          grid ← grid_rows centers rows;
          Ok (grid, len grid, col_count)
      end.

(** The [table] object of the structured-JSON patch [{"table": ...}]. *)
Record TableJson : Type := {
  rows : list (list string);
  confidence : Q;
  table_method : string;
  notes : option string
}.

Definition set_rows (t : TableJson) (r : list (list string)) : TableJson :=
  {| rows := r; confidence := confidence t;
     table_method := table_method t; notes := notes t |}.
Definition set_confidence (t : TableJson) (c : Q) : TableJson :=
  {| rows := rows t; confidence := c;
     table_method := table_method t; notes := notes t |}.
Definition set_method (t : TableJson) (m : string) : TableJson :=
  {| rows := rows t; confidence := confidence t;
     table_method := m; notes := notes t |}.
Definition set_notes (t : TableJson) (s : string) : TableJson :=
  {| rows := rows t; confidence := confidence t;
     table_method := table_method t; notes := Some s |}.

(** The state of the grid loops: what has been produced so far. *)
Record GridState : Type := {
  g_rows : list (list string);
  g_cell_flags : Flags;
  g_flags : Flags;
  g_reads : nat
}.

Definition OcrFn : Type := Image -> Exc (string * Flags).

Section grid.
Context (env : Env) (image : Image) (deadline : option Q) (ocr : OcrFn).
Context (x_lines y_lines : list Z) (pad : Z).

(** [for ci in range(max_cols)]: returns the row and whether the loop
    body raised. *)
Fixpoint cols_loop (top bottom : Z) (cis : list Z) (row_cells : list string)
  (cell_flags flags : Flags) (n : nat)
  : Exc (list string) * Flags * Flags * nat :=
  match cis with
  | [] => (Ok row_cells, cell_flags, flags, n)
  | ci :: cis' =>
      let '(late, n) := _deadline_exceeded env deadline n in
      if late
      then (Ok row_cells, cell_flags,
            <["time_budget_exceeded" := VBool true]> flags, n)
      else
        match (left ← getitem x_lines ci;
               right ← getitem x_lines (ci + 1);
               let cell_img :=
                 _crop_cell image (left + pad) (top + pad)
                   (right - pad) (bottom - pad) in
               ocr cell_img) with
        | Raise e => (Raise e, cell_flags, flags, n)
        | Ok (txt, f) =>
            cols_loop top bottom cis'
              (row_cells ++ [if truthy txt then txt else ""])
              (update cell_flags f) flags n
        end
  end.

(** [for ri in range(max_rows)]. *)
Fixpoint rows_grid_loop (max_cols : Z) (ris : list Z) (st : GridState)
  : Exc unit * GridState :=
  match ris with
  | [] => (Ok (), st)
  | ri :: ris' =>
      let '(late, n) := _deadline_exceeded env deadline (g_reads st) in
      if late
      then (Ok (),
            {| g_rows := g_rows st; g_cell_flags := g_cell_flags st;
               g_flags := <["time_budget_exceeded" := VBool true]> (g_flags st);
               g_reads := n |})
      else
        match (top ← getitem y_lines ri;
               bottom ← getitem y_lines (ri + 1);
               Ok (top, bottom)) with
        | Raise e =>
            (Raise e,
             {| g_rows := g_rows st; g_cell_flags := g_cell_flags st;
                g_flags := g_flags st; g_reads := n |})
        | Ok (top, bottom) =>
            let '(r, cell_flags', flags', n) :=
              cols_loop top bottom (range max_cols) []
                (g_cell_flags st) (g_flags st) n in
            match r with
            | Raise e =>
                (Raise e,
                 {| g_rows := g_rows st; g_cell_flags := cell_flags';
                    g_flags := flags'; g_reads := n |})
            | Ok row_cells =>
                rows_grid_loop max_cols ris'
                  {| g_rows := g_rows st ++ [row_cells];
                     g_cell_flags := cell_flags';
                     g_flags := flags'; g_reads := n |}
            end
        end
  end.
End grid.

(** The handler of [except Exception as e] in [extract_table]. *)
Definition on_error (e : string) (table : TableJson) (flags : Flags)
  : TableJson * Flags :=
  (set_confidence (set_notes (set_method table "ocr_cluster_v1")
                     "extraction_error") 0.0,
   <["extraction_error_detail" := VStr e]>
     (<["extraction_error" := VBool true]> flags)).

Definition extract_table (env : Env) (image : Image)
  (detect : TableDetectResult) (ocr_blocks : option (list OcrBlock))
  (deadline : option Q) (ocr_fn : option OcrFn) (n : nat)
  : TableJson * Flags * nat :=
  let '(started, n) := _now env n in
  let flags : Flags :=
    <["used_fallback_clustering" := VBool false]>
      (<["grid_detected" := VBool (grid_detected detect)]>
         {["table_detected" := VBool (detected detect)]}) in
  let table : TableJson :=
    {| rows := []; confidence := 0.0; table_method := "grid_lines_v1";
       notes := None |} in
  let '(table, flags, n) :=
    let '(img_w, img_h) := size image in
    let '(late, n) := _deadline_exceeded env deadline n in
    if late
    then (set_notes table "time_budget_exceeded",
          <["time_budget_exceeded" := VBool true]> flags, n)
    else
      let x_lines := _cap_lines (x_lines detect) 60 in
      let y_lines := _cap_lines (y_lines detect) 80 in
      if grid_detected detect && (3 <=? len x_lines) && (3 <=? len y_lines)
      then
        let ocr : OcrFn :=
          default (fun im => Ok (_default_cell_ocr env im)) ocr_fn in
        let max_rows := Z.min (len y_lines - 1) 40 in
        let max_cols := Z.min (len x_lines - 1) 20 in
        let pad := 2 in
        let '(r, st) :=
          rows_grid_loop env image deadline ocr x_lines y_lines pad
            max_cols (range max_rows)
            {| g_rows := []; g_cell_flags := ∅; g_flags := flags; g_reads := n |} in
        match r with
        | Raise e =>
            let '(table, flags) := on_error e table (g_flags st) in
            (table, flags, g_reads st)
        | Ok _ =>
            let flags :=
              if Nat.eqb (base.size (g_cell_flags st)) 0 then g_flags st
              else update (g_flags st) (g_cell_flags st) in
            let table := set_rows table (g_rows st) in
            let grid_strength :=
              _clamp01 (minq 1.0 (float_ (intersections_count detect) / 4000.0)) in
            let base :=
              if truthy_value (flags !! "time_budget_exceeded")
              then 0.45%Q else 0.65%Q in
            let table := set_confidence table (_clamp01 (base + 0.25 * grid_strength)) in
            let table := set_method table "grid_lines_v1" in
            let table :=
              if truthy_value (flags !! "time_budget_exceeded")
              then set_notes table "time_budget_exceeded" else table in
            (table, flags, g_reads st)
        end
      else
        let flags := <["used_fallback_clustering" := VBool true]> flags in
        let table := set_method table "ocr_cluster_v1" in
        let '(late, n) := _deadline_exceeded env deadline n in
        if late
        then (set_notes table "time_budget_exceeded",
              <["time_budget_exceeded" := VBool true]> flags, n)
        else
          match _cluster_blocks_to_grid (default [] ocr_blocks) img_w img_h with
          | Raise e =>
              let '(table, flags) := on_error e table flags in
              (table, flags, n)
          | Ok (grid, r, c) =>
              let table := set_rows table grid in
              let table :=
                set_confidence table
                  (if (0 <? r) && (0 <? c) then 0.35%Q else 0.15%Q) in
              let table :=
                if len grid =? 0
                then set_notes table "no_ocr_blocks_for_clustering"
                else table in
              (table, flags, n)
          end in
  let '(t_end, n) := _now env n in
  (table,
   <["table_elapsed_ms" := VInt (int_ ((t_end - started) * 1000))]> flags, n).

(** Whether [extract_table] takes the grid-slice branch. *)
Definition grid_path (detect : TableDetectResult) : bool :=
  grid_detected detect
  && (3 <=? len (_cap_lines (x_lines detect) 60))
  && (3 <=? len (_cap_lines (y_lines detect) 80)).

End Table.

(** ** [extractors/chart_bar.py] *)

Module ChartBar.
Import Py Models.

(** A pixel rectangle [(x, y, w, h)]. *)
Definition Rect : Type := Z * Z * Z * Z.

Definition rx (r : Rect) : Z := fst (fst (fst r)).
Definition ry (r : Rect) : Z := snd (fst (fst r)).
Definition rw (r : Rect) : Z := snd (fst r).
Definition rh (r : Rect) : Z := snd r.

Record BarChartDetectResult : Type := {
  detected : bool;
  bar_count : Z;
  bars : list Rect;
  baseline_y : Z;
  score : Q
}.

(** The loops over [contours] in [_subtract_thin_axis_lines]: draw the
    kept components into [mask] and count them. *)
Fixpoint keep_loop (cv2 : Cv2) (keep : Z -> Z -> bool) (contours : list contour)
  (mask : ndarray) (kept : Z) : Exc (ndarray * Z) :=
  match contours with
  | [] => Ok (mask, kept)
  | c :: contours' =>
      '(x, y, w, h) ← boundingRect cv2 c;
      if keep w h
      then mask ← drawContours cv2 mask [c] (-1) 255 (-1);
           keep_loop cv2 keep contours' mask (kept + 1)
      else keep_loop cv2 keep contours' mask kept
  end.

Definition _subtract_thin_axis_lines (env : Env) (bw : ndarray)
  (img_w img_h : Z) (cv2 : Cv2) : ndarray * Flags :=
  let body : Exc (ndarray * Z) :=
    let kx := Z.max 35 (img_w / 14) in
    h_kernel ← getStructuringElement cv2 cv2_const.MORPH_RECT (kx, 1);
    horiz ← morphologyEx cv2 bw cv2_const.MORPH_OPEN h_kernel 1;
    h_mask ← np_zeros_like env bw;
    '(contours, _) ← findContours cv2 horiz cv2_const.RETR_EXTERNAL
                       cv2_const.CHAIN_APPROX_SIMPLE;
    let min_line_w := int_mul img_w 0.35 in
    let max_line_h := Z.max 6 (int_mul img_h 0.03) in
    '(h_mask, kept_h) ←
      keep_loop cv2 (fun w h => (min_line_w <=? w) && (h <=? max_line_h))
        contours h_mask 0;
    let ky := Z.max 45 (img_h / 10) in
    v_kernel ← getStructuringElement cv2 cv2_const.MORPH_RECT (1, ky);
    vert ← morphologyEx cv2 bw cv2_const.MORPH_OPEN v_kernel 1;
    v_mask ← np_zeros_like env bw;
    '(contours, _) ← findContours cv2 vert cv2_const.RETR_EXTERNAL
                       cv2_const.CHAIN_APPROX_SIMPLE;
    let min_line_h := int_mul img_h 0.35 in
    let max_line_w := Z.max 6 (int_mul img_w 0.02) in
    '(v_mask, kept_v) ←
      keep_loop cv2 (fun w h => (min_line_h <=? h) && (w <=? max_line_w))
        contours v_mask 0;
    line_mask ← bitwise_or cv2 h_mask v_mask;
    cleaned ← subtract cv2 bw line_mask;
    Ok (cleaned, kept_h + kept_v) in
  match body with
  | Ok (cleaned, kept) =>
      (cleaned, {["axis_line_components_removed" := VInt kept]})
  | Raise e =>
      (bw, <["axis_line_subtract_error" := VStr e]>
             {["axis_line_subtract_failed" := VBool true]})
  end.

Definition _filter_bar_candidates (rects : list Rect) (img_w img_h : Z)
  : list Rect :=
  let min_area := Z.max 80 (int_mul (img_w * img_h) 0.00008) in
  let min_h := Z.max 18 (int_mul img_h 0.06) in
  let min_w := Z.max 5 (int_mul img_w 0.008) in
  List.filter (fun r : Rect =>
    let '(x, y, w, h) := r in
    if (w <=? 0) || (h <=? 0) then false
    else if w * h <? min_area then false
    else if Qlt_bool (float_ h / float_ (Z.max 1 w)) 0.55 then false
    else if h <? min_h then false
    else if w <? min_w then false
    else if (int_mul img_w 0.6 <? w) || (int_mul img_h 0.9 <? h)
         then false
    else true) rects.

(** [x + w / 2]: the x-centre of a rectangle. *)
Definition x_center (r : Rect) : Q := (float_ (rx r) + float_ (rw r) / 2)%Q.

(** The loop of [_cluster_by_x] over [rs[1:]], with the final
    [clusters.append(cur)]. *)
Fixpoint cluster_loop (merge_px : Z) (rs : list Rect)
  (clusters : list (list Rect)) (cur : list Rect) (cur_cx : Q)
  : list (list Rect) :=
  match rs with
  | [] => clusters ++ [cur]
  | r :: rs' =>
      let cx := x_center r in
      if Qle_bool (Qabs_ (cx - cur_cx)) (float_ merge_px)
      then let cur := cur ++ [r] in
           cluster_loop merge_px rs' clusters cur
             (sumq (map x_center cur) / float_ (len cur))
      else cluster_loop merge_px rs' (clusters ++ [cur]) [r] cx
  end.

(** [merged.append(max(c, key=area))] for each cluster. *)
Fixpoint pick_largest (clusters : list (list Rect)) : Exc (list Rect) :=
  match clusters with
  | [] => Ok []
  | c :: clusters' =>
      best ← max_by Z.ltb (fun r => rw r * rh r) c;
      merged ← pick_largest clusters';
      Ok (best :: merged)
  end.

Definition _cluster_by_x (rects : list Rect) (merge_px : Z) : Exc (list Rect) :=
  match sorted Qlt_bool x_center rects with
  | [] => Ok []
  | r0 :: rs => pick_largest (cluster_loop merge_px rs [] [r0] (x_center r0))
  end.

(** [rects.append(boundingRect(c))] for each contour. *)
Fixpoint bounding_rects (cv2 : Cv2) (contours : list contour) : Exc (list Rect) :=
  match contours with
  | [] => Ok []
  | c :: contours' =>
      r ← boundingRect cv2 c;
      rects ← bounding_rects cv2 contours';
      Ok (r :: rects)
  end.

Definition no_chart : BarChartDetectResult :=
  {| detected := false; bar_count := 0; bars := []; baseline_y := 0;
     score := 0.0 |}.

Definition detect_bar_chart (env : Env) (image : Image) (deadline : option Q)
  (n : nat) : BarChartDetectResult * Flags * nat :=
  let flags : Flags :=
    <["chart_type_bar" := VBool false]> {["chart_detected" := VBool false]} in
  let '(late, n) := _deadline_exceeded env deadline n in
  if late then (no_chart, <["time_budget_exceeded" := VBool true]> flags, n)
  else
  match _safe_import_cv2 env with
  | (None, cv2_err) =>
      (no_chart,
       <["opencv_error" := from_option VStr VNone cv2_err]>
         (<["opencv_missing" := VBool true]> flags), n)
  | (Some cv2, _) =>
      let on_error (e : string) (flags : Flags) :=
        <["extraction_error_detail" := VStr e]>
          (<["extraction_error" := VBool true]> flags) in
      let '(img_w, img_h) := size image in
      match (gray ← _pil_to_gray_np env image; _threshold_binary cv2 gray) with
      | Raise e => (no_chart, on_error e flags, n)
      | Ok bw =>
          let '(bw, line_flags) :=
            _subtract_thin_axis_lines env bw img_w img_h cv2 in
          let flags := update flags line_flags in
          let ksize := if 300 <=? Z.min img_w img_h then 5 else 3 in
          let '(bw, flags) :=
            match (k ← getStructuringElement cv2 cv2_const.MORPH_RECT (ksize, ksize);
                   morphologyEx cv2 bw cv2_const.MORPH_OPEN k 1) with
            | Ok opened => (opened, <["denoise_open_kernel" := VInt ksize]> flags)
            | Raise _ => (bw, flags)
            end in
          let '(late, n) := _deadline_exceeded env deadline n in
          if late
          then (no_chart, <["time_budget_exceeded" := VBool true]> flags, n)
          else
          match ('(contours, _) ← findContours cv2 bw cv2_const.RETR_EXTERNAL
                                    cv2_const.CHAIN_APPROX_SIMPLE;
                 bounding_rects cv2 contours) with
          | Raise e => (no_chart, on_error e flags, n)
          | Ok rects =>
              let candidates := _filter_bar_candidates rects img_w img_h in
              if len candidates =? 0 then (no_chart, flags, n)
              else
              let merge_px := Z.max 6 (int_mul img_w 0.02) in
              match _cluster_by_x candidates merge_px with
              | Raise e => (no_chart, on_error e flags, n)
              | Ok bars =>
                  if len bars <? 3
                  then ({| detected := false; bar_count := len bars;
                           bars := bars; baseline_y := 0; score := 0.0 |},
                        flags, n)
                  else
                  let bottoms := map (fun r => float_ (ry r + rh r)) bars in
                  let baseline_y := int_ (np_median bottoms) in
                  let baseline_std := np_std env bottoms in
                  let widths := map (fun r => float_ (rw r)) bars in
                  let width_mean := np_mean widths in
                  let width_cv := (np_std env widths / maxq 1e-6 width_mean)%Q in
                  let baseline_tol :=
                    maxq 6.0 (F64.mul (F64.of_int img_h) (F64.lit 0.015)) in
                  let aligned :=
                    len (List.filter (fun b =>
                           Qle_bool (Qabs_ (b - float_ baseline_y)) baseline_tol)
                           bottoms) in
                  let aligned_ratio :=
                    (float_ aligned / float_ (Z.max 1 (len bars)))%Q in
                  let detected :=
                    Qle_bool 0.7 aligned_ratio && Qle_bool width_cv 0.4 in
                  if negb detected
                  then ({| detected := false; bar_count := len bars;
                           bars := bars; baseline_y := baseline_y;
                           score := 0.0 |}, flags, n)
                  else
                  let bar_count_score := _clamp01 (float_ (len bars - 2) / 6.0) in
                  let width_score := _clamp01 (1.0 - width_cv) in
                  let baseline_score :=
                    _clamp01 (1.0 - baseline_std / maxq 1.0 (baseline_tol * 2.0)) in
                  let score :=
                    _clamp01 (0.15 + 0.45 * bar_count_score
                              + 0.25 * width_score + 0.15 * baseline_score) in
                  ({| detected := true; bar_count := len bars;
                      bars := sorted Z.ltb rx bars;
                      baseline_y := baseline_y; score := score |},
                   <["chart_type_bar" := VBool true]>
                     (<["chart_detected" := VBool true]> flags), n)
              end
          end
      end
  end.

Definition _try_import_pytesseract (env : Env) : option Pytesseract * Flags :=
  match import_pytesseract env with
  | Ok pytesseract =>
      if negb (which_tesseract env)
      then (None, {["tesseract_binary_missing" := VBool true]})
      else (Some pytesseract, ∅)
  | Raise e =>
      (None, <["pytesseract_error" := VStr e]>
               {["pytesseract_missing" := VBool true]})
  end.

Definition _parse_number (env : Env) (token : string) : option Q :=
  let s := strip token in
  if negb (truthy s) then None
  else
    let is_percent := endswith_char "%" s in
    let s := remove_char "%" s in
    let s := remove_char "$" s in
    let s := remove_char "," s in
    match float_of_str env s with
    | Ok v => if is_percent then Some (v / 100.0)%Q else Some v
    | Raise _ => None
    end.

(** A word of the strip OCR: [(text, left, top, width, height)]. *)
Definition StripItem : Type := string * Z * Z * Z * Z.
Definition OcrDataFn : Type := Image -> Exc (list StripItem).

Definition _ocr_strip_data (env : Env) (image : Image)
  (region : Z * Z * Z * Z) (deadline : option Q) (ocr_data_fn : option OcrDataFn)
  (n : nat) : list StripItem * Flags * nat :=
  let '(late, n) := _deadline_exceeded env deadline n in
  if late then ([], {["time_budget_exceeded" := VBool true]}, n)
  else
    let strip_failed (e : string) (flags : Flags) : Flags :=
      <["ocr_strip_error" := VStr e]> (<["ocr_strip_failed" := VBool true]> flags) in
    let crop_ := crop image region in
    match ocr_data_fn with
    | Some f =>
        match f crop_ with
        | Ok items => (items, ∅, n)
        | Raise e => ([], strip_failed e ∅, n)
        end
    | None =>
        let '(pytesseract, dep_flags) := _try_import_pytesseract env in
        let flags := update ∅ dep_flags in
        match pytesseract with
        | None => ([], flags, n)
        | Some pytesseract =>
            match image_to_data pytesseract crop_ None with
            | Raise e => ([], strip_failed e flags, n)
            | Ok data =>
                (flat_map (fun d =>
                   let t := strip (tw_text d) in
                   if negb (truthy t) then []
                   else [(t, tw_left d, tw_top d, tw_width d, tw_height d)])
                   data, flags, n)
            end
        end
    end.

Definition _fit_linear_y_map (env : Env) (points : list (Q * Q))
  : Exc (option (Q * Q)) :=
  if len points <? 2 then Ok None
  else
    let ys := map fst points in
    let vs := map snd points in
    if Qlt_bool (np_std env ys) 1e-6 then Ok None
    else '(a, b) ← np_polyfit env ys vs; Ok (Some (a, b)).

Record Series : Type := {
  name : string;
  values : list Q;
  unit_ : option string;
  values_are_normalized : bool
}.

(** The [chart] object of the structured-JSON patch [{"chart": ...}];
    [series] always holds exactly one entry, kept here as [series0]. *)
Record ChartJson : Type := {
  type_ : string;
  title : option string;
  x_labels : list string;
  series0 : Series;
  y_unit : option string;
  confidence : Q;
  method : string;
  notes : option string
}.

Definition set_notes (c : ChartJson) (s : string) : ChartJson :=
  {| type_ := type_ c; title := title c; x_labels := x_labels c;
     series0 := series0 c; y_unit := y_unit c; confidence := confidence c;
     method := method c; notes := Some s |}.
Definition set_confidence (c : ChartJson) (q : Q) : ChartJson :=
  {| type_ := type_ c; title := title c; x_labels := x_labels c;
     series0 := series0 c; y_unit := y_unit c; confidence := q;
     method := method c; notes := notes c |}.
Definition set_x_labels (c : ChartJson) (l : list string) : ChartJson :=
  {| type_ := type_ c; title := title c; x_labels := l;
     series0 := series0 c; y_unit := y_unit c; confidence := confidence c;
     method := method c; notes := notes c |}.
Definition set_values (c : ChartJson) (vs : list Q) (normalized : bool)
  : ChartJson :=
  {| type_ := type_ c; title := title c; x_labels := x_labels c;
     series0 := {| name := name (series0 c); values := vs;
                   unit_ := unit_ (series0 c);
                   values_are_normalized := normalized |};
     y_unit := y_unit c; confidence := confidence c;
     method := method c; notes := notes c |}.

(** The parsed axis labels of the strip: [(y_center, value)] per numeric
    token. *)
Definition axis_points_of (env : Env) (strip_t : Z) (items : list StripItem)
  : list (Q * Q) :=
  flat_map (fun it : StripItem =>
    let '(t, left_, top, width, height) := it in
    match num_re_search env t with
    | None => []
    | Some m =>
        match _parse_number env m with
        | None => []
        | Some v =>
            let y_center := (float_ (strip_t + top) + float_ height / 2)%Q in
            [(y_center, v)]
        end
    end) items.

(** The thinning loop: keep points more than 12 px below the last kept
    one, at most 6. *)
Fixpoint thin_loop (pts : list (Q * Q)) (thinned : list (Q * Q))
  (last_y : option Q) : list (Q * Q) :=
  match pts with
  | [] => thinned
  | (y, v) :: pts' =>
      let keep :=
        match last_y with
        | None => true
        | Some ly => Qlt_bool 12 (Qabs_ (y - ly))
        end in
      let thinned' := if keep then thinned ++ [(y, v)] else thinned in
      let last_y' := if keep then Some y else last_y in
      if 6 <=? len thinned' then thinned'
      else thin_loop pts' thinned' last_y'
  end.

(** The optional axis-mapping stage: the points handed to
    [_fit_linear_y_map], with the flags and clock reads it leaves. *)
Definition axis_stage (env : Env) (image : Image)
  (detect : BarChartDetectResult) (bars : list Rect) (deadline : option Q)
  (ocr_data_fn : option OcrDataFn) (flags : Flags) (n : nat)
  : list (Q * Q) * Flags * nat :=
  let '(img_w, img_h) := size image in
  match min_list (map rx bars) with
  | Raise _ => ([], flags, n)
  | Ok min_x =>
      let strip_l := Z.max 0 (min_x - int_mul img_w 0.22) in
      let strip_r := Z.max 0 (min_x - int_mul img_w 0.02) in
      let strip_t := Z.max 0 (int_mul img_h 0.05) in
      let strip_b :=
        Z.min img_h
          (int_ (F64.add (F64.of_int (baseline_y detect))
                   (F64.mul (F64.of_int img_h) (F64.lit 0.02)))) in
      if (strip_l + 4 <? strip_r) && (strip_t + 4 <? strip_b)
      then
        let '(items, ocr_flags, n) :=
          _ocr_strip_data env image (strip_l, strip_t, strip_r, strip_b)
            deadline ocr_data_fn n in
        let flags := update flags ocr_flags in
        let axis_points := axis_points_of env strip_t items in
        let axis_points :=
          if 2 <=? len axis_points
          then thin_loop (sorted Qlt_bool fst axis_points) [] None
          else axis_points in
        (axis_points, flags, n)
      else ([], flags, n)
  end.

(** [labels[j] = (labels[j] + " " + text).strip()]. *)
Definition label_at (labels : list string) (j : Z) (text : string)
  : list string :=
  alter (fun l => strip (l +:+ " " +:+ text)) (Z.to_nat j) labels.

Fixpoint labels_loop (x_centers : list Q) (img_w img_h : Z) (baseline : Z)
  (blocks : list OcrBlock) (labels : list string) : Exc (list string) :=
  match blocks with
  | [] => Ok labels
  | blk :: blocks' =>
      if negb (truthy (text blk))
      then labels_loop x_centers img_w img_h baseline blocks' labels
      else
        let cx := ((x (bbox blk) + w (bbox blk) / 2) * float_ img_w)%Q in
        let cy := ((y (bbox blk) + h (bbox blk) / 2) * float_ img_h)%Q in
        if Qlt_bool cy (float_ baseline + float_ img_h * 0.03)
        then labels_loop x_centers img_w img_h baseline blocks' labels
        else
          j ← argmin Qlt_bool (map (fun bx => Qabs_ (cx - bx)) x_centers);
          labels_loop x_centers img_w img_h baseline blocks'
            (label_at labels j (strip (text blk)))
  end.

(** The handler of [except Exception as e] in [extract_bar_chart]. *)
Definition on_error (e : string) (chart : ChartJson) (flags : Flags)
  : ChartJson * Flags :=
  (set_notes (set_confidence chart 0.0) "extraction_error",
   <["extraction_error_detail" := VStr e]>
     (<["extraction_error" := VBool true]> flags)).

Definition empty_chart : ChartJson :=
  {| type_ := "bar"; title := None; x_labels := [];
     series0 := {| name := "Series 1"; values := []; unit_ := None;
                   values_are_normalized := true |};
     y_unit := None; confidence := 0.0; method := "bar_pixels_v1";
     notes := None |}.

(** [flags] as [extract_bar_chart] initialises it. *)
Definition initial_flags (detect : BarChartDetectResult) : Flags :=
  <["values_normalized" := VBool true]>
    (<["x_labels_missing" := VBool false]>
       (<["axis_mapping_failed" := VBool false]>
          (<["axis_mapping_succeeded" := VBool false]>
             (<["chart_type_bar" := VBool true]>
                {["chart_detected" := VBool (detected detect)]})))).

(** [heights_px] of [extract_bar_chart]. *)
Definition heights_px_of (detect : BarChartDetectResult) : list Z :=
  map (fun r => Z.max 0 (baseline_y detect - ry r))
    (sorted Z.ltb rx (bars detect)).

(** [mapping] of [extract_bar_chart]: the linear fit, if any. *)
Definition mapping_of (env : Env) (axis_points : list (Q * Q))
  : Exc (option (Q * Q)) :=
  if 2 <=? len axis_points then _fit_linear_y_map env axis_points
  else Ok None.

Definition extract_bar_chart (env : Env) (image : Image)
  (detect : BarChartDetectResult) (ocr_blocks : option (list OcrBlock))
  (deadline : option Q) (ocr_data_fn : option OcrDataFn) (n : nat)
  : ChartJson * Flags * nat :=
  let '(started, n) := _now env n in
  let flags : Flags := initial_flags detect in
  let chart := empty_chart in
  let '(chart, flags, n) :=
    if negb (detected detect) || (bar_count detect <? 3)
    then (set_notes chart "not_detected", flags, n)
    else
      let '(img_w, img_h) := size image in
      let bars := sorted Z.ltb rx (bars detect) in
      let heights_px := heights_px_of detect in
      match max_list heights_px with
      | Raise e => let '(chart, flags) := on_error e chart flags in (chart, flags, n)
      | Ok m =>
          let max_h := Z.max 1 m in
          let '(late, n) := _deadline_exceeded env deadline n in
          if late
          then (set_notes chart "time_budget_exceeded",
                <["time_budget_exceeded" := VBool true]> flags, n)
          else
            let '(axis_points, flags, n) :=
              axis_stage env image detect bars deadline ocr_data_fn flags n in
            match mapping_of env axis_points with
            | Raise e =>
                let '(chart, flags) := on_error e chart flags in (chart, flags, n)
            | Ok mapping =>
                let '(values, values_are_normalized, flags) :=
                  match mapping with
                  | Some (a, b) =>
                      let v_base := (a * float_ (baseline_y detect) + b)%Q in
                      (map (fun hpx =>
                              let y_top := float_ (baseline_y detect - hpx) in
                              let v_top := (a * y_top + b)%Q in
                              (v_top - v_base)%Q) heights_px,
                       false,
                       <["values_normalized" := VBool false]>
                         (<["axis_mapping_succeeded" := VBool true]> flags))
                  | None =>
                      (map (fun h => (float_ h / float_ max_h)%Q) heights_px,
                       true,
                       <["axis_mapping_failed" := VBool true]> flags)
                  end in
                let chart := set_values chart values values_are_normalized in
                let x_centers := map x_center bars in
                let labels := map (fun _ => "") bars in
                let '(chart, flags) :=
                  match ocr_blocks with
                  | Some (blk :: blocks') =>
                      match labels_loop x_centers img_w img_h
                              (baseline_y detect) (blk :: blocks') labels with
                      | Raise _ =>
                          (chart, <["x_labels_missing" := VBool true]> flags)
                      | Ok labels =>
                          if existsb (fun l => truthy (strip l)) labels
                          then (set_x_labels chart (map strip labels), flags)
                          else (chart, <["x_labels_missing" := VBool true]> flags)
                      end
                  | _ => (chart, <["x_labels_missing" := VBool true]> flags)
                  end in
                let conf := _clamp01 (0.45 + 0.45 * score detect) in
                let conf :=
                  if truthy_value (flags !! "axis_mapping_succeeded")
                  then _clamp01 (conf + 0.18) else conf in
                let conf :=
                  if truthy_value (flags !! "x_labels_missing")
                  then _clamp01 (conf - 0.10) else conf in
                let conf :=
                  if values_are_normalized then _clamp01 (conf - 0.08) else conf in
                let chart := set_confidence chart conf in
                let chart :=
                  set_notes chart
                    (if 0 <? bar_count detect then "mvp_single_series"
                     else "no_bars") in
                (chart, flags, n)
            end
      end in
  let '(t_end, n) := _now env n in
  (chart,
   <["chart_elapsed_ms" := VInt (int_ ((t_end - started) * 1000))]> flags, n).

End ChartBar.

(** ** [models.py], continued: extractions, assets, request and response *)

(** [structured_json]: a dict that is empty or holds a ["table"] or a
    ["chart"] object. *)
Record StructuredJson : Type := {
  sj_table : option Table.TableJson;
  sj_chart : option ChartBar.ChartJson
}.

Module Extraction.
Record VisualExtraction : Type := {
  ocr_text : option string;
  ocr_blocks : list Models.OcrBlock;
  structured_json : StructuredJson;
  units : option string;
  labels : Flags;
  model_version : option string;
  confidence : Q
}.

(** [VisualExtraction(ocr_text=t, ocr_blocks=b, confidence=c)]. *)
Definition make (t : option string) (b : list Models.OcrBlock) (c : Q)
  : VisualExtraction :=
  {| ocr_text := t; ocr_blocks := b;
     structured_json := {| sj_table := None; sj_chart := None |};
     units := None; labels := ∅; model_version := None; confidence := c |}.

Definition set_structured_json (e : VisualExtraction) (j : StructuredJson)
  : VisualExtraction :=
  {| ocr_text := ocr_text e; ocr_blocks := ocr_blocks e; structured_json := j;
     units := units e; labels := labels e; model_version := model_version e;
     confidence := confidence e |}.

Definition set_confidence (e : VisualExtraction) (c : Q) : VisualExtraction :=
  {| ocr_text := ocr_text e; ocr_blocks := ocr_blocks e;
     structured_json := structured_json e;
     units := units e; labels := labels e; model_version := model_version e;
     confidence := c |}.
End Extraction.

Module Asset.
Record VisualAsset : Type := {
  asset_type : Models.AssetType;
  bbox : Models.BBox;
  confidence : Q;
  quality_flags : Flags;
  image_uri : option string;
  image_hash : option string;
  extraction : Extraction.VisualExtraction
}.

Definition set_asset_type (a : VisualAsset) (t : Models.AssetType) : VisualAsset :=
  {| asset_type := t; bbox := bbox a; confidence := confidence a;
     quality_flags := quality_flags a; image_uri := image_uri a;
     image_hash := image_hash a; extraction := extraction a |}.
Definition set_confidence (a : VisualAsset) (c : Q) : VisualAsset :=
  {| asset_type := asset_type a; bbox := bbox a; confidence := c;
     quality_flags := quality_flags a; image_uri := image_uri a;
     image_hash := image_hash a; extraction := extraction a |}.
Definition set_quality_flags (a : VisualAsset) (f : Flags) : VisualAsset :=
  {| asset_type := asset_type a; bbox := bbox a; confidence := confidence a;
     quality_flags := f; image_uri := image_uri a;
     image_hash := image_hash a; extraction := extraction a |}.
Definition set_image (a : VisualAsset) (uri hash : option string) : VisualAsset :=
  {| asset_type := asset_type a; bbox := bbox a; confidence := confidence a;
     quality_flags := quality_flags a; image_uri := uri;
     image_hash := hash; extraction := extraction a |}.
Definition set_extraction (a : VisualAsset) (e : Extraction.VisualExtraction)
  : VisualAsset :=
  {| asset_type := asset_type a; bbox := bbox a; confidence := confidence a;
     quality_flags := quality_flags a; image_uri := image_uri a;
     image_hash := image_hash a; extraction := e |}.
End Asset.

Record ExtractVisualsRequest : Type := {
  req_document_id : string;
  req_page_index : Z;
  req_image_uri : string;
  req_extractor_version : string
}.

Record ExtractVisualsResponse : Type := {
  document_id : string;
  page_index : Z;
  extractor_version : string;
  assets : list Asset.VisualAsset
}.

(** ** [extractors/ocr.py] *)

Module Ocr.
Import Py.

Definition _norm_bbox (x y w h : Z) (img_w img_h : Z) : Models.BBox :=
  if (img_w <=? 0) || (img_h <=? 0)
  then {| Models.x := 0.0; Models.y := 0.0; Models.w := 1.0; Models.h := 1.0 |}
  else {| Models.x := _clamp01 (float_ x / float_ img_w);
          Models.y := _clamp01 (float_ y / float_ img_h);
          Models.w := _clamp01 (float_ w / float_ img_w);
          Models.h := _clamp01 (float_ h / float_ img_h) |}.

(** The body of the loop over the words of [image_to_data]: the blocks
    appended for one index (none when the text is empty). *)
Definition block_of (img_w img_h : Z) (d : TessWord) : list Models.OcrBlock :=
  if negb (truthy (tw_text d)) then []
  else
    let t := strip (tw_text d) in
    if negb (truthy t) then []
    else
      let conf_val :=
        match tw_conf d with
        | Some conf_num =>
            if Qle_bool 0 conf_num then Some (_clamp01 (conf_num / 100.0))
            else None
        | None => None
        end in
      [{| Models.text := t;
          Models.bbox := _norm_bbox (tw_left d) (tw_top d) (tw_width d)
                           (tw_height d) img_w img_h;
          Models.block_confidence := conf_val |}].

Definition run_ocr_lite (env : Env) (image : Image)
  : Extraction.VisualExtraction * Flags :=
  let empty := Extraction.make None [] 0.0 in
  match import_pytesseract env with
  | Raise e =>
      (empty, <["ocr_error" := VStr e]> {["ocr" := VStr "pytesseract_missing"]})
  | Ok pytesseract =>
      if negb (which_tesseract env)
      then (empty, {["ocr" := VStr "tesseract_binary_missing"]})
      else
        let img :=
          match convert env image "RGB" with Ok i => i | Raise _ => image end in
        match image_to_data pytesseract img (Some "eng") with
        | Raise e =>
            (empty, <["ocr_error" := VStr e]> {["ocr" := VStr "failed"]})
        | Ok data =>
            let '(img_w, img_h) := size img in
            let blocks := flat_map (block_of img_w img_h) data in
            let text_items := map Models.text blocks in
            let ocr_text :=
              if 0 <? len text_items then Some (strip (join " " text_items))
              else None in
            let has_text :=
              match ocr_text with Some t => truthy t | None => false end in
            let confs := omap Models.block_confidence blocks in
            let confidence :=
              if 0 <? len confs
              then _clamp01 (sumq confs / float_ (Z.max 1 (len confs)))
              else if has_text then 0.5%Q else 0.0%Q in
            let flags : Flags :=
              if has_text then ∅ else {["ocr" := VStr "no_text_detected"]} in
            (Extraction.make ocr_text blocks confidence, flags)
        end
  end.
End Ocr.

(** ** [extractors/layout.py] *)

Module Layout.
Definition detect_layout_assets (extractor_version : string)
  (image_width image_height : Z) : list Asset.VisualAsset :=
  [{| Asset.asset_type := Models.AssetImageText;
      Asset.bbox := {| Models.x := 0.0; Models.y := 0.0;
                       Models.w := 1.0; Models.h := 1.0 |};
      Asset.confidence := 0.5;
      Asset.quality_flags := {["layout" := Py.VStr "fallback_full_page"]};
      Asset.image_uri := None;
      Asset.image_hash := None;
      Asset.extraction := Extraction.make None [] 0.0 |}].
End Layout.

(** ** [main.py] *)

Module Main.
Import Py.

(** The extractor entry points a request can invoke; the handler's run
    records the ones it calls, in order. *)
Inductive Call : Type :=
| CallOcr
| CallDetectTable
| CallExtractTable
| CallDetectBarChart
| CallExtractBarChart.

Record TableSummary : Type := {
  table_detected : bool;
  table_method : option string;
  table_rows : Z;
  table_cols : Z
}.

(** The payload of the ["extract_visuals"] log line. *)
Record LogPayload : Type := {
  log_document_id : string;
  log_page_index : Z;
  log_extractor_version : string;
  log_elapsed_ms : Z;
  log_status : string;
  log_assets : Z;
  log_flags : option Flags;
  log_table : option TableSummary
}.

Record JSONResponse : Type := {
  status_code : Z;
  content : ExtractVisualsResponse
}.

(** What one request leaves behind. *)
Record Run : Type := {
  response : JSONResponse;
  logged : list LogPayload;
  calls : list Call;
  reads : nat
}.

Definition _sha256_hex (env : Env) (data : list byte) : string :=
  sha256_hexdigest env data.

Definition _read_image_bytes (env : Env) (image_uri : string) (timeout_s : Q)
  : option (list byte) * Flags :=
  if startswith "http://" image_uri || startswith "https://" image_uri
  then
    match requests_get env image_uri timeout_s with
    | Ok content => (Some content, ∅)
    | Raise e =>
        (None, <["image_load_error" := VStr e]>
                 {["image_load" := VStr "download_failed"]})
    end
  else
    match read_file env image_uri with
    | Ok content => (Some content, ∅)
    | Raise e =>
        (None, <["image_load_error" := VStr e]>
                 {["image_load" := VStr "file_read_failed"]})
    end.

(** [int((time.perf_counter() - started) * 1000)]. *)
Definition elapsed_ms (env : Env) (started : Q) (n : nat) : Z * nat :=
  let '(t, n) := _now env n in (int_ ((t - started) * 1000), n).

(** The synthetic asset of the failure responses. *)
Definition error_asset (flags : Flags) (image_hash : option string)
  : Asset.VisualAsset :=
  {| Asset.asset_type := Models.AssetUnknown;
     Asset.bbox := {| Models.x := 0.0; Models.y := 0.0;
                      Models.w := 1.0; Models.h := 1.0 |};
     Asset.confidence := 0.0;
     Asset.quality_flags := flags;
     Asset.image_uri := None;
     Asset.image_hash := image_hash;
     Asset.extraction := Extraction.make None [] 0.0 |}.

Definition respond (req : ExtractVisualsRequest)
  (assets : list Asset.VisualAsset) : JSONResponse :=
  {| status_code := 200;
     content := {| document_id := req_document_id req;
                   page_index := req_page_index req;
                   extractor_version := req_extractor_version req;
                   assets := assets |} |}.

Definition log_line (req : ExtractVisualsRequest) (elapsed : Z) (n_assets : Z)
  (flags : option Flags) (summary : option TableSummary) : LogPayload :=
  {| log_document_id := req_document_id req;
     log_page_index := req_page_index req;
     log_extractor_version := req_extractor_version req;
     log_elapsed_ms := elapsed; log_status := "ok"; log_assets := n_assets;
     log_flags := flags; log_table := summary |}.

(** [if flags: a.quality_flags.update(flags)]. *)
Definition add_flags (a : Asset.VisualAsset) (flags : Flags) : Asset.VisualAsset :=
  if Nat.eqb (base.size flags) 0 then a
  else Asset.set_quality_flags a (update (Asset.quality_flags a) flags).

(** [if extraction.ocr_text:]. *)
Definition has_ocr_text (e : Extraction.VisualExtraction) : bool :=
  match Extraction.ocr_text e with
  | Some t => truthy t
  | None => false
  end.

(** The body of [for a in assets]. *)
Definition process_asset (env : Env) (img : Image) (image_hash : string)
  (table_deadline : Q) (a : Asset.VisualAsset) (summary : TableSummary)
  (n : nat) : Asset.VisualAsset * TableSummary * list Call * nat :=
  let '(extraction, ocr_flags) := Ocr.run_ocr_lite env img in
  let a := Asset.set_extraction a extraction in
  let a := Asset.set_image a None (Some image_hash) in
  let a := add_flags a ocr_flags in
  let '(detect_res, table_detect_flags, n) :=
    Table.detect_table env img (Some table_deadline) n in
  let a := add_flags a table_detect_flags in
  let '(a, summary, calls, n) :=
    if Table.detected detect_res
    then
      let a := Asset.set_asset_type a Models.AssetTable in
      let '(structured, table_flags, n) :=
        Table.extract_table env img detect_res
          (Some (Extraction.ocr_blocks extraction))
          (Some table_deadline) None n in
      let a := add_flags a table_flags in
      let a :=
        Asset.set_extraction a
          (Extraction.set_structured_json (Asset.extraction a)
             {| sj_table := Some structured; sj_chart := None |}) in
      let rows := Table.rows structured in
      let table_rows := len rows in
      let table_cols :=
        match rows with
        | r0 :: _ => len r0
        | [] => 0
        end in
      let table_conf := Table.confidence structured in
      let table_method := Some (Table.table_method structured) in
      let summary :=
        {| table_detected := true; table_method := table_method;
           table_rows := table_rows; table_cols := table_cols |} in
      let a :=
        Asset.set_extraction a
          (Extraction.set_confidence (Asset.extraction a)
             (maxq (Extraction.confidence (Asset.extraction a)) table_conf)) in
      let a := Asset.set_confidence a (maxq (Asset.confidence a) table_conf) in
      (a, summary, [CallExtractTable], n)
    else (a, summary, [], n) in
  let a :=
    if has_ocr_text (Asset.extraction a)
    then Asset.set_confidence a
           (maxq (Asset.confidence a) (Extraction.confidence (Asset.extraction a)))
    else Asset.set_confidence a (minq (Asset.confidence a) 0.25) in
  (a, summary, [CallOcr; CallDetectTable] ++ calls, n).

(** [for a in assets: ...]. *)
Fixpoint process_assets (env : Env) (img : Image) (image_hash : string)
  (table_deadline : Q) (todo : list Asset.VisualAsset) (summary : TableSummary)
  (n : nat) : list Asset.VisualAsset * TableSummary * list Call * nat :=
  match todo with
  | [] => ([], summary, [], n)
  | a :: todo' =>
      let '(a', summary, calls, n) :=
        process_asset env img image_hash table_deadline a summary n in
      let '(rest, summary, calls', n) :=
        process_assets env img image_hash table_deadline todo' summary n in
      (a' :: rest, summary, calls ++ calls', n)
  end.

(** The [try] block of [extract_visuals] (lines 104-278), entered with the
    start time and the table deadline. *)
Definition handle_request (env : Env) (req : ExtractVisualsRequest)
  (started table_deadline : Q) (n : nat) : Run :=
  let '(image_bytes, load_flags) :=
    _read_image_bytes env (req_image_uri req) 5.0 in
  match image_bytes with
  | None | Some [] =>
      let '(elapsed, n) := elapsed_ms env started n in
      let asset :=
        error_asset (update {["error" := VStr "image_load_failed"]} load_flags)
          None in
      {| response := respond req [asset];
         logged := [log_line req elapsed 1 (Some load_flags) None];
         calls := []; reads := n |}
  | Some image_bytes =>
      let image_hash := _sha256_hex env image_bytes in
      match Image_open env image_bytes with
      | Raise e =>
          let '(elapsed, n) := elapsed_ms env started n in
          let flags : Flags :=
            <["image_decode_error" := VStr e]>
              {["image_decode" := VStr "failed"]} in
          let asset :=
            error_asset (update {["error" := VStr "image_decode_failed"]} flags)
              (Some image_hash) in
          {| response := respond req [asset];
             logged := [log_line req elapsed 1 (Some flags) None];
             calls := []; reads := n |}
      | Ok img =>
          let assets :=
            Layout.detect_layout_assets (req_extractor_version req)
              (fst (size img)) (snd (size img)) in
          let table_summary :=
            {| table_detected := false; table_method := None;
               table_rows := 0; table_cols := 0 |} in
          let '(assets, table_summary, calls, n) :=
            process_assets env img image_hash table_deadline assets
              table_summary n in
          let '(elapsed, n) := elapsed_ms env started n in
          {| response := respond req assets;
             logged := [log_line req elapsed (len assets) None
                          (Some table_summary)];
             calls := calls; reads := n |}
      end
  end.

(** [float(os.getenv("TABLE_TIME_BUDGET_S", "4.0"))]. *)
Definition table_budget (env : Env) : Exc Q :=
  float_of_str env (default "4.0" (getenv env "TABLE_TIME_BUDGET_S")).

(** The handler. The budget is parsed before the [try] block is entered,
    so a setting that is not a number makes the request raise. *)
Definition extract_visuals (env : Env) (req : ExtractVisualsRequest) (n : nat)
  : Exc Run :=
  let '(started, n) := _now env n in
  table_budget_s ← table_budget env;
  let table_deadline := (started + table_budget_s)%Q in
  Ok (handle_request env req started table_deadline n).

End Main.

(** ** Vocabulary of the properties *)

(** A detector run that neither hit the deadline nor an error: none of the
    failure flags is set. *)
Definition completed (flags : Flags) : Prop :=
  flags !! "time_budget_exceeded" = None
  /\ flags !! "opencv_missing" = None
  /\ flags !! "extraction_error" = None.

(** [c] is the integer midpoint of a maximal run [s..e] of consecutive
    members of [active]. *)
Definition is_run_center (active : list Z) (c : Z) : Prop :=
  exists s e : Z,
    s <= e /\ c = (s + e) / 2
    /\ (forall i, s <= i <= e -> In i active)
    /\ ~ In (s - 1) active /\ ~ In (e + 1) active.

(** The imaging libraries keep the dimensions of what they are given. *)
Definition shapes_preserved (env : Env) (cv2 : Cv2) : Prop :=
  (forall im m im', convert env im m = Ok im' -> size im' = size im)
  /\ (forall im a, np_array env im = Ok a ->
        shape a = (snd (size im), fst (size im)))
  /\ (forall a k sg b, GaussianBlur cv2 a k sg = Ok b -> shape b = shape a)
  /\ (forall a t mx ty r, threshold cv2 a t mx ty = Ok r ->
        shape (snd r) = shape a)
  /\ (forall a k it b, erode cv2 a k it = Ok b -> shape b = shape a)
  /\ (forall a k it b, dilate cv2 a k it = Ok b -> shape b = shape a).

(** [time.perf_counter()] never goes backwards. *)
Definition monotone (clk : nat -> Q) : Prop :=
  forall i j : nat, (i <= j)%nat -> (clk i <= clk j)%Q.

(** Some reading of the clock lies past the deadline. *)
Definition deadline_fired (env : Env) (deadline : option Q) : Prop :=
  exists (d : Q) (k : nat), deadline = Some d /\ (d < clock env k)%Q.

(** A pixel rectangle inside an image of size [(W, H)]. *)
Definition in_image (sz : Z * Z) (r : ChartBar.Rect) : Prop :=
  0 <= ChartBar.rx r /\ 0 <= ChartBar.ry r
  /\ ChartBar.rx r + ChartBar.rw r <= fst sz
  /\ ChartBar.ry r + ChartBar.rh r <= snd sz.

(** [r] is the bounding rectangle of a contour that [findContours]
    returned for the array [a]. *)
Definition found_rect (cv2 : Cv2) (a : ndarray) (r : ChartBar.Rect) : Prop :=
  exists mode_ method_ contours hierarchy c,
    findContours cv2 a mode_ method_ = Ok (contours, hierarchy)
    /\ In c contours /\ boundingRect cv2 c = Ok r.

(** OpenCV's contract for contours: a contour found in an array is made of
    pixels of that array, so its bounding rectangle lies inside the array
    (of [shape = (rows, columns)]). *)
Definition contours_inside (cv2 : Cv2) : Prop :=
  forall a r,
    found_rect cv2 a r -> in_image (snd (shape a), fst (shape a)) r.

(** Morphological opening and subtraction keep the dimensions of the array
    they are applied to. *)
Definition cleaning_preserves_shape (cv2 : Cv2) : Prop :=
  (forall a op k it b, morphologyEx cv2 a op k it = Ok b -> shape b = shape a)
  /\ (forall a m b, subtract cv2 a m = Ok b -> shape b = shape a).


(** ** Example environments and pages

    Small concrete inputs used by the examples below: an OpenCV whose
    morphology and contour results are the recorded ones for the page at
    hand, no OCR engine installed, and a file system given as a function. *)

Module Examples.
Import Py.

Definition zeros (sh : Z * Z) : ndarray :=
  {| shape := sh; at_ := fun _ _ => 0 |}.

Definition pointwise (f : Z -> Z -> Z) (a b : ndarray) : ndarray :=
  {| shape := shape a; at_ := fun y x => f (at_ a y x) (at_ b y x) |}.

(** The corner points of a rectangle, and the bounding rectangle of a set
    of points. *)
Definition rect_contour (r : ChartBar.Rect) : contour :=
  let '(x, y, w, h) := r in
  [(x, y); (x + w - 1, y); (x + w - 1, y + h - 1); (x, y + h - 1)].

Definition bounding (c : contour) : Exc ChartBar.Rect :=
  x0 ← min_list (map fst c);
  x1 ← max_list (map fst c);
  y0 ← min_list (map snd c);
  y1 ← max_list (map snd c);
  Ok (x0, y0, x1 - x0 + 1, y1 - y0 + 1).

(** A non-empty rectangle that fits in an array of the given shape. *)
Definition fits (sh : Z * Z) (r : ChartBar.Rect) : bool :=
  let '(x, y, w, h) := r in
  (0 <=? x) && (0 <=? y) && (1 <=? w) && (1 <=? h)
  && (x + w <=? snd sh) && (y + h <=? fst sh).

(** OpenCV on a page whose horizontal and vertical openings are
    [horizontal] and [vertical] and whose external contours are the
    rectangles [rects]; an array too small for one of them does not contain
    it. *)
Definition recorded_cv2 (horizontal vertical : ndarray)
  (rects : list ChartBar.Rect) : Cv2 :=
  {| GaussianBlur := fun a _ _ => Ok a;
     threshold := fun a _ _ _ => Ok (128%Q, a);
     getStructuringElement := fun _ ksize =>
       Ok {| shape := (snd ksize, fst ksize); at_ := fun _ _ => 1 |};
     erode := fun a k _ =>
       Ok {| shape := shape a;
             at_ := at_ (if fst (shape k) =? 1 then horizontal else vertical) |};
     dilate := fun a _ _ => Ok a;
     morphologyEx := fun a _ _ _ => Ok a;
     bitwise_or := fun a b => Ok (pointwise Z.lor a b);
     bitwise_and := fun a b => Ok (pointwise Z.land a b);
     subtract := fun a b => Ok (pointwise (fun u v => Z.max 0 (u - v)) a b);
     findContours := fun a _ _ =>
       Ok (map rect_contour (List.filter (fits (shape a)) rects),
           zeros (shape a));
     boundingRect := bounding;
     drawContours := fun m _ _ _ _ => Ok m |}.

(** [np.std] on the lists of the examples: [0] on a constant list, and
    the spread [max - min] otherwise. *)
Definition spread (l : list Q) : Q :=
  match l with
  | [] => 0%Q
  | q :: l' => (foldl maxq q l' - foldl minq q l')%Q
  end.

(** The least-squares line through the points [(ys, vs)]. *)
Definition fit_line (ys vs : list Q) : Exc (Q * Q) :=
  let n := float_ (len ys) in
  let sy := sumq ys in
  let sv := sumq vs in
  let syy := sumq (map (fun y => y * y)%Q ys) in
  let syv := sumq (zip_with Qmult ys vs) in
  let a := ((n * syv - sy * sv) / (n * syy - sy * sy))%Q in
  Ok (a, ((sv - a * sy) / n)%Q).

(** Decimal digits with at most one point as a number, for the axis labels
    and the settings of the examples; [scale] is the power of ten to divide
    by once the point has been read. *)
Fixpoint digits (acc : Z) (scale : option Z) (s : string) : Exc Q :=
  match s with
  | EmptyString =>
      Ok (match scale with
          | None => float_ acc
          | Some k => Qred (float_ acc / float_ k)
          end)
  | String c s' =>
      let d := Z.of_nat (nat_of_ascii c) - 48 in
      if Ascii.eqb c "."
      then match scale with
           | None => digits acc (Some 1) s'
           | Some _ => Raise "could not convert string to float"
           end
      else if (0 <=? d) && (d <=? 9)
      then digits (10 * acc + d) (option_map (Z.mul 10) scale) s'
      else Raise "could not convert string to float"
  end.

Definition ex_env (clk : nat -> Q) (cv2 : Cv2)
  (fetch : string -> Exc (list byte)) (decode : list byte -> Exc Image) : Env :=
  {| clock := clk;
     import_cv2 := Ok cv2;
     import_pytesseract := Raise "No module named 'pytesseract'";
     which_tesseract := false;
     convert := fun im m =>
       Ok {| size := size im; mode := m; getpixel := getpixel im |};
     np_array := fun im =>
       Ok {| shape := (snd (size im), fst (size im));
             at_ := fun y x => getpixel im x y |};
     np_zeros_like := fun a => Ok (zeros (shape a));
     np_std := spread;
     np_polyfit := fit_line;
     num_re_search := fun t => Some t;
     float_of_str := fun s =>
       match s with EmptyString => Raise "could not convert string to float"
               | _ => digits 0 None s end;
     getenv := fun _ => None;
     requests_get := fun uri _ => fetch uri;
     read_file := fetch;
     Image_open := decode;
     sha256_hexdigest := fun _ =>
       "4bf5122f344554c53bde2ebb8cd2b7e3d1600ad631c385a5d7cce23c7785459a" |}.

Definition still : nat -> Q := fun _ => 0%Q.

(** A clock that jumps from [0] to [11] at its [k]-th reading. *)
Definition jump_at (k : nat) : nat -> Q :=
  fun i => if (i <? k)%nat then 0%Q else 11%Q.

Definition no_files : string -> Exc (list byte) :=
  fun _ => Raise "[Errno 2] No such file or directory".

Definition one_file (content : list byte) : string -> Exc (list byte) :=
  fun _ => Ok content.


Definition undecodable : list byte -> Exc Image :=
  fun _ => Raise "cannot identify image file".

Definition decodes_to (page : Image) : list byte -> Exc Image :=
  fun b => match b with [] => Raise "cannot identify image file" | _ => Ok page end.

Definition request (uri : string) : ExtractVisualsRequest :=
  {| req_document_id := "doc-1"; req_page_index := 0;
     req_image_uri := uri; req_extractor_version := "vision_v1" |}.

(** A 30x30 page ruled at rows and columns 0, 10 and 20. *)
Definition on_rule (i : Z) : bool := (i =? 0) || (i =? 10) || (i =? 20).

Definition ruled_page : Image :=
  {| size := (30, 30); mode := "L";
     getpixel := fun x y => if on_rule x || on_rule y then 0 else 255 |}.

Definition ruled_horizontal : ndarray :=
  {| shape := (30, 30); at_ := fun y x => if on_rule y then 255 else 0 |}.

Definition ruled_vertical : ndarray :=
  {| shape := (30, 30); at_ := fun y x => if on_rule x then 255 else 0 |}.

Definition ruled_cv2 : Cv2 := recorded_cv2 ruled_horizontal ruled_vertical [].

Definition ruled_combined : ndarray := pointwise Z.lor ruled_horizontal ruled_vertical.

Definition ruled_env : Env :=
  ex_env still ruled_cv2 (one_file [x89; x50]) (decodes_to ruled_page).

(** A 200x120 page with bars on the baseline [y = 100]: no ruling lines. *)
Definition bars_page : Image :=
  {| size := (200, 120); mode := "L"; getpixel := fun _ _ => 255 |}.

Definition four_bars : list ChartBar.Rect :=
  [(30, 60, 20, 40); (70, 20, 20, 80); (110, 40, 20, 60); (150, 70, 20, 30)].

Definition bars_cv2 (rects : list ChartBar.Rect) : Cv2 :=
  recorded_cv2 (zeros (120, 200)) (zeros (120, 200)) rects.

Definition bars_env (clk : nat -> Q) (rects : list ChartBar.Rect) : Env :=
  ex_env clk (bars_cv2 rects) (one_file [x89; x50]) (decodes_to bars_page).

(** Two blobs: a wide one starting at [x = 10] and a narrow one inside
    its x-range, higher on the page. *)
Definition two_blobs : list ChartBar.Rect :=
  [(10, 60, 100, 60); (20, 10, 10, 30)].

(** The detector's positive result on [four_bars]. *)
Definition four_bars_detected : ChartBar.BarChartDetectResult :=
  {| ChartBar.detected := true; ChartBar.bar_count := 4;
     ChartBar.bars := four_bars; ChartBar.baseline_y := 100;
     ChartBar.score := 0.7 |}.

(** A grid of four vertical and three horizontal rules. *)
Definition grid_4x3 : Table.TableDetectResult :=
  {| Table.detected := true; Table.grid_detected := true;
     Table.method := "grid_lines_v1"; Table.line_pixel_ratio := 1;
     Table.intersections_count := 12;
     Table.x_lines := [0; 10; 20; 29]; Table.y_lines := [0; 10; 20] |}.

(** The cell OCR stub of the test-suite. *)
Definition _stub_cell_ocr : Table.OcrFn := fun _ => Ok ("X", ∅).


(** The handler's initial table summary, and the asset of the layout
    stub. *)
Definition no_summary : Main.TableSummary :=
  {| Main.table_detected := false; Main.table_method := None;
     Main.table_rows := 0; Main.table_cols := 0 |}.

Definition page_asset : Asset.VisualAsset :=
  {| Asset.asset_type := Models.AssetImageText;
     Asset.bbox := {| Models.x := 0.0; Models.y := 0.0;
                      Models.w := 1.0; Models.h := 1.0 |};
     Asset.confidence := 0.5;
     Asset.quality_flags := {["layout" := VStr "fallback_full_page"]};
     Asset.image_uri := None;
     Asset.image_hash := None;
     Asset.extraction := Extraction.make None [] 0.0 |}.

(** Four OCR words laid out as two lines of two words. *)
Definition word (t : string) (bx by_ : Q) : Models.OcrBlock :=
  {| Models.text := t;
     Models.bbox := {| Models.x := bx; Models.y := by_;
                       Models.w := 0.1; Models.h := 0.1 |};
     Models.block_confidence := Some 0.9%Q |}.

Definition word_blocks : list Models.OcrBlock :=
  [word "Name" 0.1 0.1; word "Qty" 0.6 0.1;
   word "Bolt" 0.1 0.5; word "12" 0.6 0.5].

End Examples.

(** * Properties *)

Import Py.

(** ** Arithmetic of the built-ins *)

Lemma Qlt_bool_true (a b : Q) : Qlt_bool a b = true <-> (a < b)%Q.
Proof.
  unfold Qlt_bool. rewrite negb_true_iff.
  split.
  - intros H. apply Qnot_le_lt. intros Hle.
    apply Qle_bool_iff in Hle. congruence.
  - intros H. destruct (Qle_bool b a) eqn:E; [|reflexivity].
    apply Qle_bool_iff in E. exfalso. eapply Qlt_not_le; eauto.
Qed.

Lemma Qlt_bool_false (a b : Q) : Qlt_bool a b = false <-> (b <= a)%Q.
Proof.
  unfold Qlt_bool. rewrite negb_false_iff. apply Qle_bool_iff.
Qed.

Lemma clamp01_bounds (v : Q) : (0 <= _clamp01 v <= 1)%Q.
Proof.
  unfold _clamp01.
  destruct (Qlt_bool v 0) eqn:E0; [split; discriminate|].
  destruct (Qlt_bool 1 v) eqn:E1; [split; discriminate|].
  apply Qlt_bool_false in E0, E1. split; assumption.
Qed.

Lemma clamp01_nonneg (v : Q) : (0 <= v)%Q -> (_clamp01 v == Qmin 1 v)%Q.
Proof.
  intros Hv. unfold _clamp01.
  destruct (Qlt_bool v 0) eqn:E0.
  { apply Qlt_bool_true in E0. exfalso. eapply Qlt_not_le; eauto. }
  destruct (Qlt_bool 1 v) eqn:E1.
  - apply Qlt_bool_true in E1. symmetry. apply Q.min_l. apply Qlt_le_weak; assumption.
  - apply Qlt_bool_false in E1. symmetry. apply Q.min_r. assumption.
Qed.

Lemma len_nonneg {A} (l : list A) : 0 <= len l.
Proof. unfold len. lia. Qed.

Lemma range_spec (n i : Z) : In i (range n) <-> 0 <= i < n.
Proof.
  unfold range. rewrite in_map_iff. split.
  - intros (k & <- & Hk). apply in_seq in Hk. lia.
  - intros Hi. exists (Z.to_nat i). split; [lia|]. apply in_seq. lia.
Qed.

Lemma range_sorted (n : Z) : StronglySorted Z.lt (range n).
Proof.
  unfold range. generalize (Z.to_nat n) as k. intros k.
  generalize 0%nat as a. induction k as [|k IH]; intros a; simpl.
  - constructor.
  - constructor; [apply IH|].
    apply List.Forall_forall. intros x Hx. apply in_map_iff in Hx.
    destruct Hx as (j & <- & Hj). apply in_seq in Hj. lia.
Qed.

Lemma filter_sorted (f : Z -> bool) (l : list Z) :
  StronglySorted Z.lt l -> StronglySorted Z.lt (List.filter f l).
Proof.
  induction 1 as [|x l Hl IH Hx]; simpl; [constructor|].
  destruct (f x); [|assumption].
  constructor; [assumption|].
  apply List.Forall_forall. intros y Hy. apply filter_In in Hy.
  rewrite List.Forall_forall in Hx. apply Hx. tauto.
Qed.

(** ** Line positions: [_segments_to_centers] *)

Lemma segments_loop_app (centers : list Z) (start prev : Z) (rest : list Z) :
  Table.segments_loop centers start prev rest
  = centers ++ Table.segments_loop [] start prev rest.
Proof.
  revert centers start prev.
  induction rest as [|i rest IH]; intros centers start prev; simpl.
  - reflexivity.
  - destruct (i =? prev + 1); [apply IH|].
    rewrite IH, (IH [_]). rewrite <- app_assoc. reflexivity.
Qed.

Lemma last_cons_cons (i prev : Z) (rest : list Z) :
  List.last (i :: rest) prev = List.last rest i.
Proof.
  revert i prev. induction rest as [|j rest IH]; intros i prev; [reflexivity|].
  change (List.last (i :: j :: rest) prev) with (List.last (j :: rest) prev).
  rewrite (IH j prev), (IH j i). reflexivity.
Qed.

Lemma last_in_cons (x : Z) (l : list Z) (d : Z) :
  In (List.last (x :: l) d) (x :: l).
Proof.
  revert x. induction l as [|y l IH]; intros x; [left; reflexivity|].
  change (List.last (x :: y :: l) d) with (List.last (y :: l) d).
  right. apply IH.
Qed.

Lemma last_default_or_in (l : list Z) (d : Z) :
  List.last l d = d \/ In (List.last l d) l.
Proof.
  destruct l as [|x l]; [left; reflexivity|right; apply last_in_cons].
Qed.

Lemma midpoint_between (s e : Z) : s <= e -> s <= (s + e) / 2 <= e.
Proof.
  intros H. split.
  - apply Z.div_le_lower_bound; lia.
  - apply Z.div_le_upper_bound; lia.
Qed.

Lemma segments_loop_spec (A : list Z) (rest : list Z) :
  forall start prev,
    StronglySorted Z.lt (prev :: rest) ->
    start <= prev ->
    (forall i, start <= i <= prev -> In i A) ->
    ~ In (start - 1) A ->
    (forall i, In i A -> prev < i -> In i rest) ->
    (forall i, In i rest -> In i A) ->
    let out := Table.segments_loop [] start prev rest in
    StronglySorted Z.lt out
    /\ List.Forall (fun c => start <= c <= List.last rest prev) out
    /\ List.Forall (is_run_center A) out.
Proof.
  induction rest as [|i rest IH]; intros start prev Hs Hle Hrun Hbefore Hafter Hsub.
  - simpl. pose proof (midpoint_between start prev Hle) as Hm.
    split; [|split].
    + repeat constructor.
    + repeat constructor; lia.
    + repeat constructor. exists start, prev. repeat split; auto; try lia.
      intros Hin. apply Hafter in Hin; [inversion Hin|lia].
  - apply StronglySorted_inv in Hs. destruct Hs as [Hs Hall].
    assert (Hpi : prev < i) by (inversion Hall; assumption).
    assert (Hrest : forall j, In j rest -> i < j).
    { apply StronglySorted_inv in Hs. destruct Hs as [_ Hi].
      rewrite List.Forall_forall in Hi. exact Hi. }
    cbn [Table.segments_loop]. destruct (i =? prev + 1) eqn:E.
    + apply Z.eqb_eq in E.
      rewrite last_cons_cons.
      apply IH; auto; try lia.
      * intros j Hj. destruct (Z.eq_dec j i) as [->|Hne].
        -- apply Hsub. left. reflexivity.
        -- apply Hrun. lia.
      * intros j HjA Hj. destruct (Hafter j HjA) as [Heq|Hin]; [lia|lia|assumption].
      * intros j Hj. apply Hsub. right. assumption.
    + apply Z.eqb_neq in E.
      rewrite segments_loop_app. cbn [app].
      pose proof (midpoint_between start prev Hle) as Hm.
      assert (Hgap : forall j, In j A -> prev < j -> i <= j).
      { intros j HjA Hj. destruct (Hafter j HjA Hj) as [<-|Hin]; [lia|].
        apply Hrest in Hin. lia. }
      destruct (IH i i) as (IH1 & IH2 & IH3); auto; try lia.
      * intros j Hj. assert (j = i) as -> by lia. apply Hsub. left. reflexivity.
      * intros Hin. apply Hgap in Hin; lia.
      * intros j HjA Hj. destruct (Hafter j HjA) as [Heq|Hin]; [lia|lia|assumption].
      * intros j Hj. apply Hsub. right. assumption.
      * rewrite last_cons_cons. split; [|split].
        -- constructor; [assumption|].
           eapply List.Forall_impl; [|exact IH2]. simpl. intros c Hc. lia.
        -- constructor.
           ++ assert (i <= List.last rest i).
              { destruct (last_default_or_in rest i) as [->|Hin]; [lia|].
                apply Hrest in Hin. lia. }
              lia.
           ++ eapply List.Forall_impl; [|exact IH2]. simpl. intros c Hc. lia.
        -- constructor; [|assumption].
           exists start, prev. repeat split; auto; try lia.
           intros Hin. apply Hgap in Hin; lia.
Qed.

Lemma segments_to_centers_spec (active : list Z) (lo hi : Z) :
  StronglySorted Z.lt active ->
  List.Forall (fun i => lo <= i <= hi) active ->
  let out := Table._segments_to_centers active in
  StronglySorted Z.lt out
  /\ List.Forall (fun c => lo <= c <= hi) out
  /\ List.Forall (is_run_center active) out.
Proof.
  intros Hs Hb. destruct active as [|i0 rest]; simpl.
  { repeat split; constructor. }
  pose proof Hs as Hs'. apply StronglySorted_inv in Hs'. destruct Hs' as [_ Hall].
  rewrite List.Forall_forall in Hall.
  destruct (segments_loop_spec (i0 :: rest) rest i0 i0) as (H1 & H2 & H3); auto; try lia.
  - intros i Hi. assert (i = i0) as -> by lia. left. reflexivity.
  - intros [Heq|Hin]; [lia|]. apply Hall in Hin. lia.
  - intros i [Heq|Hin] Hi; [lia|assumption].
  - intros i Hi. right. assumption.
  - split; [assumption|]. split; [|assumption].
    rewrite List.Forall_forall in Hb.
    eapply List.Forall_impl; [|exact H2]. simpl. intros c Hc.
    pose proof (Hb i0 (or_introl eq_refl)) as Hi0.
    assert (Hl : lo <= List.last rest i0 <= hi).
    { destruct (last_default_or_in rest i0) as [->|Hin]; [assumption|].
      apply Hb. right. assumption. }
    lia.
Qed.

Lemma np_where_ge_spec (proj : list Z) (t : Z) :
  StronglySorted Z.lt (np_where_ge proj t)
  /\ List.Forall (fun i => 0 <= i <= len proj - 1) (np_where_ge proj t).
Proof.
  unfold np_where_ge. split.
  - apply filter_sorted, range_sorted.
  - apply List.Forall_forall. intros i Hi. apply filter_In in Hi.
    destruct Hi as [Hi _]. apply range_spec in Hi. lia.
Qed.

Lemma len_map_range {B} (f : Z -> B) (n : Z) : len (map f (range n)) = Z.max 0 n.
Proof.
  unfold len, range. rewrite !length_map, length_seq. lia.
Qed.

(** The active indices of a mask are ascending and lie inside the mask:
    rows for the horizontal projection, columns for the vertical one. *)
Lemma active_of_spec (mask : ndarray) (axis : string) :
  let bound := if String.eqb axis "h" then fst (shape mask) else snd (shape mask) in
  StronglySorted Z.lt (Table.active_of mask axis)
  /\ List.Forall (fun i => 0 <= i <= bound - 1) (Table.active_of mask axis).
Proof.
  unfold Table.active_of, np_sum_gt0_axis1, np_sum_gt0_axis0.
  destruct (shape mask) as [h w]. cbn [fst snd].
  destruct (String.eqb axis "h");
    match goal with
    | |- context [np_where_ge ?p ?t] =>
        destruct (np_where_ge_spec p t) as [Hs Hb]
    end;
    (split; [exact Hs|]);
    (eapply List.Forall_impl; [|exact Hb]); cbv beta; intros i Hi;
    rewrite len_map_range in Hi; lia.
Qed.

Lemma line_positions_spec (mask : ndarray) (axis : string) :
  let bound := if String.eqb axis "h" then fst (shape mask) else snd (shape mask) in
  let out := Table._line_positions_from_mask mask axis in
  StronglySorted Z.lt out
  /\ List.Forall (fun c => 0 <= c <= bound - 1) out
  /\ List.Forall (is_run_center (Table.active_of mask axis)) out.
Proof.
  cbv zeta. unfold Table._line_positions_from_mask.
  destruct (active_of_spec mask axis) as [Hs Hb].
  apply segments_to_centers_spec; assumption.
Qed.

(** ** Runs of [detect_table] *)

Ltac flag_lookup :=
  repeat first
    [ rewrite lookup_insert_eq
    | rewrite lookup_insert_ne by discriminate
    | rewrite lookup_singleton_eq
    | rewrite lookup_singleton_ne by discriminate
    | rewrite lookup_empty ].

(** Every run of [detect_table] either returns the all-empty result with
    a failure flag, or returns the measurements of the masks it built. *)
Lemma detect_table_inv (env : Env) (image : Image) (deadline : option Q) (n : nat) :
  forall res flags n',
    Table.detect_table env image deadline n = (res, flags, n') ->
    (res = Table.no_table /\ ~ completed flags)
    \/ (exists cv2 bw m,
          import_cv2 env = Ok cv2
          /\ Table.binarize env cv2 image = Ok bw
          /\ Table.line_masks cv2 bw = Ok m
          /\ res = Table.measure m
          /\ completed flags).
Proof.
  intros res flags n'. unfold Table.detect_table, _safe_import_cv2.
  destruct (_deadline_exceeded env deadline n) as [late n1].
  destruct late.
  { intros [= <- <- <-]. left. split; [reflexivity|].
    unfold completed. flag_lookup. intros [H _]. discriminate. }
  destruct (import_cv2 env) as [cv2|e] eqn:Ecv.
  2:{ intros [= <- <- <-]. left. split; [reflexivity|].
      unfold completed. flag_lookup. intros (_ & H & _). discriminate. }
  destruct (Table.binarize env cv2 image) as [bw|e] eqn:Ebw.
  2:{ intros [= <- <- <-]. left. split; [reflexivity|].
      unfold completed. flag_lookup. intros (_ & _ & H). discriminate. }
  destruct (_deadline_exceeded env deadline n1) as [late n2].
  destruct late.
  { intros [= <- <- <-]. left. split; [reflexivity|].
    unfold completed. flag_lookup. intros [H _]. discriminate. }
  destruct (Table.line_masks cv2 bw) as [m|e] eqn:Em; cbn.
  2:{ intros [= <- <- <-]. left. split; [reflexivity|].
      unfold completed. flag_lookup. intros (_ & _ & H). discriminate. }
  intros [= <- <- <-]. right. exists cv2, bw, m.
  repeat split; auto; flag_lookup; reflexivity.
Qed.

(** Inversion of a chain of [Exc] binds that ended in [Ok]. *)
Ltac exc_inv H :=
  unfold mbind, Exc_bind in H;
  repeat match type of H with
    | match ?m with Ok _ => _ | Raise _ => _ end = _ =>
        let E := fresh "E" in
        destruct m eqn:E; [try exc_inv E|discriminate H]
    | (let '(_, _) := ?p in _) = _ => destruct p
    | Ok _ = Ok _ => injection H as H
    end.

Lemma binarize_shape (env : Env) (cv2 : Cv2) (image : Image) (bw : ndarray) :
  shapes_preserved env cv2 ->
  Table.binarize env cv2 image = Ok bw ->
  shape bw = (snd (size image), fst (size image)).
Proof.
  intros (Hconv & Harr & Hblur & Hthr & _ & _) H.
  unfold Table.binarize, _pil_to_gray_np, _threshold_binary in H.
  exc_inv H. subst.
  match goal with E : threshold _ _ _ _ _ = Ok ?r |- _ =>
    apply Hthr in E; cbn [snd] in E; rewrite E end.
  match goal with E : GaussianBlur _ _ _ _ = Ok _ |- _ =>
    apply Hblur in E; rewrite E end.
  match goal with E : np_array _ _ = Ok _ |- _ =>
    apply Harr in E; rewrite E end.
  destruct (String.eqb (mode image) "L").
  - match goal with E : Ok _ = Ok _ |- _ => injection E as <- end. reflexivity.
  - match goal with E : convert _ _ _ = Ok _ |- _ =>
      apply Hconv in E; rewrite E end. reflexivity.
Qed.

Lemma extract_lines_shape (env : Env) (cv2 : Cv2) (bw out : ndarray)
  (axis : string) (k : Z) :
  shapes_preserved env cv2 ->
  Table._extract_lines cv2 bw axis k = Ok out ->
  shape out = shape bw.
Proof.
  intros (_ & _ & _ & _ & Her & Hdi) H.
  unfold Table._extract_lines in H. destruct (shape bw) as [h w] eqn:Es.
  exc_inv H. subst.
  match goal with E : dilate _ _ _ _ = Ok _ |- _ => apply Hdi in E; rewrite E end.
  match goal with E : erode _ _ _ _ = Ok _ |- _ => apply Her in E; rewrite E end.
  assumption.
Qed.

Lemma line_masks_inv (cv2 : Cv2) (bw : ndarray) (m : Table.Masks) :
  Table.line_masks cv2 bw = Ok m ->
  Table.bw m = bw
  /\ Table._extract_lines cv2 bw "h" 10 = Ok (Table.horizontal m)
  /\ Table._extract_lines cv2 bw "v" 10 = Ok (Table.vertical m)
  /\ bitwise_or cv2 (Table.horizontal m) (Table.vertical m) = Ok (Table.combined m)
  /\ bitwise_and cv2 (Table.horizontal m) (Table.vertical m)
     = Ok (Table.intersections m).
Proof.
  intros H. unfold Table.line_masks in H. exc_inv H. subst m. cbn.
  repeat split; assumption.
Qed.

Lemma count_nonzero_nonneg (a : ndarray) : 0 <= np_count_nonzero a.
Proof. unfold np_count_nonzero. destruct (shape a). apply len_nonneg. Qed.

Lemma line_ratio_nonneg (bw combined : ndarray) :
  (0 <= Table.line_ratio_of bw combined)%Q.
Proof.
  unfold Table.line_ratio_of. destruct (shape bw) as [h w].
  apply Qle_shift_div_l.
  - unfold float_. change 0%Q with (inject_Z 0). rewrite <- Zlt_Qlt. lia.
  - rewrite Qmult_0_l. unfold float_. change 0%Q with (inject_Z 0).
    rewrite <- Zle_Qle. apply count_nonzero_nonneg.
Qed.

(** C7. When [detect_table] completes without deadline expiry or error,
    [detected] holds exactly when both line lists have at least three
    entries and either the line ratio [nonzero(combined) / (W*H)] is at
    least 0.008 or there are at least 200 intersection pixels, and
    [grid_detected] holds exactly when both line lists have at least three
    entries. *)
Theorem detect_table_decision (env : Env) (image : Image) (deadline : option Q)
  (n : nat) (res : Table.TableDetectResult) (flags : Flags) (n' : nat) :
  Table.detect_table env image deadline n = (res, flags, n') ->
  completed flags ->
  exists cv2 bw m,
    import_cv2 env = Ok cv2
    /\ Table.binarize env cv2 image = Ok bw
    /\ Table.line_masks cv2 bw = Ok m
    /\ let '(H, W) := shape bw in
       let line_ratio :=
         (float_ (np_count_nonzero (Table.combined m))
          / float_ (Z.max 1 (W * H)))%Q in
       let min_lines_ok :=
         3 <= len (Table.x_lines res) /\ 3 <= len (Table.y_lines res) in
       Table.intersections_count res = np_count_nonzero (Table.intersections m)
       /\ (Table.detected res = true <->
           min_lines_ok
           /\ ((0.008 <= line_ratio)%Q \/ 200 <= Table.intersections_count res))
       /\ (Table.grid_detected res = true <-> min_lines_ok).
Proof.
  intros Hrun Hdone.
  destruct (detect_table_inv _ _ _ _ _ _ _ Hrun)
    as [[_ Hbad]|(cv2 & bw & m & Hcv & Hbw & Hm & -> & _)]; [contradiction|].
  exists cv2, bw, m. repeat (split; [assumption|]).
  destruct (line_masks_inv _ _ _ Hm) as (Hbwm & _).
  unfold Table.measure, Table.line_ratio_of. rewrite Hbwm.
  destruct (shape bw) as [H W]. cbn [Table.detected Table.grid_detected
    Table.intersections_count Table.x_lines Table.y_lines].
  rewrite (Z.mul_comm W H).
  split; [reflexivity|]. split.
  - rewrite !andb_true_iff, orb_true_iff, !Z.leb_le, Qle_bool_iff. reflexivity.
  - rewrite !andb_true_iff, !Z.leb_le. reflexivity.
Qed.

(** C3, as the code has it. When [detect_table] completes without deadline
    expiry or error, the [line_pixel_ratio] field is the line ratio
    [nonzero(combined) / (W*H)] scaled by ten and capped at one. *)
Theorem line_pixel_ratio_scaled (env : Env) (image : Image)
  (deadline : option Q) (n : nat) (res : Table.TableDetectResult)
  (flags : Flags) (n' : nat) :
  Table.detect_table env image deadline n = (res, flags, n') ->
  completed flags ->
  exists cv2 bw m,
    import_cv2 env = Ok cv2
    /\ Table.binarize env cv2 image = Ok bw
    /\ Table.line_masks cv2 bw = Ok m
    /\ let '(H, W) := shape bw in
       let line_ratio :=
         (float_ (np_count_nonzero (Table.combined m))
          / float_ (Z.max 1 (W * H)))%Q in
       (Table.line_pixel_ratio res == Qmin 1 (10 * line_ratio))%Q.
Proof.
  intros Hrun Hdone.
  destruct (detect_table_inv _ _ _ _ _ _ _ Hrun)
    as [[_ Hbad]|(cv2 & bw & m & Hcv & Hbw & Hm & -> & _)]; [contradiction|].
  exists cv2, bw, m. repeat (split; [assumption|]).
  destruct (line_masks_inv _ _ _ Hm) as (Hbwm & _).
  pose proof (line_ratio_nonneg (Table.bw m) (Table.combined m)) as Hnn.
  unfold Table.measure. cbn [Table.line_pixel_ratio].
  revert Hnn. unfold Table.line_ratio_of. rewrite Hbwm.
  destruct (shape bw) as [H W]. rewrite (Z.mul_comm W H).
  set (r := (float_ _ / float_ _)%Q). intros Hnn.
  rewrite clamp01_nonneg.
  - apply Q.min_compat; [reflexivity|]. field.
  - apply Qmult_le_0_compat; [assumption|discriminate].
Qed.

Lemma detect_table_decision_witness :
  let run := Table.detect_table Examples.ruled_env Examples.ruled_page None 0 in
  completed (snd (fst run))
  /\ exists cv2 bw m,
       import_cv2 Examples.ruled_env = Ok cv2
       /\ Table.binarize Examples.ruled_env cv2 Examples.ruled_page = Ok bw
       /\ Table.line_masks cv2 bw = Ok m.
Proof.
  assert (Hdone : completed
            (snd (fst (Table.detect_table Examples.ruled_env
                         Examples.ruled_page None 0)))).
  { repeat split; vm_compute; reflexivity. }
  split; [exact Hdone|].
  destruct (Table.detect_table Examples.ruled_env Examples.ruled_page None 0)
    as [[res flags] n'] eqn:Hrun.
  destruct (detect_table_decision _ _ _ _ _ _ _ Hrun Hdone)
    as (cv2 & bw & m & H1 & H2 & H3 & _).
  exists cv2, bw, m. auto.
Defined.

Lemma line_pixel_ratio_scaled_witness :
  let run := Table.detect_table Examples.ruled_env Examples.ruled_page None 0 in
  completed (snd (fst run))
  /\ exists cv2 bw m,
       import_cv2 Examples.ruled_env = Ok cv2
       /\ Table.binarize Examples.ruled_env cv2 Examples.ruled_page = Ok bw
       /\ Table.line_masks cv2 bw = Ok m.
Proof.
  assert (Hdone : completed
            (snd (fst (Table.detect_table Examples.ruled_env
                         Examples.ruled_page None 0)))).
  { repeat split; vm_compute; reflexivity. }
  split; [exact Hdone|].
  destruct (Table.detect_table Examples.ruled_env Examples.ruled_page None 0)
    as [[res flags] n'] eqn:Hrun.
  destruct (line_pixel_ratio_scaled _ _ _ _ _ _ _ Hrun Hdone)
    as (cv2 & bw & m & H1 & H2 & H3 & _).
  exists cv2, bw, m. auto.
Defined.

(** C3 as stated fails: on the ruled page the run completes, the union of
    the line masks covers 171 of the 900 pixels, and the field is 1. *)
Lemma line_pixel_ratio_not_fraction :
  exists res flags n',
    Table.detect_table Examples.ruled_env Examples.ruled_page None 0
    = (res, flags, n')
    /\ completed flags
    /\ bitwise_or Examples.ruled_cv2 Examples.ruled_horizontal
         Examples.ruled_vertical = Ok Examples.ruled_combined
    /\ ~ (Table.line_pixel_ratio res
          == float_ (np_count_nonzero Examples.ruled_combined) / float_ (30 * 30))%Q.
Proof.
  eexists _, _, _. split; [vm_compute; reflexivity|].
  split; [repeat split; vm_compute; reflexivity|].
  split; [reflexivity|].
  vm_compute. discriminate.
Qed.

(** C10. The line positions returned by [detect_table] are strictly
    increasing, lie inside the image ([x] in [0..W-1], [y] in [0..H-1]),
    and each is the integer midpoint of a maximal run of consecutive active
    projection indices of its mask. *)
Theorem line_positions_ascending (env : Env) (image : Image)
  (deadline : option Q) (n : nat) (res : Table.TableDetectResult)
  (flags : Flags) (n' : nat) :
  (forall cv2, import_cv2 env = Ok cv2 -> shapes_preserved env cv2) ->
  Table.detect_table env image deadline n = (res, flags, n') ->
  let '(W, H) := size image in
  StronglySorted Z.lt (Table.x_lines res)
  /\ Forall (fun x => 0 <= x <= W - 1) (Table.x_lines res)
  /\ StronglySorted Z.lt (Table.y_lines res)
  /\ Forall (fun y => 0 <= y <= H - 1) (Table.y_lines res)
  /\ ((Table.x_lines res = [] /\ Table.y_lines res = [])
      \/ exists cv2 bw m,
           import_cv2 env = Ok cv2
           /\ Table.binarize env cv2 image = Ok bw
           /\ Table.line_masks cv2 bw = Ok m
           /\ Forall (is_run_center (Table.active_of (Table.vertical m) "v"))
                (Table.x_lines res)
           /\ Forall (is_run_center (Table.active_of (Table.horizontal m) "h"))
                (Table.y_lines res)).
Proof.
  intros Hshapes Hrun. destruct (size image) as [W H] eqn:Esz.
  destruct (detect_table_inv _ _ _ _ _ _ _ Hrun)
    as [[-> _]|(cv2 & bw & m & Hcv & Hbw & Hm & -> & _)].
  { cbn. do 4 (split; [constructor|]). left. split; reflexivity. }
  specialize (Hshapes cv2 Hcv).
  destruct (line_masks_inv _ _ _ Hm) as (_ & Hh & Hv & _).
  pose proof (binarize_shape _ _ _ _ Hshapes Hbw) as Sbw.
  pose proof (extract_lines_shape _ _ _ _ _ _ Hshapes Hh) as Sh.
  pose proof (extract_lines_shape _ _ _ _ _ _ Hshapes Hv) as Sv.
  rewrite Sbw, Esz in Sh, Sv. cbn [fst snd] in Sh, Sv.
  destruct (line_positions_spec (Table.vertical m) "v") as (X1 & X2 & X3).
  destruct (line_positions_spec (Table.horizontal m) "h") as (Y1 & Y2 & Y3).
  rewrite Sv in X2. rewrite Sh in Y2. cbn in X2, Y2.
  unfold Table.measure. cbn [Table.x_lines Table.y_lines].
  repeat (split; [assumption|]).
  right. exists cv2, bw, m. auto.
Qed.

Lemma line_positions_ascending_witness :
  (forall cv2, import_cv2 Examples.ruled_env = Ok cv2 ->
               shapes_preserved Examples.ruled_env cv2)
  /\ StronglySorted Z.lt
       (Table.x_lines
          (fst (fst (Table.detect_table Examples.ruled_env
                       Examples.ruled_page None 0)))).
Proof.
  assert (Hs : forall cv2, import_cv2 Examples.ruled_env = Ok cv2 ->
                           shapes_preserved Examples.ruled_env cv2).
  { intros cv2 [= <-]. unfold shapes_preserved. cbn.
    repeat split.
    - intros im m im' [= <-]. reflexivity.
    - intros im a [= <-]. reflexivity.
    - intros a k sg b [= <-]. reflexivity.
    - intros a t mx ty r [= <-]. reflexivity.
    - intros a k it b [= <-]. reflexivity.
    - intros a k it b [= <-]. reflexivity. }
  split; [exact Hs|].
  destruct (Table.detect_table Examples.ruled_env Examples.ruled_page None 0)
    as [[res flags] n'] eqn:Hrun.
  pose proof (line_positions_ascending _ _ _ _ _ _ _ Hs Hrun) as H.
  cbn in H. destruct H as (H & _). exact H.
Defined.

(** ** The grid loops of [extract_table] *)

Lemma deadline_reads (env : Env) (deadline : option Q) (n : nat) :
  (n <= snd (_deadline_exceeded env deadline n))%nat.
Proof. unfold _deadline_exceeded, _now. destruct deadline; cbn; lia. Qed.

Lemma late_fired (env : Env) (deadline : option Q) (k : nat) :
  fst (_deadline_exceeded env deadline k) = true -> deadline_fired env deadline.
Proof.
  unfold _deadline_exceeded, _now. destruct deadline as [d|]; cbn; [|discriminate].
  intros H. apply Qlt_bool_true in H. exists d, k. auto.
Qed.

Lemma late_stays (env : Env) (deadline : option Q) (k n : nat) :
  monotone (clock env) -> (k <= n)%nat ->
  fst (_deadline_exceeded env deadline k) = true ->
  fst (_deadline_exceeded env deadline n) = true.
Proof.
  intros Hmono Hkn. unfold _deadline_exceeded, _now.
  destruct deadline as [d|]; cbn; [|discriminate].
  rewrite !Qlt_bool_true. intros H.
  eapply Qlt_le_trans; [exact H|]. apply Hmono. assumption.
Qed.

Section grid_facts.
Context (env : Env) (image : Image) (deadline : option Q) (ocr : Table.OcrFn).
Context (x_lines y_lines : list Z) (pad : Z).

(** A row that comes back complete has one cell per column; a shorter row
    means a deadline check inside the row came back late. *)
Lemma cols_loop_length (top bottom : Z) (cis : list Z) :
  forall row cf fl n r cf' fl' n',
    Table.cols_loop env image deadline ocr x_lines pad top bottom cis row cf fl n
    = (Ok r, cf', fl', n') ->
    (n <= n')%nat
    /\ (length r = (length row + length cis)%nat
        \/ ((length r < length row + length cis)%nat
            /\ exists k, (k < n')%nat
                         /\ fst (_deadline_exceeded env deadline k) = true)).
Proof.
  induction cis as [|ci cis IH]; intros row cf fl n r cf' fl' n' H; cbn in H.
  - injection H as <- <- <- <-. split; [lia|]. left. cbn. lia.
  - pose proof (deadline_reads env deadline n) as Hn.
    destruct (_deadline_exceeded env deadline n) as [late n1] eqn:Ed.
    cbn [snd] in Hn. destruct late.
    + injection H as <- <- <- <-. split; [lia|]. right. split; [cbn; lia|].
      exists n. rewrite Ed. split; [|reflexivity].
      unfold _deadline_exceeded, _now in Ed. destruct deadline; [|discriminate].
      injection Ed as _ <-. lia.
    + match type of H with
      | match ?m with Ok _ => _ | Raise _ => _ end = _ => destruct m as [[txt f]|e]
      end; [|discriminate].
      apply IH in H. destruct H as [Hle H]. split; [lia|].
      rewrite length_app in H. cbn [length] in *.
      destruct H as [H|[H Hk]]; [left; lia|right; split; [lia|exact Hk]].
Qed.

(** The rows appended by the row loop: complete rows, then at most one
    shorter row, which only a fired deadline produces. *)
Lemma rows_grid_loop_shape (Hmono : monotone (clock env)) (max_cols : Z)
  (ris : list Z) :
  forall st r st',
    Table.rows_grid_loop env image deadline ocr x_lines y_lines pad max_cols ris st
    = (r, st') ->
    exists full partial,
      Table.g_rows st' = Table.g_rows st ++ full ++ partial
      /\ Forall (fun row => length row = Z.to_nat max_cols) full
      /\ (partial = []
          \/ exists row, partial = [row]
                         /\ (length row < Z.to_nat max_cols)%nat
                         /\ deadline_fired env deadline).
Proof.
  assert (Hnone : forall l : list (list string),
             exists full partial : list (list string),
               l = l ++ full ++ partial
               /\ Forall (fun row => length row = Z.to_nat max_cols) full
               /\ (partial = []
                   \/ exists row, partial = [row]
                                  /\ (length row < Z.to_nat max_cols)%nat
                                  /\ deadline_fired env deadline)).
  { intros l. exists [], []. rewrite app_nil_r. auto. }
  induction ris as [|ri ris IH]; intros st r st' H; cbn in H.
  - injection H as <- <-. apply Hnone.
  - destruct (_deadline_exceeded env deadline (Table.g_reads st)) as [late n1] eqn:Ed.
    destruct late.
    { injection H as <- <-. cbn. apply Hnone. }
    match type of H with
    | match ?m with Ok _ => _ | Raise _ => _ end = _ =>
        destruct m as [[top bottom]|e]
    end.
    2:{ injection H as <- <-. cbn. apply Hnone. }
    destruct (Table.cols_loop env image deadline ocr x_lines pad top bottom
                (range max_cols) [] (Table.g_cell_flags st) (Table.g_flags st) n1)
      as [[[rc cf'] fl'] n2] eqn:Ec.
    destruct rc as [row_cells|e].
    2:{ injection H as <- <-. cbn. apply Hnone. }
    apply cols_loop_length in Ec. destruct Ec as [Hle Hlen].
    assert (Hrange : length (range max_cols) = Z.to_nat max_cols).
    { unfold range. rewrite length_map, length_seq. reflexivity. }
    cbn [length Nat.add] in Hlen. rewrite Hrange in Hlen.
    destruct Hlen as [Hfull|[Hshort (k & Hk & Hlate)]].
    + apply IH in H. cbn [Table.g_rows] in H.
      destruct H as (full & partial & Hrows & Hfull' & Hpart).
      exists (row_cells :: full), partial.
      rewrite Hrows, <- !app_assoc. cbn [app]. split; [reflexivity|].
      split; [constructor; assumption|assumption].
    + assert (Hend : Table.g_rows st' = Table.g_rows st ++ [row_cells]).
      { destruct ris as [|ri' ris]; cbn in H.
        - injection H as <- <-. reflexivity.
        - cbn [Table.g_reads] in H.
          pose proof (late_stays env deadline k n2 Hmono ltac:(lia) Hlate) as Hl.
          destruct (_deadline_exceeded env deadline n2) as [late n3].
          cbn [fst] in Hl. subst late. injection H as <- <-. reflexivity. }
      exists [], [row_cells]. rewrite Hend. cbn [app]. split; [reflexivity|].
      split; [constructor|]. right. exists row_cells.
      split; [reflexivity|]. split; [assumption|].
      eapply late_fired; eassumption.
Qed.

End grid_facts.

(** C4, as the code has it. On the grid-slice path every cell of
    [table.rows] is a string; the rows are complete rows of [max_cols]
    cells each, followed by at most one shorter row, and a shorter row only
    appears when the deadline fired. Without a fired deadline all rows have
    equal length. *)
Theorem grid_rows_shape (env : Env) (image : Image)
  (detect : Table.TableDetectResult) (ocr_blocks : option (list Models.OcrBlock))
  (deadline : option Q) (ocr_fn : option Table.OcrFn) (n : nat)
  (t : Table.TableJson) (flags : Flags) (n' : nat) :
  monotone (clock env) ->
  Table.grid_path detect = true ->
  Table.extract_table env image detect ocr_blocks deadline ocr_fn n
  = (t, flags, n') ->
  let max_cols := Z.min (len (Table._cap_lines (Table.x_lines detect) 60) - 1) 20 in
  exists full partial : list (list string),
    Table.rows t = full ++ partial
    /\ Forall (fun row => len row = max_cols) full
    /\ (partial = []
        \/ exists row, partial = [row] /\ len row < max_cols
                       /\ deadline_fired env deadline).
Proof.
  intros Hmono Hgp H max_cols.
  assert (Hnone : exists full partial : list (list string),
             @nil (list string) = full ++ partial
             /\ Forall (fun row => len row = max_cols) full
             /\ (partial = []
                 \/ exists row, partial = [row] /\ len row < max_cols
                                /\ deadline_fired env deadline)).
  { exists [], []. auto. }
  unfold Table.grid_path in Hgp.
  assert (Hcols : 0 <= max_cols).
  { apply andb_true_iff in Hgp. destruct Hgp as [Hgp _].
    apply andb_true_iff in Hgp. destruct Hgp as [_ Hx].
    apply Z.leb_le in Hx. subst max_cols. lia. }
  unfold Table.extract_table, _now in H.
  destruct (size image) as [img_w img_h].
  destruct (_deadline_exceeded env deadline (S n)) as [late n1].
  destruct late.
  { injection H as <- _ _. exact Hnone. }
  rewrite Hgp in H.
  match type of H with
  | context [Table.rows_grid_loop ?e ?i ?d ?o ?xs ?ys ?p ?mc ?ris ?st] =>
      destruct (Table.rows_grid_loop e i d o xs ys p mc ris st) as [r st'] eqn:E
  end.
  destruct r as [u|e].
  2:{ injection H as <- _ _. exact Hnone. }
  apply (rows_grid_loop_shape _ _ _ _ _ _ _ Hmono) in E.
  destruct E as (full & partial & Hrows & Hfull & Hpart).
  cbn [Table.g_rows app] in Hrows.
  exists full, partial.
  split.
  { injection H as <- _ _. rewrite <- Hrows.
    destruct (truthy_value _); reflexivity. }
  split.
  { eapply List.Forall_impl; [|exact Hfull]. cbv beta. intros row Hrow.
    unfold len. fold max_cols in Hrow. lia. }
  destruct Hpart as [->|(row & -> & Hlt & Hf)]; [left; reflexivity|].
  right. exists row. split; [reflexivity|]. split; [|assumption].
  unfold len. fold max_cols in Hlt. lia.
Qed.

Lemma grid_rows_shape_witness :
  let env := Examples.ex_env (Examples.jump_at 8) Examples.ruled_cv2
               Examples.no_files Examples.undecodable in
  let run := Table.extract_table env Examples.ruled_page Examples.grid_4x3 None
               (Some 10%Q) (Some Examples._stub_cell_ocr) 0 in
  monotone (clock env)
  /\ Table.grid_path Examples.grid_4x3 = true
  /\ exists full partial : list (list string),
       Table.rows (fst (fst run)) = full ++ partial
       /\ Forall (fun row => len row = 3) full
       /\ (partial = []
           \/ exists row, partial = [row] /\ len row < 3
                          /\ deadline_fired env (Some 10%Q)).
Proof.
  intros env run.
  assert (Hmono : monotone (clock env)).
  { intros i j Hij. cbn. unfold Examples.jump_at.
    destruct (Nat.ltb_spec i 8), (Nat.ltb_spec j 8);
      try discriminate; try apply Qle_refl. lia. }
  split; [exact Hmono|]. split; [reflexivity|].
  destruct run as [[t flags] n'] eqn:Hrun.
  exact (grid_rows_shape env Examples.ruled_page Examples.grid_4x3 None
           (Some 10%Q) (Some Examples._stub_cell_ocr) 0 t flags n'
           Hmono eq_refl Hrun).
Defined.

(** C4 as stated fails: when the deadline fires inside the second row of a
    three-column grid, the first row has three cells and the second has
    one. *)
Lemma grid_rows_unequal_on_deadline :
  exists t flags n',
    Table.extract_table
      (Examples.ex_env (Examples.jump_at 8) Examples.ruled_cv2
         Examples.no_files Examples.undecodable)
      Examples.ruled_page Examples.grid_4x3 None (Some 10%Q)
      (Some Examples._stub_cell_ocr) 0 = (t, flags, n')
    /\ Table.grid_path Examples.grid_4x3 = true
    /\ Table.table_method t = "grid_lines_v1"
    /\ Table.rows t = [["X"; "X"; "X"]; ["X"]]
    /\ ~ (forall r1 r2, In r1 (Table.rows t) -> In r2 (Table.rows t) ->
                        length r1 = length r2).
Proof.
  eexists _, _, _. split; [vm_compute; reflexivity|].
  split; [reflexivity|]. split; [reflexivity|]. split; [reflexivity|].
  cbn. intros H.
  specialize (H ["X"; "X"; "X"] ["X"] (or_introl eq_refl)
                (or_intror (or_introl eq_refl))).
  discriminate H.
Qed.

(** ** Sorting and maxima *)

Lemma insert_by_perm {A K} (ltb : K -> K -> bool) (k : A -> K) (x : A) (l : list A) :
  Permutation (insert_by ltb k x l) (x :: l).
Proof.
  induction l as [|y l IH]; cbn; [reflexivity|].
  destruct (ltb (k y) (k x)); [|reflexivity].
  rewrite IH. apply perm_swap.
Qed.

Lemma sorted_perm {A K} (ltb : K -> K -> bool) (k : A -> K) (l : list A) :
  Permutation (sorted ltb k l) l.
Proof.
  induction l as [|x l IH]; cbn; [reflexivity|].
  rewrite insert_by_perm. constructor. exact IH.
Qed.

Lemma sorted_length {A K} (ltb : K -> K -> bool) (k : A -> K) (l : list A) :
  length (sorted ltb k l) = length l.
Proof. apply Permutation_length, sorted_perm. Qed.

Lemma sorted_In {A K} (ltb : K -> K -> bool) (k : A -> K) (l : list A) (x : A) :
  In x (sorted ltb k l) <-> In x l.
Proof.
  split; apply Permutation_in; [|symmetry]; apply sorted_perm.
Qed.

Lemma insert_by_sorted {A} (k : A -> Z) (x : A) (l : list A) :
  StronglySorted (fun a b => k a <= k b) l ->
  StronglySorted (fun a b => k a <= k b) (insert_by Z.ltb k x l).
Proof.
  induction 1 as [|y l Hl IH Hy]; cbn; [repeat constructor|].
  destruct (Z.ltb_spec (k y) (k x)) as [Hlt|Hge].
  - constructor; [exact IH|].
    apply List.Forall_forall. intros z Hz.
    apply (Permutation_in _ (insert_by_perm Z.ltb k x l)) in Hz.
    destruct Hz as [<-|Hz]; [lia|].
    rewrite List.Forall_forall in Hy. apply Hy. assumption.
  - constructor; [constructor; assumption|].
    constructor; [assumption|].
    eapply List.Forall_impl; [|exact Hy]. cbv beta. intros z Hz. lia.
Qed.

Lemma sorted_is_sorted {A} (k : A -> Z) (l : list A) :
  StronglySorted (fun a b => k a <= k b) (sorted Z.ltb k l).
Proof.
  induction l as [|x l IH]; cbn; [constructor|].
  apply insert_by_sorted. exact IH.
Qed.

Lemma foldl_max_spec (l : list Z) (x : Z) :
  (foldl Z.max x l = x \/ In (foldl Z.max x l) l)
  /\ x <= foldl Z.max x l
  /\ forall y, In y l -> y <= foldl Z.max x l.
Proof.
  revert x. induction l as [|z l IH]; intros x; cbn.
  - split; [left; reflexivity|]. split; [lia|]. intros y [].
  - destruct (IH (Z.max x z)) as (H1 & H2 & H3).
    split; [|split].
    + destruct H1 as [H1|H1]; [|right; right; assumption].
      rewrite H1. destruct (Z.max_spec x z) as [[_ ->]|[_ ->]]; auto.
    + lia.
    + intros y [<-|Hy]; [lia|]. apply H3. assumption.
Qed.

Lemma max_list_spec (l : list Z) (m : Z) :
  max_list l = Ok m -> In m l /\ forall y, In y l -> y <= m.
Proof.
  destruct l as [|x l]; [discriminate|]. cbn. intros [= <-].
  destruct (foldl_max_spec l x) as (H1 & H2 & H3).
  split.
  - destruct H1 as [->|H1]; [left; reflexivity|right; assumption].
  - intros y [<-|Hy]; [assumption|]. apply H3. assumption.
Qed.

Lemma max_by_from_In {A K} (ltb : K -> K -> bool) (k : A -> K) (l : list A) (x : A) :
  max_by_from ltb k x l = x \/ In (max_by_from ltb k x l) l.
Proof.
  revert x. induction l as [|y l IH]; intros x; cbn; [left; reflexivity|].
  destruct (IH (if ltb (k x) (k y) then y else x)) as [H|H].
  - rewrite H. destruct (ltb (k x) (k y)); auto.
  - right. right. assumption.
Qed.

Lemma max_by_In {A K} (ltb : K -> K -> bool) (k : A -> K) (l : list A) (r : A) :
  max_by ltb k l = Ok r -> In r l.
Proof.
  destruct l as [|x l]; [discriminate|]. cbn. intros [= <-].
  destruct (max_by_from_In ltb k l x) as [->|H]; [left; reflexivity|right; assumption].
Qed.

(** ** Runs of [extract_bar_chart] *)

(** Every run of [extract_bar_chart] either leaves [values] empty (an early
    return or the error handler), or computes one value per height from the
    fit or from the tallest bar. *)
Lemma extract_bar_chart_inv (env : Env) (image : Image)
  (detect : ChartBar.BarChartDetectResult)
  (ocr_blocks : option (list Models.OcrBlock)) (deadline : option Q)
  (ocr_data_fn : option ChartBar.OcrDataFn) (n : nat) :
  forall chart flags n',
    ChartBar.extract_bar_chart env image detect ocr_blocks deadline ocr_data_fn n
    = (chart, flags, n') ->
    (ChartBar.values (ChartBar.series0 chart) = []
     /\ ChartBar.values_are_normalized (ChartBar.series0 chart) = true
     /\ ChartBar.notes chart <> Some "mvp_single_series")
    \/ (exists m n1 pts flags1 n2 mapping,
          ChartBar.detected detect = true
          /\ 3 <= ChartBar.bar_count detect
          /\ max_list (ChartBar.heights_px_of detect) = Ok m
          /\ _deadline_exceeded env deadline (S n) = (false, n1)
          /\ ChartBar.axis_stage env image detect
               (sorted Z.ltb ChartBar.rx (ChartBar.bars detect))
               deadline ocr_data_fn (ChartBar.initial_flags detect) n1
             = (pts, flags1, n2)
          /\ ChartBar.mapping_of env pts = Ok mapping
          /\ ChartBar.values (ChartBar.series0 chart)
             = match mapping with
               | Some (a, b) =>
                   map (fun hpx =>
                          (a * float_ (ChartBar.baseline_y detect - hpx) + b
                           - (a * float_ (ChartBar.baseline_y detect) + b))%Q)
                     (ChartBar.heights_px_of detect)
               | None =>
                   map (fun h => (float_ h / float_ (Z.max 1 m))%Q)
                     (ChartBar.heights_px_of detect)
               end
          /\ ChartBar.values_are_normalized (ChartBar.series0 chart)
             = match mapping with Some _ => false | None => true end
          /\ (forall ab, mapping = Some ab ->
                flags !! "axis_mapping_succeeded" = Some (VBool true))
          /\ ChartBar.notes chart = Some "mvp_single_series").
Proof.
  intros chart flags n' H.
  unfold ChartBar.extract_bar_chart, _now in H.
  destruct (negb (ChartBar.detected detect) || (ChartBar.bar_count detect <? 3))
    eqn:Eearly.
  { injection H as <- _ _. left. cbn. repeat split. discriminate. }
  apply orb_false_iff in Eearly. destruct Eearly as [Edet Ecnt].
  apply negb_false_iff in Edet. apply Z.ltb_ge in Ecnt.
  destruct (size image) as [img_w img_h].
  destruct (max_list (ChartBar.heights_px_of detect)) as [m|e] eqn:Emax.
  2:{ injection H as <- _ _. left. cbn. repeat split. discriminate. }
  destruct (_deadline_exceeded env deadline (S n)) as [late n1] eqn:Ed.
  destruct late.
  { injection H as <- _ _. left. cbn. repeat split. discriminate. }
  destruct (ChartBar.axis_stage env image detect
              (sorted Z.ltb ChartBar.rx (ChartBar.bars detect)) deadline
              ocr_data_fn (ChartBar.initial_flags detect) n1)
    as [[pts flags1] n2] eqn:Eaxis.
  destruct (ChartBar.mapping_of env pts) as [mapping|e] eqn:Emap.
  2:{ injection H as <- _ _. left. cbn. repeat split. discriminate. }
  right. exists m, n1, pts, flags1, n2, mapping.
  do 6 (split; [assumption || reflexivity|]).
  assert (Hnotes : (if 0 <? ChartBar.bar_count detect
                    then "mvp_single_series" else "no_bars")
                   = "mvp_single_series").
  { destruct (Z.ltb_spec 0 (ChartBar.bar_count detect)); [reflexivity|lia]. }
  rewrite Hnotes in H. clear Hnotes.
  destruct mapping as [[a b]|];
    (destruct ocr_blocks as [[|blk blocks']|];
     [| match type of H with
        | context [ChartBar.labels_loop ?x1 ?x2 ?x3 ?x4 ?x5 ?x6] =>
            destruct (ChartBar.labels_loop x1 x2 x3 x4 x5 x6) as [labels|e'];
            [destruct (existsb (fun l => truthy (strip l)) labels)|]
        end |]);
    injection H as <- <- _; cbn;
    (repeat split; try reflexivity);
    intros ab Hab; first [discriminate Hab | flag_lookup; reflexivity].
Qed.

Lemma float_pos (z : Z) : 0 < z -> (0 < float_ z)%Q.
Proof. intros H. unfold float_. change 0%Q with (inject_Z 0). rewrite <- Zlt_Qlt. exact H. Qed.

Lemma float_le (a b : Z) : a <= b -> (float_ a <= float_ b)%Q.
Proof. intros H. unfold float_. rewrite <- Zle_Qle. exact H. Qed.

Lemma ratio_in_unit (h M : Z) :
  0 <= h -> h <= M -> 0 < M -> (0 <= float_ h / float_ M <= 1)%Q.
Proof.
  intros H0 Hle HM. pose proof (float_pos M HM) as HMq. split.
  - apply Qle_shift_div_l; [assumption|]. rewrite Qmult_0_l.
    change 0%Q with (float_ 0). apply float_le. assumption.
  - apply Qle_shift_div_r; [assumption|]. rewrite Qmult_1_l.
    apply float_le. assumption.
Qed.

Lemma heights_length (detect : ChartBar.BarChartDetectResult) :
  len (ChartBar.heights_px_of detect) = len (ChartBar.bars detect).
Proof.
  unfold ChartBar.heights_px_of, len. rewrite length_map, sorted_length. reflexivity.
Qed.

(** C5, as the code has it. A run of [extract_bar_chart] that reaches its
    value computation on a detector result with [bar_count == len(bars)]
    returns one value per bar; when the values are normalized each lies in
    [0, 1], and the largest is 1 as soon as one bar top lies above the
    baseline. *)
Theorem bar_values_shape (env : Env) (image : Image)
  (detect : ChartBar.BarChartDetectResult)
  (ocr_blocks : option (list Models.OcrBlock)) (deadline : option Q)
  (ocr_data_fn : option ChartBar.OcrDataFn) (n : nat)
  (chart : ChartBar.ChartJson) (flags : Flags) (n' : nat) :
  ChartBar.extract_bar_chart env image detect ocr_blocks deadline ocr_data_fn n
  = (chart, flags, n') ->
  ChartBar.notes chart = Some "mvp_single_series" ->
  ChartBar.bar_count detect = len (ChartBar.bars detect) ->
  let values := ChartBar.values (ChartBar.series0 chart) in
  len values = ChartBar.bar_count detect
  /\ (ChartBar.values_are_normalized (ChartBar.series0 chart) = true ->
      Forall (fun v => (0 <= v <= 1)%Q) values
      /\ ((exists r, In r (ChartBar.bars detect)
                     /\ ChartBar.ry r < ChartBar.baseline_y detect) ->
          Exists (fun v => (v == 1)%Q) values)).
Proof.
  intros Hrun Hnotes Hcount values. subst values.
  destruct (extract_bar_chart_inv _ _ _ _ _ _ _ _ _ _ Hrun)
    as [(_ & _ & Hbad)|(m & n1 & pts & flags1 & n2 & mapping & _ & _ & Hmax
                        & _ & _ & _ & Hvals & Hnorm & _ & _)];
    [contradiction|].
  rewrite Hvals, Hnorm, Hcount, <- heights_length.
  apply max_list_spec in Hmax. destruct Hmax as [Hm_in Hm_max].
  destruct mapping as [[a b]|].
  - split; [unfold len; rewrite length_map; reflexivity|]. discriminate.
  - split; [unfold len; rewrite length_map; reflexivity|]. intros _.
    assert (Hnonneg : forall h, In h (ChartBar.heights_px_of detect) -> 0 <= h).
    { intros h Hh. unfold ChartBar.heights_px_of in Hh.
      apply in_map_iff in Hh. destruct Hh as (r & <- & _). lia. }
    split.
    + apply List.Forall_forall. intros v Hv.
      apply in_map_iff in Hv. destruct Hv as (h & <- & Hh).
      apply ratio_in_unit; [apply Hnonneg; assumption| |lia].
      specialize (Hm_max h Hh). lia.
    + intros (r & Hr & Htop).
      assert (Hone : 1 <= m).
      { assert (Hh : Z.max 0 (ChartBar.baseline_y detect - ChartBar.ry r) <= m).
        { apply Hm_max. unfold ChartBar.heights_px_of. apply in_map_iff.
          exists r. split; [reflexivity|]. apply sorted_In. assumption. }
        lia. }
      apply List.Exists_exists.
      exists (float_ m / float_ (Z.max 1 m))%Q. split.
      * apply in_map_iff. exists m. split; [reflexivity|assumption].
      * rewrite Z.max_r by lia. apply Qmult_inv_r.
        unfold float_, Qeq. cbn. lia.
Qed.

Lemma bar_values_shape_witness :
  let env := Examples.bars_env Examples.still Examples.four_bars in
  let run := ChartBar.extract_bar_chart env Examples.bars_page
               Examples.four_bars_detected None (Some 10%Q) None 0 in
  ChartBar.notes (fst (fst run)) = Some "mvp_single_series"
  /\ ChartBar.bar_count Examples.four_bars_detected
     = len (ChartBar.bars Examples.four_bars_detected)
  /\ len (ChartBar.values (ChartBar.series0 (fst (fst run)))) = 4.
Proof.
  intros env run.
  assert (Hnotes : ChartBar.notes (fst (fst run)) = Some "mvp_single_series")
    by (vm_compute; reflexivity).
  split; [exact Hnotes|]. split; [reflexivity|].
  destruct run as [[chart flags] n'] eqn:Hrun.
  exact (proj1 (bar_values_shape env Examples.bars_page
                  Examples.four_bars_detected None (Some 10%Q) None 0
                  chart flags n' Hrun Hnotes eq_refl)).
Defined.

(** C5 as stated fails: when the deadline has passed at the extractor's
    check, the detector result has four bars and the series has no value. *)
Lemma bar_values_empty_on_deadline :
  exists chart flags n',
    ChartBar.extract_bar_chart
      (Examples.bars_env (Examples.jump_at 1) Examples.four_bars)
      Examples.bars_page Examples.four_bars_detected None (Some 10%Q) None 0
    = (chart, flags, n')
    /\ ChartBar.bar_count Examples.four_bars_detected = 4
    /\ ChartBar.values (ChartBar.series0 chart) = []
    /\ ChartBar.values_are_normalized (ChartBar.series0 chart) = true
    /\ len (ChartBar.values (ChartBar.series0 chart))
       <> ChartBar.bar_count Examples.four_bars_detected
    /\ ~ Exists (fun v => (v == 1)%Q) (ChartBar.values (ChartBar.series0 chart)).
Proof.
  eexists _, _, _. split; [vm_compute; reflexivity|].
  cbn. repeat split; try discriminate.
  intros H. inversion H.
Qed.



(** ** Runs of [detect_bar_chart] *)

Lemma bounding_rects_spec (cv2 : Cv2) (contours : list contour) :
  forall rects,
    ChartBar.bounding_rects cv2 contours = Ok rects ->
    Forall (fun r => exists c, In c contours /\ boundingRect cv2 c = Ok r) rects.
Proof.
  induction contours as [|c contours IH]; intros rects H; cbn in H.
  - injection H as <-. constructor.
  - exc_inv H. subst rects. constructor.
    + exists c. split; [left; reflexivity|assumption].
    + eapply List.Forall_impl; [|apply IH; reflexivity].
      cbv beta. intros r (c' & Hc' & Hr). exists c'.
      split; [right; assumption|assumption].
Qed.

Lemma filter_candidates_In (rects : list ChartBar.Rect) (img_w img_h : Z)
  (r : ChartBar.Rect) :
  In r (ChartBar._filter_bar_candidates rects img_w img_h) -> In r rects.
Proof.
  unfold ChartBar._filter_bar_candidates. intros H.
  apply filter_In in H. tauto.
Qed.

Lemma cluster_loop_In (merge_px : Z) (rs : list ChartBar.Rect) :
  forall clusters cur cur_cx c r,
    In c (ChartBar.cluster_loop merge_px rs clusters cur cur_cx) -> In r c ->
    In r rs \/ In r cur \/ exists c', In c' clusters /\ In r c'.
Proof.
  induction rs as [|r0 rs IH]; intros clusters cur cur_cx c r Hc Hr; cbn in Hc.
  - apply in_app_or in Hc. destruct Hc as [Hc|[<-|[]]].
    + right. right. exists c. auto.
    + right. left. assumption.
  - destruct (Qle_bool _ _).
    + destruct (IH _ _ _ _ _ Hc Hr) as [H|[H|H]].
      * left. right. assumption.
      * apply in_app_or in H. destruct H as [H|[<-|[]]].
        -- right. left. assumption.
        -- left. left. reflexivity.
      * right. right. assumption.
    + destruct (IH _ _ _ _ _ Hc Hr) as [H|[H|H]].
      * left. right. assumption.
      * destruct H as [<-|[]]. left. left. reflexivity.
      * destruct H as (c' & Hc' & Hrc'). apply in_app_or in Hc'.
        destruct Hc' as [Hc'|[<-|[]]].
        -- right. right. exists c'. auto.
        -- right. left. assumption.
Qed.

Lemma pick_largest_In (clusters : list (list ChartBar.Rect)) :
  forall merged r,
    ChartBar.pick_largest clusters = Ok merged -> In r merged ->
    exists c, In c clusters /\ In r c.
Proof.
  induction clusters as [|c clusters IH]; intros merged r H Hr; cbn in H.
  - injection H as <-. destruct Hr.
  - exc_inv H. subst merged. destruct Hr as [<-|Hr].
    + exists c. split; [left; reflexivity|]. eapply max_by_In. eassumption.
    + destruct (IH _ _ eq_refl Hr) as (c' & Hc' & Hrc').
      exists c'. split; [right; assumption|assumption].
Qed.

Lemma cluster_by_x_In (rects : list ChartBar.Rect) (merge_px : Z)
  (bars : list ChartBar.Rect) (r : ChartBar.Rect) :
  ChartBar._cluster_by_x rects merge_px = Ok bars -> In r bars -> In r rects.
Proof.
  unfold ChartBar._cluster_by_x. intros H Hr.
  destruct (sorted Qlt_bool ChartBar.x_center rects) as [|r0 rs] eqn:Es.
  { injection H as <-. destruct Hr. }
  destruct (pick_largest_In _ _ _ H Hr) as (c & Hc & Hrc).
  apply (sorted_In Qlt_bool ChartBar.x_center). rewrite Es.
  destruct (cluster_loop_In _ _ _ _ _ _ _ Hc Hrc) as [Hin|[Hin|Hin]].
  - right. assumption.
  - destruct Hin as [<-|[]]. left. reflexivity.
  - destruct Hin as (c' & [] & _).
Qed.

Lemma subtract_thin_axis_lines_shape (env : Env) (bw : ndarray)
  (img_w img_h : Z) (cv2 : Cv2) :
  cleaning_preserves_shape cv2 ->
  shape (fst (ChartBar._subtract_thin_axis_lines env bw img_w img_h cv2))
  = shape bw.
Proof.
  intros [_ Hsub]. unfold ChartBar._subtract_thin_axis_lines. cbv zeta.
  match goal with
  | |- shape (fst (match ?m with Ok _ => _ | Raise _ => _ end)) = _ =>
      destruct m as [[cleaned kept]|e] eqn:E
  end; [|reflexivity].
  cbn [fst]. exc_inv E. subst cleaned. eapply Hsub. eassumption.
Qed.

(** Every run of [detect_bar_chart] returns either no bar at all, or the
    clustered candidates, sorted by [x] when it reports a chart. The
    candidates are bounding rectangles of contours of the cleaned binary
    image, which has the dimensions of the page when the imaging
    operations keep dimensions. *)
Lemma detect_bar_chart_inv (env : Env) (image : Image) (deadline : option Q)
  (n : nat) :
  forall res flags n',
    ChartBar.detect_bar_chart env image deadline n = (res, flags, n') ->
    res = ChartBar.no_chart
    \/ exists cv2 bw rects bars0,
         import_cv2 env = Ok cv2
         /\ (shapes_preserved env cv2 -> cleaning_preserves_shape cv2 ->
             shape bw = (snd (size image), fst (size image)))
         /\ Forall (found_rect cv2 bw) rects
         /\ (forall r, In r bars0 -> In r rects)
         /\ ChartBar.bar_count res = len bars0
         /\ ((ChartBar.detected res = false /\ ChartBar.bars res = bars0)
             \/ (ChartBar.detected res = true
                 /\ ChartBar.bars res = sorted Z.ltb ChartBar.rx bars0)).
Proof.
  intros res flags n'. unfold ChartBar.detect_bar_chart, _safe_import_cv2.
  destruct (_deadline_exceeded env deadline n) as [late n1].
  destruct late; [intros [= <- _ _]; left; reflexivity|].
  destruct (import_cv2 env) as [cv2|e] eqn:Ecv;
    [|intros [= <- _ _]; left; reflexivity].
  destruct (size image) as [img_w img_h] eqn:Esize.
  match goal with
  | |- context [match ?m with Ok _ => _ | Raise _ => _ end = _] =>
      destruct m as [bw|e] eqn:Ebw
  end; [|intros [= <- _ _]; left; reflexivity].
  pose proof (subtract_thin_axis_lines_shape env bw img_w img_h cv2) as Hthin.
  destruct (ChartBar._subtract_thin_axis_lines env bw img_w img_h cv2)
    as [bw1 line_flags].
  cbn [fst] in Hthin.
  match goal with
  | |- context [let '(_, _) := ?p in _] => destruct p as [bw2 flags2] eqn:Eopen
  end.
  assert (Hshape : shapes_preserved env cv2 -> cleaning_preserves_shape cv2 ->
                   shape bw2 = (snd (img_w, img_h), fst (img_w, img_h))).
  { intros Hsp Hcl. cbn [fst snd].
    assert (Hbw : shape bw = (img_h, img_w)).
    { pose proof (binarize_shape env cv2 image bw Hsp Ebw) as Hb.
      rewrite Esize in Hb. exact Hb. }
    assert (H21 : shape bw2 = shape bw1).
    { match type of Eopen with
      | match ?m with Ok _ => _ | Raise _ => _ end = _ =>
          destruct m as [opened|e] eqn:Em
      end; injection Eopen as <- _; [|reflexivity].
      exc_inv Em.
      match goal with
      | Hm : morphologyEx cv2 bw1 _ _ _ = Ok _ |- _ =>
          apply (proj1 Hcl) in Hm; exact Hm
      end. }
    rewrite H21, (Hthin Hcl). exact Hbw. }
  clear Eopen Hthin.
  destruct (_deadline_exceeded env deadline n1) as [late n2].
  destruct late; [intros [= <- _ _]; left; reflexivity|].
  match goal with
  | |- context [match ?m with Ok _ => _ | Raise _ => _ end = _] =>
      destruct m as [rects|e] eqn:Erects
  end; [|intros [= <- _ _]; left; reflexivity].
  destruct (len (ChartBar._filter_bar_candidates rects img_w img_h) =? 0);
    [intros [= <- _ _]; left; reflexivity|].
  destruct (ChartBar._cluster_by_x _ _) as [bars0|e] eqn:Ecl;
    [|intros [= <- _ _]; left; reflexivity].
  assert (Hrects : Forall (found_rect cv2 bw2) rects).
  { exc_inv Erects.
    match goal with
    | Hb : ChartBar.bounding_rects cv2 _ = Ok rects |- _ =>
        apply bounding_rects_spec in Hb;
        eapply List.Forall_impl; [|exact Hb]
    end.
    cbv beta. intros r (c & Hc & Hr). unfold found_rect. eauto 10. }
  assert (Hsub : forall r, In r bars0 -> In r rects).
  { intros r Hr. eapply filter_candidates_In, cluster_by_x_In; eassumption. }
  destruct (len bars0 <? 3).
  { intros [= <- _ _]. right. exists cv2, bw2, rects, bars0. cbn. auto 10. }
  match goal with
  | |- context [if negb ?d then _ else _] => destruct d
  end; cbn [negb].
  - intros [= <- _ _]. right. exists cv2, bw2, rects, bars0. cbn. auto 10.
  - intros [= <- _ _]. right. exists cv2, bw2, rects, bars0. cbn. auto 10.
Qed.

(** C6, as the code has it. Every result of [detect_bar_chart] has
    [bar_count == len(bars)], and the rectangles are sorted by [x]
    ascending when [detected] is true. Every rectangle is the bounding
    rectangle of a contour found in the cleaned binary image; it lies
    inside the page because the imaging operations keep the page's
    dimensions and OpenCV's contours lie inside the array they are found
    in. *)
Theorem bar_detect_result_shape (env : Env) (image : Image)
  (deadline : option Q) (n : nat) (res : ChartBar.BarChartDetectResult)
  (flags : Flags) (n' : nat) :
  (forall cv2, import_cv2 env = Ok cv2 ->
     shapes_preserved env cv2 /\ cleaning_preserves_shape cv2
     /\ contours_inside cv2) ->
  ChartBar.detect_bar_chart env image deadline n = (res, flags, n') ->
  ChartBar.bar_count res = len (ChartBar.bars res)
  /\ (ChartBar.detected res = true ->
      StronglySorted (fun r1 r2 => ChartBar.rx r1 <= ChartBar.rx r2)
        (ChartBar.bars res))
  /\ Forall (in_image (size image)) (ChartBar.bars res).
Proof.
  intros Hcv2 Hrun.
  destruct (detect_bar_chart_inv _ _ _ _ _ _ _ Hrun)
    as [->|(cv2 & bw & rects & bars0 & Hcv & Hshape & Hrects & Hsub & Hcount
            & Hcase)].
  { cbn. split; [reflexivity|]. split; [discriminate|constructor]. }
  destruct (Hcv2 cv2 Hcv) as (Hsp & Hcl & Hin).
  specialize (Hshape Hsp Hcl).
  assert (Hall : Forall (in_image (size image)) bars0).
  { apply List.Forall_forall. intros r Hr. apply Hsub in Hr.
    rewrite List.Forall_forall in Hrects.
    pose proof (Hin bw r (Hrects r Hr)) as Hr'.
    rewrite Hshape in Hr'. cbn [fst snd] in Hr'.
    destruct (size image). exact Hr'. }
  destruct Hcase as [[Hd ->]|[Hd ->]].
  - split; [assumption|]. split; [rewrite Hd; discriminate|assumption].
  - split; [rewrite Hcount; unfold len; rewrite sorted_length; reflexivity|].
    split; [intros _; apply sorted_is_sorted|].
    apply List.Forall_forall. intros r Hr. apply sorted_In in Hr.
    rewrite List.Forall_forall in Hall. apply Hall. assumption.
Qed.

(** The recorded OpenCV of the examples honours the contracts. *)
Lemma recorded_cv2_contracts (horizontal vertical : ndarray)
  (rects : list ChartBar.Rect) :
  cleaning_preserves_shape (Examples.recorded_cv2 horizontal vertical rects)
  /\ contours_inside (Examples.recorded_cv2 horizontal vertical rects).
Proof.
  split.
  - split.
    + intros a op k it b [= <-]. reflexivity.
    + intros a m b [= <-]. reflexivity.
  - intros a r (m1 & m2 & contours & hier & c & Hf & Hc & Hr).
    cbn in Hf. injection Hf as <- _.
    apply in_map_iff in Hc. destruct Hc as ([[[x y] w] h] & <- & Hin).
    apply filter_In in Hin. destruct Hin as [_ Hfit].
    unfold Examples.fits in Hfit.
    repeat (apply andb_true_iff in Hfit; destruct Hfit as [Hfit ?]).
    cbn in Hr. injection Hr as <-.
    unfold in_image, ChartBar.rx, ChartBar.ry, ChartBar.rw, ChartBar.rh.
    cbn [fst snd]. lia.
Qed.

Lemma bar_detect_result_shape_witness :
  let env := Examples.bars_env Examples.still Examples.four_bars in
  let run := ChartBar.detect_bar_chart env Examples.bars_page None 0 in
  (forall cv2, import_cv2 env = Ok cv2 ->
     shapes_preserved env cv2 /\ cleaning_preserves_shape cv2
     /\ contours_inside cv2)
  /\ ChartBar.detected (fst (fst run)) = true
  /\ ChartBar.bar_count (fst (fst run)) = len (ChartBar.bars (fst (fst run)))
  /\ Forall (in_image (200, 120)) (ChartBar.bars (fst (fst run))).
Proof.
  intros env run.
  assert (Hcv2 : forall cv2, import_cv2 env = Ok cv2 ->
            shapes_preserved env cv2 /\ cleaning_preserves_shape cv2
            /\ contours_inside cv2).
  { intros cv2 [= <-]. split.
    - unfold shapes_preserved. cbn.
      split; [intros im m im' [= <-]; reflexivity|].
      split; [intros im a [= <-]; reflexivity|].
      split; [intros a k sg b [= <-]; reflexivity|].
      split; [intros a t mx ty r [= <-]; reflexivity|].
      split; [intros a k it b [= <-]; reflexivity|].
      intros a k it b [= <-]; reflexivity.
    - apply recorded_cv2_contracts. }
  split; [exact Hcv2|]. split; [vm_compute; reflexivity|].
  destruct run as [[res flags] n'] eqn:Hrun.
  pose proof (bar_detect_result_shape env Examples.bars_page None 0
                res flags n' Hcv2 Hrun) as H.
  exact (conj (proj1 H) (proj2 (proj2 H))).
Defined.

(** C6 as stated fails: two blobs are too few for a chart, so the result
    has [detected = false] and keeps them in the order of their x-centres:
    the narrow blob at [x = 20] before the wide one at [x = 10]. *)
Lemma bars_unsorted_when_not_detected :
  exists res flags n',
    ChartBar.detect_bar_chart
      (Examples.bars_env Examples.still Examples.two_blobs)
      Examples.bars_page None 0 = (res, flags, n')
    /\ ChartBar.detected res = false
    /\ ChartBar.bars res = [(20, 10, 10, 30); (10, 60, 100, 60)]
    /\ ~ StronglySorted (fun r1 r2 => ChartBar.rx r1 <= ChartBar.rx r2)
          (ChartBar.bars res).
Proof.
  eexists _, _, _. split; [vm_compute; reflexivity|].
  split; [reflexivity|]. split; [reflexivity|].
  cbn. intros H. apply StronglySorted_inv in H. destruct H as [_ H].
  inversion H as [|? ? Hle _]. cbn in Hle. lia.
Qed.

(** ** The request handler *)






Lemma add_flags_asset_type (a : Asset.VisualAsset) (f : Flags) :
  Asset.asset_type (Main.add_flags a f) = Asset.asset_type a.
Proof. unfold Main.add_flags. destruct (Nat.eqb _ 0); reflexivity. Qed.

Lemma add_flags_confidence (a : Asset.VisualAsset) (f : Flags) :
  Asset.confidence (Main.add_flags a f) = Asset.confidence a.
Proof. unfold Main.add_flags. destruct (Nat.eqb _ 0); reflexivity. Qed.

Lemma add_flags_extraction (a : Asset.VisualAsset) (f : Flags) :
  Asset.extraction (Main.add_flags a f) = Asset.extraction a.
Proof. unfold Main.add_flags. destruct (Nat.eqb _ 0); reflexivity. Qed.

Lemma run_ocr_lite_no_payload (env : Env) (img : Image) :
  Extraction.structured_json (fst (Ocr.run_ocr_lite env img))
  = {| sj_table := None; sj_chart := None |}.
Proof.
  unfold Ocr.run_ocr_lite.
  destruct (import_pytesseract env) as [pt|e]; [|reflexivity].
  destruct (which_tesseract env); [|reflexivity]. cbn [negb].
  destruct (image_to_data pt _ _) as [data|e]; [|reflexivity].
  destruct (size _) as [img_w img_h]. reflexivity.
Qed.

Lemma maxq_ge_r (a b : Q) : (b <= maxq a b)%Q.
Proof.
  unfold maxq. destruct (Qlt_bool a b) eqn:E; [apply Qle_refl|].
  apply Qlt_bool_false in E. exact E.
Qed.

Lemma maxq_ge_l (a b : Q) : (a <= maxq a b)%Q.
Proof.
  unfold maxq. destruct (Qlt_bool a b) eqn:E; [|apply Qle_refl].
  apply Qlt_bool_true in E. apply Qlt_le_weak. exact E.
Qed.

Lemma minq_le_r (a b : Q) : (minq a b <= b)%Q.
Proof.
  unfold minq. destruct (Qlt_bool b a) eqn:E; [apply Qle_refl|].
  apply Qlt_bool_false in E. exact E.
Qed.

(** What the body of the asset loop does to one asset, in terms of the
    OCR extraction and of the table detector's verdict. *)
Lemma process_asset_inv (env : Env) (img : Image) (image_hash : string)
  (table_deadline : Q) (a : Asset.VisualAsset) (summary : Main.TableSummary)
  (n : nat) :
  forall a' summary' calls n',
    Main.process_asset env img image_hash table_deadline a summary n
    = (a', summary', calls, n') ->
    let ocr := fst (Ocr.run_ocr_lite env img) in
    let verdict :=
      Table.detected
        (fst (fst (Table.detect_table env img (Some table_deadline) n))) in
    let rule (current ocr_conf : Q) :=
      if Main.has_ocr_text ocr then maxq current ocr_conf
      else minq current 0.25 in
    Extraction.ocr_text (Asset.extraction a') = Extraction.ocr_text ocr
    /\ sj_chart (Extraction.structured_json (Asset.extraction a')) = None
    /\ if verdict
       then exists t,
           sj_table (Extraction.structured_json (Asset.extraction a')) = Some t
           /\ calls = [Main.CallOcr; Main.CallDetectTable; Main.CallExtractTable]
           /\ Asset.asset_type a' = Models.AssetTable
           /\ Extraction.confidence (Asset.extraction a')
              = maxq (Extraction.confidence ocr) (Table.confidence t)
           /\ Asset.confidence a'
              = rule (maxq (Asset.confidence a) (Table.confidence t))
                  (maxq (Extraction.confidence ocr) (Table.confidence t))
       else sj_table (Extraction.structured_json (Asset.extraction a')) = None
            /\ calls = [Main.CallOcr; Main.CallDetectTable]
            /\ Asset.asset_type a' = Asset.asset_type a
            /\ Extraction.confidence (Asset.extraction a')
               = Extraction.confidence ocr
            /\ Asset.confidence a'
               = rule (Asset.confidence a) (Extraction.confidence ocr).
Proof.
  intros a' summary' calls n' H. cbv zeta.
  unfold Main.process_asset in H.
  pose proof (run_ocr_lite_no_payload env img) as Hpay.
  destruct (Ocr.run_ocr_lite env img) as [extraction ocr_flags].
  cbn [fst] in Hpay |- *.
  destruct (Table.detect_table env img (Some table_deadline) n)
    as [[detect_res table_detect_flags] n1].
  cbn [fst].
  unfold Main.has_ocr_text in *. unfold Main.add_flags in H.
  destruct (Table.detected detect_res).
  - destruct (Table.extract_table env img detect_res _ _ _ n1)
      as [[structured table_flags] n2].
    repeat match type of H with
      | context [if Nat.eqb ?x 0 then _ else _] => destruct (Nat.eqb x 0)
      end;
      cbn in H;
      destruct (match Extraction.ocr_text extraction with
                | Some t => truthy t | None => false end);
      injection H as <- _ <- _; cbn;
      (split; [reflexivity|]); (split; [reflexivity|]);
      exists structured; auto 10.
  - repeat match type of H with
      | context [if Nat.eqb ?x 0 then _ else _] => destruct (Nat.eqb x 0)
      end;
      cbn in H;
      destruct (match Extraction.ocr_text extraction with
                | Some t => truthy t | None => false end);
      injection H as <- _ <- _; cbn; rewrite Hpay; auto 10.
Qed.

(** C2, as the code has it. After the body of the asset loop, with
    [current] the asset confidence raised to the table extractor's
    confidence when a table was extracted: if OCR text is present the asset
    confidence is [max(current, OCR confidence)] and is at least the
    extractor's confidence; if OCR text is absent it is
    [min(current, 0.25)], hence at most 0.25 whatever the extractor's
    confidence was. *)
Theorem confidence_rule (env : Env) (img : Image) (image_hash : string)
  (table_deadline : Q) (a : Asset.VisualAsset) (summary : Main.TableSummary)
  (n : nat) (a' : Asset.VisualAsset) (summary' : Main.TableSummary)
  (calls : list Main.Call) (n' : nat) :
  Main.process_asset env img image_hash table_deadline a summary n
  = (a', summary', calls, n') ->
  let e' := Asset.extraction a' in
  let extracted := sj_table (Extraction.structured_json e') in
  let current :=
    match extracted with
    | Some t => maxq (Asset.confidence a) (Table.confidence t)
    | None => Asset.confidence a
    end in
  (Main.has_ocr_text e' = true ->
   Asset.confidence a' = maxq current (Extraction.confidence e')
   /\ forall t, extracted = Some t ->
                (Table.confidence t <= Asset.confidence a')%Q)
  /\ (Main.has_ocr_text e' = false ->
      Asset.confidence a' = minq current 0.25
      /\ (Asset.confidence a' <= 0.25)%Q).
Proof.
  intros H. cbv zeta.
  pose proof (process_asset_inv _ _ _ _ _ _ _ _ _ _ _ H) as Hinv.
  cbv zeta in Hinv. destruct Hinv as (Htext & _ & Hcase).
  assert (Hhas : Main.has_ocr_text (Asset.extraction a')
                 = Main.has_ocr_text (fst (Ocr.run_ocr_lite env img))).
  { unfold Main.has_ocr_text. rewrite Htext. reflexivity. }
  rewrite Hhas.
  destruct (Table.detected _).
  - destruct Hcase as (t & Ht & _ & _ & Hec & Hc).
    rewrite Ht, Hec, Hc. split; intros Ho; rewrite Ho.
    + split; [reflexivity|]. intros t' [= <-].
      eapply Qle_trans; [|apply maxq_ge_l]. apply maxq_ge_r.
    + split; [reflexivity|]. apply minq_le_r.
  - destruct Hcase as (Ht & _ & _ & Hec & Hc).
    rewrite Ht, Hec, Hc. split; intros Ho; rewrite Ho.
    + split; [reflexivity|]. intros t' [=].
    + split; [reflexivity|]. apply minq_le_r.
Qed.

Lemma confidence_rule_witness :
  let run := Main.process_asset Examples.ruled_env Examples.ruled_page "hash"
               4.0 Examples.page_asset Examples.no_summary 0 in
  let a' := fst (fst (fst run)) in
  Main.has_ocr_text (Asset.extraction a') = false
  /\ (Asset.confidence a' <= 0.25)%Q.
Proof.
  intros run a'.
  assert (Ho : Main.has_ocr_text (Asset.extraction a') = false)
    by (vm_compute; reflexivity).
  split; [exact Ho|].
  subst a'. destruct run as [[[a1 s1] c1] n1] eqn:Hrun.
  exact (proj2 (proj2 (confidence_rule Examples.ruled_env Examples.ruled_page
                         "hash" 4.0 Examples.page_asset Examples.no_summary
                         0 a1 s1 c1 n1 Hrun) Ho)).
Defined.

(** C2 as stated fails: on the ruled page without an OCR engine the table
    extractor's confidence is about 0.65, above what the rule gives, and
    the asset's final confidence is 0.25. *)
Lemma table_confidence_capped_without_ocr :
  exists run a t,
    Main.extract_visuals Examples.ruled_env (Examples.request "page.png") 0
    = Ok run
    /\ assets (Main.content (Main.response run)) = [a]
    /\ sj_table (Extraction.structured_json (Asset.extraction a)) = Some t
    /\ Asset.asset_type a = Models.AssetTable
    /\ Main.has_ocr_text (Asset.extraction a) = false
    /\ (Table.confidence t == 260225 # 400000)%Q
    /\ (Asset.confidence a == 1 # 4)%Q
    /\ (minq 0.5 0.25 < Table.confidence t)%Q
    /\ ~ (Asset.confidence a == Table.confidence t)%Q.
Proof.
  eexists _, _, _. split; [vm_compute; reflexivity|].
  split; [reflexivity|].
  split; [reflexivity|]. split; [reflexivity|]. split; [reflexivity|].
  split; [reflexivity|]. split; [reflexivity|]. split; [reflexivity|].
  vm_compute. discriminate.
Qed.

(** C1, as the code has it. The body of the asset loop runs OCR and then
    table detection; on a positive verdict it runs table extraction and
    sets [asset_type] to "table", on a negative verdict it runs nothing
    more and leaves [asset_type] as it was. The handler never calls
    bar-chart detection or extraction, and no asset of its response has
    type "chart" or carries a chart payload. *)
Theorem orchestrator_table_only (env : Env) :
  (forall img image_hash table_deadline a summary n a' summary' calls n',
     Main.process_asset env img image_hash table_deadline a summary n
     = (a', summary', calls, n') ->
     let verdict :=
       Table.detected
         (fst (fst (Table.detect_table env img (Some table_deadline) n))) in
     let extracted :=
       sj_table (Extraction.structured_json (Asset.extraction a')) in
     ~ In Main.CallDetectBarChart calls
     /\ ~ In Main.CallExtractBarChart calls
     /\ sj_chart (Extraction.structured_json (Asset.extraction a')) = None
     /\ if verdict
        then calls = [Main.CallOcr; Main.CallDetectTable; Main.CallExtractTable]
             /\ Asset.asset_type a' = Models.AssetTable
             /\ extracted <> None
        else calls = [Main.CallOcr; Main.CallDetectTable]
             /\ Asset.asset_type a' = Asset.asset_type a
             /\ extracted = None)
  /\ (forall req n run,
        Main.extract_visuals env req n = Ok run ->
        ~ In Main.CallDetectBarChart (Main.calls run)
        /\ ~ In Main.CallExtractBarChart (Main.calls run)
        /\ Forall (fun a =>
                     Asset.asset_type a <> Models.AssetChart
                     /\ sj_chart (Extraction.structured_json (Asset.extraction a))
                        = None)
             (assets (Main.content (Main.response run)))).
Proof.
  assert (Hbody :
    forall img image_hash table_deadline a summary n a' summary' calls n',
      Main.process_asset env img image_hash table_deadline a summary n
      = (a', summary', calls, n') ->
      ~ In Main.CallDetectBarChart calls
      /\ ~ In Main.CallExtractBarChart calls
      /\ sj_chart (Extraction.structured_json (Asset.extraction a')) = None
      /\ if Table.detected
              (fst (fst (Table.detect_table env img (Some table_deadline) n)))
         then calls = [Main.CallOcr; Main.CallDetectTable; Main.CallExtractTable]
              /\ Asset.asset_type a' = Models.AssetTable
              /\ sj_table (Extraction.structured_json (Asset.extraction a'))
                 <> None
         else calls = [Main.CallOcr; Main.CallDetectTable]
              /\ Asset.asset_type a' = Asset.asset_type a
              /\ sj_table (Extraction.structured_json (Asset.extraction a'))
                 = None).
  { intros img image_hash table_deadline a summary n a' summary' calls n' H.
    pose proof (process_asset_inv _ _ _ _ _ _ _ _ _ _ _ H) as Hinv.
    cbv zeta in Hinv. destruct Hinv as (_ & Hchart & Hcase).
    destruct (Table.detected _).
    - destruct Hcase as (t & Ht & -> & Hty & _).
      repeat split; try assumption.
      + intros [|[|[|[]]]]; discriminate.
      + intros [|[|[|[]]]]; discriminate.
      + rewrite Ht. discriminate.
    - destruct Hcase as (Ht & -> & Hty & _).
      repeat split; try assumption.
      + intros [|[|[]]]; discriminate.
      + intros [|[|[]]]; discriminate. }
  split; [exact Hbody|].
  intros req n run Hrun. unfold Main.extract_visuals, _now in Hrun.
  destruct (Main.table_budget env) as [budget|e]; [|discriminate Hrun].
  cbn in Hrun. injection Hrun as <-. unfold Main.handle_request.
  destruct (Main._read_image_bytes env (req_image_uri req) 5.0) as [ib lf].
  assert (Hfail : forall fl h k,
    let r := (let '(elapsed, k') := Main.elapsed_ms env (clock env n) k in
              {| Main.response := Main.respond req [Main.error_asset fl h];
                 Main.logged := [Main.log_line req elapsed 1 (Some lf) None];
                 Main.calls := []; Main.reads := k' |}) in
    ~ In Main.CallDetectBarChart (Main.calls r)
    /\ ~ In Main.CallExtractBarChart (Main.calls r)
    /\ Forall (fun a =>
                 Asset.asset_type a <> Models.AssetChart
                 /\ sj_chart (Extraction.structured_json (Asset.extraction a))
                    = None)
         (assets (Main.content (Main.response r)))).
  { intros fl h k. cbv zeta.
    destruct (Main.elapsed_ms env (clock env n) k) as [el k']. cbn.
    split; [tauto|]. split; [tauto|].
    constructor; [|constructor]. split; [discriminate|reflexivity]. }
  destruct ib as [[|b0 bs]|]; try apply Hfail.
  destruct (Image_open env (b0 :: bs)) as [img|e].
  2:{ destruct (Main.elapsed_ms env (clock env n) (S n)) as [el k']. cbn.
      split; [tauto|]. split; [tauto|].
      constructor; [|constructor]. split; [discriminate|reflexivity]. }
  unfold Layout.detect_layout_assets. cbn [Main.process_assets].
  match goal with
  | |- context [Main.process_asset ?e ?i ?h ?d ?a ?s ?k] =>
      destruct (Main.process_asset e i h d a s k) as [[[a' s'] c'] k'] eqn:Hp
  end.
  destruct (Main.elapsed_ms env (clock env n) k') as [el k'']. cbn.
  rewrite app_nil_r.
  destruct (Hbody _ _ _ _ _ _ _ _ _ _ Hp) as (H1 & H2 & H3 & H4).
  split; [assumption|]. split; [assumption|].
  constructor; [|constructor]. split; [|assumption].
  destruct (Table.detected _).
  - destruct H4 as (_ & -> & _). discriminate.
  - destruct H4 as (_ & -> & _). cbn. discriminate.
Qed.

Lemma orchestrator_table_only_witness :
  exists run,
    Main.extract_visuals
      (Examples.bars_env Examples.still Examples.four_bars)
      (Examples.request "page.png") 0 = Ok run
    /\ ~ In Main.CallDetectBarChart (Main.calls run).
Proof.
  eexists. split; [vm_compute; reflexivity|].
  refine (proj1 (proj2 (orchestrator_table_only
                          (Examples.bars_env Examples.still Examples.four_bars))
                   (Examples.request "page.png") 0%nat _ _)).
  vm_compute. reflexivity.
Defined.

(** C1 as stated fails: on the page with four bars the table detector
    says no and the bar-chart detector, run on the same page, says yes;
    the handler stops after table detection and the asset stays
    "image_text" with no chart payload. *)
Lemma bar_chart_page_stays_image_text :
  let env := Examples.bars_env Examples.still Examples.four_bars in
  ChartBar.detected
    (fst (fst (ChartBar.detect_bar_chart env Examples.bars_page None 0))) = true
  /\ exists run a,
       Main.extract_visuals env (Examples.request "page.png") 0 = Ok run
       /\ Main.calls run = [Main.CallOcr; Main.CallDetectTable]
       /\ ~ In Main.CallDetectBarChart (Main.calls run)
       /\ assets (Main.content (Main.response run)) = [a]
       /\ Asset.quality_flags a !! "table_detected" = Some (VBool false)
       /\ Asset.asset_type a = Models.AssetImageText
       /\ Asset.asset_type a <> Models.AssetChart
       /\ sj_chart (Extraction.structured_json (Asset.extraction a)) = None.
Proof.
  cbv zeta. split; [vm_compute; reflexivity|].
  eexists _, _. split; [vm_compute; reflexivity|].
  split; [reflexivity|].
  split; [intros [|[|[]]]; discriminate|].
  split; [reflexivity|].
  split; [vm_compute; reflexivity|]. split; [reflexivity|].
  split; [discriminate|reflexivity].
Qed.

(** * Further properties of the worker *)

(** ** [_clamp01] *)

Lemma Qle_bool_false (a b : Q) : Qle_bool a b = false -> (b < a)%Q.
Proof.
  intros H. apply Qnot_le_lt. intros Hle. apply Qle_bool_iff in Hle. congruence.
Qed.

(** [_clamp01] maps every number into [0, 1], leaves the numbers of that
    interval unchanged, and is therefore idempotent. *)
Theorem clamp01_unit_interval (v : Q) :
  (0 <= _clamp01 v <= 1)%Q
  /\ ((0 <= v <= 1)%Q -> _clamp01 v = v)
  /\ _clamp01 (_clamp01 v) = _clamp01 v.
Proof.
  assert (Hfix : forall u, (0 <= u <= 1)%Q -> _clamp01 u = u).
  { intros u [H0 H1]. unfold _clamp01.
    destruct (Qlt_bool u 0) eqn:E0.
    { apply Qlt_bool_true in E0. exfalso. eapply Qlt_not_le; eauto. }
    destruct (Qlt_bool 1 u) eqn:E1; [|reflexivity].
    apply Qlt_bool_true in E1. exfalso. eapply Qlt_not_le; eauto. }
  split; [apply clamp01_bounds|]. split; [apply Hfix|].
  apply Hfix, clamp01_bounds.
Qed.

(** ** [detect_table]: what every run returns *)

(** The flags [table_detected] and [grid_detected] of every run of
    [detect_table] repeat the result's fields, a detected table always has
    a detected grid, and the method tag is always "grid_lines_v1". *)
Theorem detect_table_flags_mirror (env : Env) (image : Image)
  (deadline : option Q) (n : nat) :
  let run := Table.detect_table env image deadline n in
  let res := fst (fst run) in
  let flags := snd (fst run) in
  flags !! "table_detected" = Some (VBool (Table.detected res))
  /\ flags !! "grid_detected" = Some (VBool (Table.grid_detected res))
  /\ (Table.detected res = true -> Table.grid_detected res = true)
  /\ Table.method res = "grid_lines_v1".
Proof.
  cbv zeta. unfold Table.detect_table, _safe_import_cv2.
  destruct (_deadline_exceeded env deadline n) as [late n1].
  destruct late;
    [cbn; flag_lookup; repeat split; discriminate|].
  destruct (import_cv2 env) as [cv2|e];
    [|cbn; flag_lookup; repeat split; discriminate].
  destruct (Table.binarize env cv2 image) as [bw|e];
    [|cbn; flag_lookup; repeat split; discriminate].
  destruct (_deadline_exceeded env deadline n1) as [late n2].
  destruct late;
    [cbn; flag_lookup; repeat split; discriminate|].
  destruct (Table.line_masks cv2 bw) as [m|e]; cbn;
    [|flag_lookup; repeat split; discriminate].
  flag_lookup. repeat split.
  intros H. apply andb_true_iff in H. tauto.
Qed.

(** Every run of [detect_table] returns a line-pixel ratio in [0, 1] and a
    non-negative intersection count; a run that sets a failure flag
    ([time_budget_exceeded], [opencv_missing] or [extraction_error])
    returns the all-empty result: nothing detected and no line. *)
Theorem detect_table_result_bounds (env : Env) (image : Image)
  (deadline : option Q) (n : nat) :
  let run := Table.detect_table env image deadline n in
  let res := fst (fst run) in
  let flags := snd (fst run) in
  (0 <= Table.line_pixel_ratio res <= 1)%Q
  /\ 0 <= Table.intersections_count res
  /\ (~ completed flags ->
      Table.detected res = false /\ Table.grid_detected res = false
      /\ Table.x_lines res = [] /\ Table.y_lines res = []
      /\ Table.intersections_count res = 0).
Proof.
  cbv zeta.
  destruct (Table.detect_table env image deadline n) as [[res flags] n'] eqn:Hrun.
  cbn [fst snd].
  destruct (detect_table_inv _ _ _ _ _ _ _ Hrun)
    as [[-> _]|(cv2 & bw & m & _ & _ & _ & -> & Hdone)].
  - cbn. split; [split; discriminate|]. split; [lia|]. intros _. auto.
  - split; [apply clamp01_bounds|]. split; [apply count_nonzero_nonneg|].
    intros Hbad. contradiction.
Qed.

(** ** [_crop_cell] *)

(** The cell image handed to the OCR is never empty: it is at least one
    pixel wide and high, and never larger than the page (or than one pixel
    on an empty page), whatever the requested box. *)
Theorem crop_cell_never_empty (image : Image) (left_ top right bottom : Z) :
  let '(W, H) := size image in
  let '(cw, ch) := size (Table._crop_cell image left_ top right bottom) in
  1 <= cw /\ 1 <= ch /\ cw <= Z.max 1 W /\ ch <= Z.max 1 H.
Proof.
  unfold Table._crop_cell. destruct (size image) as [W H].
  destruct ((_ <=? _) || (_ <=? _)) eqn:E.
  - cbn. lia.
  - apply orb_false_iff in E. destruct E as [E1 E2].
    apply Z.leb_gt in E1, E2. cbn. lia.
Qed.

(** ** [_cap_lines] *)










(** ** Runs of [extract_table] *)

(** The three ways a run of [extract_table] ends: with an empty table (the
    deadline had passed, or the error handler ran), with the rows of the
    grid loops, or with the rows of the OCR-block clustering. *)
Lemma extract_table_cases (env : Env) (image : Image)
  (detect : Table.TableDetectResult) (ocr_blocks : option (list Models.OcrBlock))
  (deadline : option Q) (ocr_fn : option Table.OcrFn) (n : nat) :
  forall t flags n',
    Table.extract_table env image detect ocr_blocks deadline ocr_fn n
    = (t, flags, n') ->
    (Table.rows t = [] /\ Table.confidence t = 0.0%Q /\ Table.notes t <> None
     /\ (Table.table_method t = "grid_lines_v1"
         \/ Table.table_method t = "ocr_cluster_v1"))
    \/ (Table.grid_path detect = true
        /\ Table.table_method t = "grid_lines_v1"
        /\ (exists u st n1,
              Table.rows_grid_loop env image deadline
                (default (fun im => Ok (Table._default_cell_ocr env im)) ocr_fn)
                (Table._cap_lines (Table.x_lines detect) 60)
                (Table._cap_lines (Table.y_lines detect) 80) 2
                (Z.min (len (Table._cap_lines (Table.x_lines detect) 60) - 1) 20)
                (range
                   (Z.min (len (Table._cap_lines (Table.y_lines detect) 80) - 1)
                      40))
                {| Table.g_rows := []; Table.g_cell_flags := ∅;
                   Table.g_flags :=
                     <["used_fallback_clustering" := VBool false]>
                       (<["grid_detected" := VBool (Table.grid_detected detect)]>
                          {["table_detected" := VBool (Table.detected detect)]});
                   Table.g_reads := n1 |}
              = (Ok u, st)
              /\ Table.rows t = Table.g_rows st)
        /\ exists base g,
             (0 <= g <= 1)%Q
             /\ Table.confidence t = _clamp01 (base + 0.25 * g)
             /\ (base = 0.45%Q \/ base = 0.65%Q)
             /\ (Table.notes t = None -> base = 0.65%Q))
    \/ (Table.grid_path detect = false
        /\ Table.table_method t = "ocr_cluster_v1"
        /\ exists grid r c,
             Table._cluster_blocks_to_grid (default [] ocr_blocks)
               (fst (size image)) (snd (size image)) = Ok (grid, r, c)
             /\ Table.rows t = grid
             /\ Table.confidence t
                = if (0 <? r) && (0 <? c) then 0.35%Q else 0.15%Q).
Proof.
  intros t flags n' H.
  unfold Table.extract_table, _now in H.
  destruct (size image) as [img_w img_h]. cbn [fst snd].
  destruct (_deadline_exceeded env deadline (S n)) as [late n1].
  destruct late.
  { injection H as <- _ _. left. cbn. split; [reflexivity|]. split; [reflexivity|].
    split; [discriminate|]. first [left; reflexivity|right; reflexivity]. }
  fold (Table.grid_path detect) in H.
  destruct (Table.grid_path detect) eqn:Egp.
  - match type of H with
    | context [Table.rows_grid_loop ?e ?i ?d ?o ?xs ?ys ?p ?mc ?ris ?st] =>
        destruct (Table.rows_grid_loop e i d o xs ys p mc ris st)
          as [r st'] eqn:E
    end.
    destruct r as [u|e].
    2:{ injection H as <- _ _. left. cbn. split; [reflexivity|]. split; [reflexivity|].
    split; [discriminate|]. first [left; reflexivity|right; reflexivity]. }
    right. left. split; [reflexivity|].
    assert (Hg : (0 <= _clamp01
                         (minq 1.0 (float_ (Table.intersections_count detect)
                                    / 4000.0)) <= 1)%Q)
      by apply clamp01_bounds.
    destruct (truthy_value _) eqn:Et; injection H as <- _ _; cbn;
      (split; [reflexivity|]);
      (split; [exists u, st', n1; split; [exact E|reflexivity]|]).
    + eexists 0.45%Q, _. split; [exact Hg|]. split; [reflexivity|].
      split; [left; reflexivity|]. discriminate.
    + eexists 0.65%Q, _. split; [exact Hg|]. split; [reflexivity|].
      split; [right; reflexivity|]. reflexivity.
  - destruct (_deadline_exceeded env deadline n1) as [late n2].
    destruct late.
    { injection H as <- _ _. left. cbn. split; [reflexivity|]. split; [reflexivity|].
    split; [discriminate|]. first [left; reflexivity|right; reflexivity]. }
    destruct (Table._cluster_blocks_to_grid _ img_w img_h)
      as [[[grid r] c]|e] eqn:Ecl.
    2:{ injection H as <- _ _. left. cbn. split; [reflexivity|]. split; [reflexivity|].
    split; [discriminate|]. first [left; reflexivity|right; reflexivity]. }
    right. right. split; [reflexivity|].
    destruct (len grid =? 0); injection H as <- _ _; cbn;
      (split; [reflexivity|]); exists grid, r, c; auto.
Qed.

Section grid_bounds.
Context (env : Env) (image : Image) (deadline : option Q) (ocr : Table.OcrFn).
Context (x_lines y_lines : list Z) (pad : Z).

(** Whatever the clock and the OCR do, the row loop appends at most one row
    per index, and no row is longer than the number of columns. *)
Lemma rows_grid_loop_bounded (max_cols : Z) (ris : list Z) :
  forall st r st',
    Table.rows_grid_loop env image deadline ocr x_lines y_lines pad max_cols ris st
    = (r, st') ->
    exists new,
      Table.g_rows st' = Table.g_rows st ++ new
      /\ (length new <= length ris)%nat
      /\ Forall (fun row => (length row <= Z.to_nat max_cols)%nat) new.
Proof.
  assert (Hnone : forall (l : list (list string)) (k : nat),
             exists new, l = l ++ new /\ (length new <= k)%nat
                         /\ Forall (fun row : list string =>
                                      (length row <= Z.to_nat max_cols)%nat) new).
  { intros l k. exists []. rewrite app_nil_r. cbn. repeat split; [lia|constructor]. }
  induction ris as [|ri ris IH]; intros st r st' H; cbn in H.
  - injection H as <- <-. apply Hnone.
  - destruct (_deadline_exceeded env deadline (Table.g_reads st)) as [late n1].
    destruct late; [injection H as <- <-; apply Hnone|].
    match type of H with
    | match ?m with Ok _ => _ | Raise _ => _ end = _ =>
        destruct m as [[top bottom]|e]
    end; [|injection H as <- <-; apply Hnone].
    destruct (Table.cols_loop env image deadline ocr x_lines pad top bottom
                (range max_cols) [] (Table.g_cell_flags st) (Table.g_flags st) n1)
      as [[[rc cf'] fl'] n2] eqn:Ec.
    destruct rc as [row_cells|e]; [|injection H as <- <-; apply Hnone].
    apply cols_loop_length in Ec. destruct Ec as [_ Hlen].
    assert (Hrange : length (range max_cols) = Z.to_nat max_cols).
    { unfold range. rewrite length_map, length_seq. reflexivity. }
    cbn [length Nat.add] in Hlen. rewrite Hrange in Hlen.
    apply IH in H. cbn [Table.g_rows] in H.
    destruct H as (new & Hrows & Hcount & Hall).
    exists (row_cells :: new). rewrite Hrows, <- app_assoc. cbn.
    split; [reflexivity|]. split; [lia|].
    constructor; [|assumption]. destruct Hlen as [->|[Hlt _]]; lia.
Qed.

End grid_bounds.

(** Whenever [extract_table] answers with the method "grid_lines_v1", the
    table has at most 40 rows and no row has more than 20 cells, so the
    cell OCR is called at most 800 times. *)
Theorem grid_cell_cap (env : Env) (image : Image)
  (detect : Table.TableDetectResult) (ocr_blocks : option (list Models.OcrBlock))
  (deadline : option Q) (ocr_fn : option Table.OcrFn) (n : nat) :
  let t := fst (fst (Table.extract_table env image detect ocr_blocks deadline
                       ocr_fn n)) in
  Table.table_method t = "grid_lines_v1" ->
  len (Table.rows t) <= 40 /\ Forall (fun row => len row <= 20) (Table.rows t).
Proof.
  cbv zeta.
  destruct (Table.extract_table env image detect ocr_blocks deadline ocr_fn n)
    as [[t flags] n'] eqn:Hrun.
  cbn [fst]. intros Hm.
  destruct (extract_table_cases _ _ _ _ _ _ _ _ _ _ Hrun)
    as [(-> & _)|[(_ & _ & (u & st & n1 & Hloop & ->) & _)|(_ & Hm' & _)]].
  - split; [unfold len; cbn; lia|constructor].
  - apply rows_grid_loop_bounded in Hloop. cbn [Table.g_rows app] in Hloop.
    destruct Hloop as (new & -> & Hcount & Hall).
    unfold range in Hcount. rewrite length_map, length_seq in Hcount.
    split; [unfold len; lia|].
    eapply List.Forall_impl; [|exact Hall]. cbv beta. intros row Hrow.
    unfold len. lia.
  - rewrite Hm in Hm'. discriminate.
Qed.

Lemma grid_cell_cap_witness :
  let t := fst (fst (Table.extract_table
                       (Examples.ex_env Examples.still Examples.ruled_cv2
                          Examples.no_files Examples.undecodable)
                       Examples.ruled_page Examples.grid_4x3 None None
                       (Some Examples._stub_cell_ocr) 0)) in
  Table.table_method t = "grid_lines_v1" /\ len (Table.rows t) <= 40.
Proof.
  cbv zeta.
  assert (Hm : Table.table_method
                 (fst (fst (Table.extract_table
                              (Examples.ex_env Examples.still Examples.ruled_cv2
                                 Examples.no_files Examples.undecodable)
                              Examples.ruled_page Examples.grid_4x3 None None
                              (Some Examples._stub_cell_ocr) 0)))
               = "grid_lines_v1") by (vm_compute; reflexivity).
  split; [exact Hm|].
  exact (proj1 (grid_cell_cap _ _ _ _ _ _ _ Hm)).
Defined.

Lemma getitem_ok {A} (l : list A) (i : Z) :
  0 <= i < len l -> exists x, getitem l i = Ok x.
Proof.
  intros [H0 H1]. unfold getitem.
  destruct (Z.ltb_spec i 0) as [|_]; [lia|].
  destruct (Z.ltb_spec i 0) as [|_]; [lia|].
  destruct (l !! Z.to_nat i) as [x|] eqn:E; [eauto|].
  apply lookup_ge_None in E. unfold len in H1. lia.
Qed.

Section grid_complete.
Context (env : Env) (image : Image) (ocr : Table.OcrFn).
Context (x_lines y_lines : list Z) (pad : Z).
Context (Hocr : forall im, exists r, ocr im = Ok r).

Lemma cols_loop_complete (top bottom : Z) (cis : list Z) :
  Forall (fun ci => 0 <= ci /\ ci + 1 < len x_lines) cis ->
  forall row cf fl n,
    exists row' cf',
      Table.cols_loop env image None ocr x_lines pad top bottom cis row cf fl n
      = (Ok row', cf', fl, n)
      /\ length row' = (length row + length cis)%nat.
Proof.
  induction 1 as [|ci cis [Hci0 Hci1] Hrest IH]; intros row cf fl n; cbn.
  - exists row, cf. split; [reflexivity|lia].
  - destruct (getitem_ok x_lines ci ltac:(lia)) as [l ->].
    destruct (getitem_ok x_lines (ci + 1) ltac:(lia)) as [r ->]. cbn.
    destruct (Hocr (Table._crop_cell image (l + pad) (top + pad) (r - pad)
                      (bottom - pad))) as [[txt f] ->].
    destruct (IH (row ++ [if truthy txt then txt else ""]) (update cf f) fl n)
      as (row' & cf' & -> & Hlen).
    exists row', cf'. split; [reflexivity|].
    rewrite length_app in Hlen. cbn in Hlen. lia.
Qed.

Lemma rows_grid_loop_complete (max_cols : Z) (ris : list Z) :
  max_cols < len x_lines ->
  Forall (fun ri => 0 <= ri /\ ri + 1 < len y_lines) ris ->
  forall st,
    exists st' new,
      Table.rows_grid_loop env image None ocr x_lines y_lines pad max_cols ris st
      = (Ok (), st')
      /\ Table.g_rows st' = Table.g_rows st ++ new
      /\ length new = length ris
      /\ Forall (fun row => length row = Z.to_nat max_cols) new.
Proof.
  intros Hcols.
  assert (Hcis : Forall (fun ci => 0 <= ci /\ ci + 1 < len x_lines)
                   (range max_cols)).
  { apply List.Forall_forall. intros ci Hci. apply range_spec in Hci. lia. }
  induction 1 as [|ri ris [Hri0 Hri1] Hrest IH]; intros st; cbn.
  - exists st, []. rewrite app_nil_r. repeat split. constructor.
  - destruct (getitem_ok y_lines ri ltac:(lia)) as [top ->].
    destruct (getitem_ok y_lines (ri + 1) ltac:(lia)) as [bottom ->]. cbn.
    destruct (cols_loop_complete top bottom (range max_cols) Hcis []
                (Table.g_cell_flags st) (Table.g_flags st) (Table.g_reads st))
      as (row & cf' & -> & Hlen).
    destruct (IH {| Table.g_rows := Table.g_rows st ++ [row];
                    Table.g_cell_flags := cf';
                    Table.g_flags := Table.g_flags st;
                    Table.g_reads := Table.g_reads st |})
      as (st' & new & -> & Hrows & Hcount & Hall).
    exists st', (row :: new). split; [reflexivity|].
    cbn [Table.g_rows] in Hrows. rewrite Hrows, <- app_assoc. cbn.
    split; [reflexivity|]. split; [lia|].
    constructor; [|assumption].
    unfold range in Hlen. rewrite length_map, length_seq in Hlen. exact Hlen.
Qed.

End grid_complete.

(** Without a deadline, and with a cell OCR that does not raise, the
    grid-slice path fills the whole grid: one row per band between
    consecutive horizontal rules (at most 40) and one cell per band between
    consecutive vertical rules (at most 20). *)
Theorem complete_grid_without_deadline (env : Env) (image : Image)
  (detect : Table.TableDetectResult) (ocr_blocks : option (list Models.OcrBlock))
  (ocr_fn : option Table.OcrFn) (n : nat) :
  Table.grid_path detect = true ->
  (forall f im, ocr_fn = Some f -> exists r, f im = Ok r) ->
  let t := fst (fst (Table.extract_table env image detect ocr_blocks None
                       ocr_fn n)) in
  let xs := Table._cap_lines (Table.x_lines detect) 60 in
  let ys := Table._cap_lines (Table.y_lines detect) 80 in
  Table.table_method t = "grid_lines_v1"
  /\ len (Table.rows t) = Z.min (len ys - 1) 40
  /\ Forall (fun row => len row = Z.min (len xs - 1) 20) (Table.rows t).
Proof.
  intros Hgp Hocr. cbv zeta.
  pose proof Hgp as Hgp'. unfold Table.grid_path in Hgp'.
  apply andb_true_iff in Hgp'. destruct Hgp' as [Hgp' Hy].
  apply andb_true_iff in Hgp'. destruct Hgp' as [_ Hx].
  apply Z.leb_le in Hx, Hy.
  unfold Table.extract_table, _now, _deadline_exceeded.
  destruct (size image) as [img_w img_h].
  fold (Table.grid_path detect). rewrite Hgp.
  set (ocr := default (fun im => Ok (Table._default_cell_ocr env im)) ocr_fn).
  assert (Hocr' : forall im, exists r, ocr im = Ok r).
  { intros im. subst ocr. destruct ocr_fn as [f|]; cbn; [eapply Hocr|]; eauto. }
  match goal with
  | |- context [Table.rows_grid_loop ?e ?i None ?o ?xs ?ys ?p ?mc ?ris ?st] =>
      destruct (rows_grid_loop_complete e i o xs ys p Hocr' mc ris
                  ltac:(lia)
                  ltac:(apply List.Forall_forall; intros ri Hri;
                        apply range_spec in Hri; lia) st)
        as (st' & new & -> & Hrows & Hcount & Hall)
  end.
  cbn [Table.g_rows app] in Hrows.
  assert (Hshape :
    len (Table.g_rows st')
    = Z.min (len (Table._cap_lines (Table.y_lines detect) 80) - 1) 40
    /\ Forall (fun row : list string =>
                 len row
                 = Z.min (len (Table._cap_lines (Table.x_lines detect) 60) - 1) 20)
         (Table.g_rows st')).
  { rewrite Hrows. split.
    - unfold len at 1. rewrite Hcount. unfold range.
      rewrite length_map, length_seq. lia.
    - eapply List.Forall_impl; [|exact Hall]. cbv beta. intros row Hrow.
      unfold len at 1. rewrite Hrow. lia. }
  destruct (truthy_value _); cbn; (split; [reflexivity|exact Hshape]).
Qed.

Lemma complete_grid_without_deadline_witness :
  let t := fst (fst (Table.extract_table
                       (Examples.ex_env Examples.still Examples.ruled_cv2
                          Examples.no_files Examples.undecodable)
                       Examples.ruled_page Examples.grid_4x3 None None
                       (Some Examples._stub_cell_ocr) 0)) in
  Table.grid_path Examples.grid_4x3 = true
  /\ (forall f im, Some Examples._stub_cell_ocr = Some f -> exists r, f im = Ok r)
  /\ len (Table.rows t) = 2.
Proof.
  cbv zeta.
  assert (Ho : forall f im, Some Examples._stub_cell_ocr = Some f ->
                            exists r, f im = Ok r).
  { intros f im [= <-]. eexists. reflexivity. }
  split; [reflexivity|]. split; [exact Ho|].
  exact (proj1 (proj2 (complete_grid_without_deadline
                         (Examples.ex_env Examples.still Examples.ruled_cv2
                            Examples.no_files Examples.undecodable)
                         Examples.ruled_page Examples.grid_4x3 None
                         (Some Examples._stub_cell_ocr) 0 eq_refl Ho))).
Defined.

(** Every path of [extract_table] returns a confidence in [0, 1] and one of
    the two method tags; a grid result without a note has confidence
    between 0.65 and 0.90, and a clustering result never exceeds 0.35. *)
Theorem extract_table_confidence (env : Env) (image : Image)
  (detect : Table.TableDetectResult) (ocr_blocks : option (list Models.OcrBlock))
  (deadline : option Q) (ocr_fn : option Table.OcrFn) (n : nat) :
  let t := fst (fst (Table.extract_table env image detect ocr_blocks deadline
                       ocr_fn n)) in
  (0 <= Table.confidence t <= 1)%Q
  /\ (Table.table_method t = "grid_lines_v1"
      \/ Table.table_method t = "ocr_cluster_v1")
  /\ (Table.table_method t = "grid_lines_v1" -> Table.notes t = None ->
      (0.65 <= Table.confidence t <= 0.90)%Q)
  /\ (Table.table_method t = "ocr_cluster_v1" ->
      (Table.confidence t <= 0.35)%Q).
Proof.
  cbv zeta.
  destruct (Table.extract_table env image detect ocr_blocks deadline ocr_fn n)
    as [[t flags] n'] eqn:Hrun.
  cbn [fst].
  destruct (extract_table_cases _ _ _ _ _ _ _ _ _ _ Hrun)
    as [(_ & Hc & Hnotes & Hm)
       |[(_ & Hm & _ & base & g & Hg & Hc & Hbase & Hnone)
        |(_ & Hm & grid & r & c & _ & _ & Hc)]].
  - rewrite Hc. split; [split; discriminate|]. split; [exact Hm|].
    split; [intros _ Hn; contradiction|]. intros _. discriminate.
  - rewrite Hc, Hm. split; [apply clamp01_bounds|]. split; [left; reflexivity|].
    split; [|discriminate]. intros _ Hn. rewrite (Hnone Hn).
    destruct Hg as [Hg0 Hg1].
    assert (Hlo : (0.65 <= 0.65 + 0.25 * g)%Q).
    { rewrite <- (Qplus_0_r 0.65) at 1. apply Qplus_le_r.
      apply Qmult_le_0_compat; [discriminate|assumption]. }
    assert (Hhi : (0.65 + 0.25 * g <= 0.90)%Q).
    { apply Qle_trans with (0.65 + 0.25 * 1)%Q; [|discriminate].
      apply Qplus_le_r. apply Qmult_le_l; [reflexivity|assumption]. }
    assert (Hfix : _clamp01 (0.65 + 0.25 * g) = (0.65 + 0.25 * g)%Q).
    { unfold _clamp01.
      destruct (Qlt_bool (0.65 + 0.25 * g) 0) eqn:E0.
      { apply Qlt_bool_true in E0. exfalso.
        apply (Qlt_not_le _ _ E0). eapply Qle_trans; [|exact Hlo]. discriminate. }
      destruct (Qlt_bool 1 (0.65 + 0.25 * g)) eqn:E1; [|reflexivity].
      apply Qlt_bool_true in E1. exfalso.
      apply (Qlt_not_le _ _ E1). eapply Qle_trans; [exact Hhi|]. discriminate. }
    rewrite Hfix. split; assumption.
  - rewrite Hc, Hm. destruct ((0 <? r) && (0 <? c)).
    + split; [split; discriminate|]. split; [right; reflexivity|].
      split; [discriminate|]. intros _. discriminate.
    + split; [split; discriminate|]. split; [right; reflexivity|].
      split; [discriminate|]. intros _. discriminate.
Qed.

(** *** OCR-box clustering *)

Lemma argmin_from_bounds {K} (ltb : K -> K -> bool) (l : list K) :
  forall best_i best i,
    0 <= best_i < i ->
    0 <= argmin_from ltb best_i best i l < i + len l.
Proof.
  induction l as [|v l IH]; intros best_i best i Hb; cbn [argmin_from].
  - unfold len; cbn. lia.
  - unfold len in *. cbn [length]. rewrite Nat2Z.inj_succ.
    destruct (ltb v best).
    + specialize (IH i v (i + 1)). lia.
    + specialize (IH best_i best (i + 1)). lia.
Qed.

Lemma argmin_nonempty {K} (ltb : K -> K -> bool) (l : list K) :
  l <> [] -> exists j, argmin ltb l = Ok j /\ 0 <= j < len l.
Proof.
  destruct l as [|v l]; [congruence|]. intros _.
  eexists. split; [reflexivity|].
  pose proof (argmin_from_bounds ltb l 0 v 1 ltac:(lia)) as H.
  unfold len in *. cbn [length]. lia.
Qed.

Lemma centers_loop_nonempty (x_gap : Z) (xs : list Z) :
  forall centers, centers <> [] -> Table.centers_loop x_gap xs centers <> [].
Proof.
  induction xs as [|x xs IH]; intros centers Hc; cbn [Table.centers_loop];
    [exact Hc|].
  cbv zeta. destruct (x_gap <? Z.abs (x - List.last centers 0)); apply IH;
    intros E; apply app_eq_nil in E; destruct E; discriminate.
Qed.

Lemma words_loop_length (centers : list Z) (r : list (Z * string)) :
  centers <> [] ->
  forall cell_words,
    exists out, Table.words_loop centers r cell_words = Ok out
                /\ length out = length cell_words.
Proof.
  intros Hc. induction r as [|[x text] r IH]; intros cell_words;
    cbn [Table.words_loop].
  - eauto.
  - destruct (argmin_nonempty Z.ltb (map (fun c => Z.abs (x - c)) centers))
      as (j & Hj & _).
    { destruct centers; [congruence|discriminate]. }
    rewrite Hj. cbn.
    destruct (IH (Table.append_at cell_words j text)) as (out & Ho & Hl).
    exists out. split; [exact Ho|]. rewrite Hl. unfold Table.append_at.
    apply length_alter.
Qed.

Lemma grid_rows_shape_of (centers : list Z) (rows : list (list (Z * string))) :
  centers <> [] ->
  exists grid, Table.grid_rows centers rows = Ok grid
               /\ length grid = length rows
               /\ List.Forall (fun row => length row = length centers) grid.
Proof.
  intros Hc. induction rows as [|r rows IH]; cbn [Table.grid_rows].
  - exists []. split; [reflexivity|]. split; [reflexivity|]. constructor.
  - destruct (words_loop_length centers r Hc (replicate (length centers) []))
      as (cw & Hcw & Hl).
    destruct IH as (rest & Hr & Hlr & Hall).
    rewrite Hcw. cbn. rewrite Hr. cbn.
    eexists. split; [reflexivity|]. split; [cbn; congruence|].
    constructor; [|exact Hall].
    rewrite length_map, Hl. apply length_replicate.
Qed.

(** The row grouping keeps every word once: the closed groups and the open
    group together hold the words of the input, and no closed group is
    empty. *)
Lemma rows_loop_invariant (y_tol : Z) (items : list (Z * Z * string)) :
  forall rows cur cur_y rows' cur',
    Table.rows_loop y_tol items rows cur cur_y = (rows', cur') ->
    (cur_y = None -> cur = []) ->
    (cur_y <> None -> cur <> []) ->
    List.Forall (fun r => r <> []) rows ->
    List.Forall (fun r => r <> []) rows'
    /\ (cur <> [] \/ items <> [] -> cur' <> [])
    /\ Permutation (concat rows' ++ cur')
         (concat rows ++ cur ++ map (fun t => (fst (fst t), snd t)) items).
Proof.
  induction items as [|[[x y] text] items IH];
    intros rows cur cur_y rows' cur' H Hnone Hsome Hrows;
    cbn [Table.rows_loop] in H.
  - inversion H; subst. split; [exact Hrows|].
    split; [intros [E|E]; congruence|].
    cbn. rewrite app_nil_r. reflexivity.
  - assert (Hone : forall l : list (Z * string), l ++ [(x, text)] <> []).
    { intros l E. apply app_eq_nil in E. destruct E; discriminate. }
    destruct cur_y as [cy|].
    + destruct (Z.abs (y - cy) <=? y_tol).
      * apply IH in H; [|discriminate|intros _; apply Hone|exact Hrows].
        destruct H as (H1 & H2 & H3). split; [exact H1|].
        split; [intros _; apply H2; left; apply Hone|].
        rewrite H3. cbn [map fst snd]. rewrite <- !app_assoc. reflexivity.
      * apply IH in H; [|discriminate|intros _; discriminate|].
        2:{ apply Forall_app. split; [exact Hrows|].
            constructor; [|constructor].
            intros E. apply (Hsome ltac:(discriminate)).
            apply (f_equal (@length _)) in E.
            rewrite sorted_length in E. destruct cur; [reflexivity|discriminate]. }
        destruct H as (H1 & H2 & H3). split; [exact H1|].
        split; [intros _; apply H2; left; discriminate|].
        rewrite H3. rewrite concat_app. cbn [concat map fst snd].
        rewrite app_nil_r, <- !app_assoc.
        apply Permutation_app_head. cbn [app].
        apply Permutation_app_tail. apply sorted_perm.
    + apply IH in H; [|discriminate|intros _; discriminate|exact Hrows].
      destruct H as (H1 & H2 & H3). split; [exact H1|].
      split; [intros _; apply H2; left; discriminate|].
      rewrite H3, (Hnone eq_refl). reflexivity.
Qed.

Lemma centers_loop_length (x_gap : Z) (xs : list Z) :
  forall centers,
    (length (Table.centers_loop x_gap xs centers) <= length centers + length xs)%nat.
Proof.
  induction xs as [|x xs IH]; intros centers; cbn [Table.centers_loop length];
    [lia|].
  cbv zeta. destruct (x_gap <? Z.abs (x - List.last centers 0)).
  - specialize (IH (centers ++ [x])). rewrite length_app in IH. cbn in IH. lia.
  - specialize (IH (removelast centers ++
                      [int_ (F64.div (F64.of_int (List.last centers 0 + x)) 2)])).
    rewrite length_app in IH. cbn [length] in IH.
    assert (length (removelast centers) <= length centers)%nat.
    { clear. induction centers as [|a [|b l] IHl]; cbn in *; lia. }
    lia.
Qed.

Lemma nonempty_rows_length {A} (rows : list (list A)) :
  List.Forall (fun r => r <> []) rows ->
  (length rows <= length (concat rows))%nat.
Proof.
  induction 1 as [|r rows Hr _ IH]; cbn; [lia|].
  rewrite length_app. destruct r; [congruence|]. cbn. lia.
Qed.

Lemma flat_map_fst_length {A B} (rows : list (list (A * B))) :
  length (flat_map (map fst) rows) = length (concat rows).
Proof.
  induction rows as [|r rows IH]; cbn; [reflexivity|].
  rewrite !length_app, length_map, IH. reflexivity.
Qed.

Lemma text_items_length (f : Models.OcrBlock -> Z * Z * string)
  (blocks : list Models.OcrBlock) :
  length (flat_map (fun b => if negb (truthy (Models.text b)) then []
                             else [f b]) blocks)
  = length (List.filter (fun b => truthy (Models.text b)) blocks).
Proof.
  induction blocks as [|b blocks IH]; cbn; [reflexivity|].
  destruct (truthy (Models.text b)); cbn; congruence.
Qed.

(** [_cluster_blocks_to_grid] (table.py 288-350) never raises and returns a
    rectangular grid with its own dimensions: the row count is the length of
    the grid and every row has the returned number of columns.  The grid is
    non-empty exactly when the image has positive width and height and some
    block has a non-empty text, and then it has at least one column; neither
    dimension exceeds the number of blocks with a non-empty text. *)
Theorem cluster_grid_rectangular (blocks : list Models.OcrBlock)
  (img_w img_h : Z) :
  exists grid c,
    Table._cluster_blocks_to_grid blocks img_w img_h = Ok (grid, len grid, c)
    /\ List.Forall (fun row => len row = c) grid
    /\ (grid <> [] <->
        0 < img_w /\ 0 < img_h
        /\ List.Exists (fun b => truthy (Models.text b) = true) blocks)
    /\ (grid <> [] <-> 0 < c)
    /\ len grid <= len (List.filter (fun b => truthy (Models.text b)) blocks)
    /\ c <= len (List.filter (fun b => truthy (Models.text b)) blocks).
Proof.
  assert (Hex : forall bs : list Models.OcrBlock,
             List.Exists (fun b => truthy (Models.text b) = true) bs
             <-> List.filter (fun b => truthy (Models.text b)) bs <> []).
  { induction bs as [|b bs IH]; cbn.
    - split; [intros H; inversion H|congruence].
    - destruct (truthy (Models.text b)) eqn:E.
      + split; [discriminate|]. intros _. left. exact E.
      + rewrite <- IH. split; [|intros H; right; exact H].
        intros H. inversion H; subst; [congruence|assumption]. }
  assert (Hnil : 0 <= len (List.filter (fun b => truthy (Models.text b)) blocks)).
  { unfold len. lia. }
  assert (Hempty :
    ~ (0 < img_w /\ 0 < img_h
       /\ List.Exists (fun b => truthy (Models.text b) = true) blocks) ->
    exists grid c,
      Ok (A := list (list string) * Z * Z) ([], 0, 0) = Ok (grid, len grid, c)
      /\ List.Forall (fun row => len row = c) grid
      /\ (grid <> [] <->
          0 < img_w /\ 0 < img_h
          /\ List.Exists (fun b => truthy (Models.text b) = true) blocks)
      /\ (grid <> [] <-> 0 < c)
      /\ len grid <= len (List.filter (fun b => truthy (Models.text b)) blocks)
      /\ c <= len (List.filter (fun b => truthy (Models.text b)) blocks)).
  { intros Hno. exists [], 0. split; [reflexivity|]. split; [constructor|].
    split; [split; [congruence|intros H; destruct (Hno H)]|].
    split; [split; [congruence|lia]|]. split; [exact Hnil|exact Hnil]. }
  unfold Table._cluster_blocks_to_grid.
  destruct ((len blocks =? 0) || (img_w <=? 0) || (img_h <=? 0)) eqn:Eguard.
  { apply Hempty. intros (Hw & Hh & Hb).
    apply orb_true_iff in Eguard. destruct Eguard as [Eguard|Eguard]; [|lia].
    apply orb_true_iff in Eguard. destruct Eguard as [Eguard|Eguard]; [|lia].
    destruct blocks; [inversion Hb|]. apply Z.eqb_eq in Eguard.
    unfold len in Eguard. cbn [length] in Eguard. lia. }
  apply orb_false_iff in Eguard. destruct Eguard as [Eguard Eh].
  apply orb_false_iff in Eguard. destruct Eguard as [_ Ew].
  cbv zeta.
  match goal with
  | |- context [flat_map ?f blocks] => set (items := flat_map f blocks)
  end.
  assert (Hitems : length items
                   = length (List.filter (fun b => truthy (Models.text b)) blocks)).
  { unfold items.
    apply (text_items_length
             (fun b => (int_ (F64.mul
                                (F64.add (Models.x (Models.bbox b))
                                   (F64.div (Models.w (Models.bbox b)) 2.0))
                                (F64.of_int img_w)),
                        int_ (F64.mul
                                (F64.add (Models.y (Models.bbox b))
                                   (F64.div (Models.h (Models.bbox b)) 2.0))
                                (F64.of_int img_h)),
                        strip (Models.text b)))). }
  destruct (len items =? 0) eqn:Elen.
  { apply Hempty. intros (_ & _ & Hb). apply Hex in Hb.
    apply Z.eqb_eq in Elen. unfold len in Elen. rewrite Hitems in Elen.
    destruct (List.filter _ blocks); [congruence|]. cbn [length] in Elen. lia. }
  apply Z.eqb_neq in Elen. unfold len in Elen.
  assert (Hpos : (0 < length items)%nat) by lia.
  set (sitems := sorted pair_ltb (fun t => (snd (fst t), fst (fst t))) items).
  assert (Hs : length sitems = length items) by apply sorted_length.
  destruct (Table.rows_loop (Z.max 8 (int_mul img_h 0.02)) sitems [] []
              None) as [rows cur] eqn:Hloop.
  apply rows_loop_invariant in Hloop;
    [|reflexivity|congruence|constructor].
  destruct Hloop as (Hrows & Hcur & Hperm).
  assert (Hsne : sitems <> []).
  { intros E. rewrite E in Hs. cbn [length] in Hs. lia. }
  specialize (Hcur (or_intror Hsne)).
  destruct (len cur =? 0) eqn:Ecur.
  { destruct cur; [congruence|]. apply Z.eqb_eq in Ecur.
    unfold len in Ecur. cbn [length] in Ecur. lia. }
  set (rows1 := rows ++ [sorted Z.ltb fst cur]).
  assert (Hrows1 : List.Forall (fun r => r <> []) rows1).
  { apply Forall_app. split; [exact Hrows|]. constructor; [|constructor].
    intros E. apply (f_equal (@length _)) in E. rewrite sorted_length in E.
    destruct cur; [congruence|discriminate]. }
  assert (Hcount : length (concat rows1) = length items).
  { unfold rows1. rewrite concat_app, length_app. cbn [concat].
    rewrite app_nil_r, sorted_length, <- length_app.
    rewrite (Permutation_length Hperm). cbn [concat app].
    rewrite length_map. exact Hs. }
  assert (Hxs : length (sorted Z.ltb (fun v => v) (flat_map (map fst) rows1))
                = length items).
  { rewrite sorted_length, flat_map_fst_length. exact Hcount. }
  destruct (sorted Z.ltb (fun v => v) (flat_map (map fst) rows1))
    as [|x0 xs'] eqn:Exs.
  { exfalso. cbn [length] in Hxs. lia. }
  set (centers := Table.centers_loop
                    (Z.max 12 (int_mul img_w 0.04)) xs' [x0]).
  assert (Hcne : centers <> []).
  { apply centers_loop_nonempty. discriminate. }
  destruct (grid_rows_shape_of centers rows1 Hcne) as (grid & Hg & Hgl & Hall).
  rewrite Hg. cbn.
  exists grid, (len centers). split; [reflexivity|].
  split.
  { eapply List.Forall_impl; [|exact Hall]. intros row Hrow. unfold len.
    congruence. }
  assert (Hgne : grid <> []).
  { intros E. rewrite E in Hgl. unfold rows1 in Hgl.
    rewrite length_app in Hgl. cbn in Hgl. lia. }
  split.
  { split; [|intros _; exact Hgne]. intros _.
    split; [lia|]. split; [lia|]. apply Hex.
    intros E. rewrite E in Hitems. cbn [length] in Hitems. lia. }
  split.
  { split; [|intros _; exact Hgne]. intros _. unfold len.
    destruct centers; [congruence|]. cbn. lia. }
  unfold len. rewrite <- Hitems. split.
  - rewrite Hgl, <- Hcount. apply inj_le. apply nonempty_rows_length.
    exact Hrows1.
  - pose proof (centers_loop_length (Z.max 12 (int_mul img_w 0.04))
                  xs' [x0]) as Hc.
    fold centers in Hc. cbn [length] in Hc, Hxs. apply inj_le. lia.
Qed.
